(** * A shallow embedding of the chat / call / SFU backend

    The development follows the layout of the repository:

    - [JsMap]: the insertion-ordered [Map] of JavaScript, which the server
      uses for [connectedUsers], [activeCalls], [room.peers],
      [peer.producers] and [peer.consumers].  Iteration order is observable
      (first matching session, first peer owning a producer), so a map is an
      association list in insertion order.
    - [Db]: the tables of [db/schema.sql] and the query modules under
      [db/queries/] ([users], [rooms], [messages], [calls]).  A table is the
      list of its rows; [NOW()] and [uuid_generate_v4()] are inputs of the
      query that evaluates them.
    - [Media]: the [MediaServer] class of [mediaServer.js].  Calls into the
      media library and the random port draw are inputs of the method that
      makes them.
    - [Hub]: the socket handlers and REST routes of [index.js].

    Every handler is modelled as one atomic step on the server state: a
    handler runs to completion before the next one is taken from the queue.
    Surrogate [id] columns of the join tables ([room_participants],
    [message_status], [call_participants]) are never read by the server and
    are left out of the rows. *)

From Stdlib Require Import List String Ascii Bool ZArith QArith Qround Lia.
From Stdlib Require Import DecimalString Sorted.
Import ListNotations.

Local Open Scope Z_scope.
Local Open Scope string_scope.

#[local] Set Warnings "-register-all".

(** ** Results of calls that may throw *)

Inductive outcome (A : Type) : Type :=
| Ok (a : A)
| Throw (msg : string).
Arguments Ok {A} a.
Arguments Throw {A} msg.

(** A value received from a client that may be [undefined]; JavaScript
    truthiness of such a value. *)
Definition truthy (v : option string) : bool :=
  match v with
  | Some s => negb (s =? "")
  | None => false
  end.

Definition opt_eqb (a b : option string) : bool :=
  match a, b with
  | Some x, Some y => x =? y
  | None, None => true
  | _, _ => false
  end.

(** ** JavaScript [Map] with string keys *)

Module JsMap.
Section Ops.
Context {V : Type}.

Definition t := list (string * V).

Definition empty : t := [].

Fixpoint get (m : t) (k : string) : option V :=
  match m with
  | [] => None
  | (k', v) :: rest => if k' =? k then Some v else get rest k
  end.

Definition has (m : t) (k : string) : bool :=
  match get m k with Some _ => true | None => false end.

(** [set] keeps the position of an existing key and appends a new one. *)
Fixpoint set (m : t) (k : string) (v : V) : t :=
  match m with
  | [] => [(k, v)]
  | (k', v') :: rest =>
      if k' =? k then (k, v) :: rest else (k', v') :: set rest k v
  end.

Definition delete (m : t) (k : string) : t :=
  filter (fun kv => negb (fst kv =? k)) m.

Definition size (m : t) : nat := List.length m.
Definition keys (m : t) : list string := map fst m.
Definition values (m : t) : list V := map snd m.
End Ops.
Arguments t : clear implicits.
End JsMap.

(** ** JSON values: row objects, event payloads, response bodies *)

Inductive json : Type :=
| JNull
| JBool (b : bool)
| JNum (n : Z)
| JStr (s : string)
| JArr (items : list json)
| JObj (fields : list (string * json)).

Definition obj := list (string * json).

Fixpoint prop (o : obj) (k : string) : option json :=
  match o with
  | [] => None
  | (k', v) :: rest => if k' =? k then Some v else prop rest k
  end.

Definition jopt (v : option string) : json :=
  match v with Some s => JStr s | None => JNull end.

Definition jtime (v : option Z) : json :=
  match v with Some n => JNum n | None => JNull end.

(** [mentions k j]: some object inside [j] has a property named [k]. *)
Fixpoint mentions (k : string) (j : json) : bool :=
  match j with
  | JArr items => existsb (mentions k) items
  | JObj fields =>
      existsb (fun kv => (fst kv =? k)%string || mentions k (snd kv)) fields
  | _ => false
  end.

(** ** The database *)

Module Db.

Inductive user_role := RoleAdmin | RoleUser.
Inductive user_status := Pending | Active | Rejected.
Inductive room_type := Private | Group.
Inductive participant_role := PAdmin | PMember.
Inductive message_type := TText | TImage | TAudio | TVideo | TFile.
Inductive delivery := Sent | Delivered | Read.
Inductive call_type := AudioCall | VideoCall.
Inductive call_status := Ringing | Ongoing | Completed | Missed | Rejected_call.

Record user := {
  u_id : string;
  u_username : string;
  u_email : option string;
  u_phone_number : option string;
  u_password : string;
  u_profile_picture : option string;
  u_role : user_role;
  u_status : user_status;
  u_is_online : bool;
  u_last_seen : option Z;
  u_created_at : Z
}.

Record room := {
  r_id : string;
  r_type : room_type;
  r_name : option string;
  r_created_at : Z;
  r_created_by : option string
}.

Record room_participant := {
  rp_room_id : string;
  rp_user_id : string;
  rp_role : participant_role;
  rp_joined_at : Z;
  rp_left_at : option Z
}.

Record message := {
  m_id : string;
  m_room_id : string;
  m_sender_id : option string;
  m_content : option string;
  m_message_type : message_type;
  m_file_url : option string;
  m_created_at : Z;
  m_edited_at : option Z
}.

Record message_status := {
  ms_message_id : string;
  ms_user_id : string;
  ms_status : delivery;
  ms_updated_at : Z
}.

Record call := {
  c_id : string;
  c_room_id : string;
  c_initiator_id : option string;
  c_started_at : Z;
  c_ended_at : option Z;
  c_call_type : call_type;
  c_status : call_status
}.

Record call_participant := {
  cp_call_id : string;
  cp_user_id : string;
  cp_joined_at : Z;
  cp_left_at : option Z;
  cp_answered : bool
}.

Record t := {
  users : list user;
  rooms : list room;
  room_participants : list room_participant;
  messages : list message;
  message_statuses : list message_status;
  calls : list call;
  call_participants : list call_participant
}.

Definition empty : t :=
  {| users := []; rooms := []; room_participants := []; messages := [];
     message_statuses := []; calls := []; call_participants := [] |}.

Definition with_users (d : t) (x : list user) : t :=
  {| users := x; rooms := rooms d; room_participants := room_participants d;
     messages := messages d; message_statuses := message_statuses d;
     calls := calls d; call_participants := call_participants d |}.

Definition with_rooms (d : t) (x : list room) (y : list room_participant) : t :=
  {| users := users d; rooms := x; room_participants := y;
     messages := messages d; message_statuses := message_statuses d;
     calls := calls d; call_participants := call_participants d |}.

Definition with_messages (d : t) (x : list message) : t :=
  {| users := users d; rooms := rooms d;
     room_participants := room_participants d;
     messages := x; message_statuses := message_statuses d;
     calls := calls d; call_participants := call_participants d |}.

Definition with_message_statuses (d : t) (x : list message_status) : t :=
  {| users := users d; rooms := rooms d;
     room_participants := room_participants d;
     messages := messages d; message_statuses := x;
     calls := calls d; call_participants := call_participants d |}.

Definition with_calls (d : t) (x : list call) : t :=
  {| users := users d; rooms := rooms d;
     room_participants := room_participants d;
     messages := messages d; message_statuses := message_statuses d;
     calls := x; call_participants := call_participants d |}.

Definition with_call_participants (d : t) (x : list call_participant) : t :=
  {| users := users d; rooms := rooms d;
     room_participants := room_participants d;
     messages := messages d; message_statuses := message_statuses d;
     calls := calls d; call_participants := x |}.

(** Foreign-key targets. *)
Definition user_exists (d : t) (id : string) : bool :=
  existsb (fun u => u_id u =? id) (users d).
Definition room_exists (d : t) (id : string) : bool :=
  existsb (fun r => r_id r =? id) (rooms d).
Definition message_exists (d : t) (id : string) : bool :=
  existsb (fun m => m_id m =? id) (messages d).
Definition call_exists (d : t) (id : string) : bool :=
  existsb (fun c => c_id c =? id) (calls d).

End Db.

(** Rows in the order of an [ORDER BY] clause ([le a b]: [a] may come
    before [b]). *)
Section OrderBy.
Context {A : Type} (le : A -> A -> bool).

Fixpoint insert_by (x : A) (l : list A) : list A :=
  match l with
  | [] => [x]
  | y :: rest => if le x y then x :: l else y :: insert_by x rest
  end.

Definition order_by (l : list A) : list A := fold_right insert_by [] l.
End OrderBy.

(** [LIMIT n OFFSET k] on the rows of a query. *)
Definition limit_offset {A : Type} (n k : Z) (l : list A) : list A :=
  firstn (Z.to_nat n) (skipn (Z.to_nat k) l).

(** ** db/queries/users.js *)

Module UserQueries.
Import Db.

Definition role_text (r : user_role) : string :=
  match r with RoleAdmin => "admin" | RoleUser => "user" end.

Definition status_text (s : user_status) : string :=
  match s with Pending => "pending" | Active => "active" | Rejected => "rejected" end.

(** The object the driver builds for a row of [users] ([SELECT *],
    [RETURNING *]): one property per column, in column order. *)
Definition row (u : user) : obj :=
  [ ("id", JStr (u_id u));
    ("username", JStr (u_username u));
    ("email", jopt (u_email u));
    ("phone_number", jopt (u_phone_number u));
    ("password", JStr (u_password u));
    ("profile_picture", jopt (u_profile_picture u));
    ("role", JStr (role_text (u_role u)));
    ("status", JStr (status_text (u_status u)));
    ("is_online", JBool (u_is_online u));
    ("last_seen", jtime (u_last_seen u));
    ("created_at", JNum (u_created_at u)) ].

Definition findById (d : Db.t) (id : string) : option user :=
  find (fun u => u_id u =? id) (users d).

Definition findByUsername (d : Db.t) (username : string) : option user :=
  find (fun u => u_username u =? username) (users d).

(** [INSERT INTO users ... RETURNING *]; the primary key and the [UNIQUE]
    columns reject a duplicate.  [role || 'user'], [status || 'pending']. *)
Definition create (d : Db.t) (new_id : string) (now : Z)
    (username : string) (email : option string) (password : string)
    (role : option user_role) (status : option user_status)
  : outcome user * Db.t :=
  let email' := if truthy email then email else None in
  if existsb (fun u => (u_id u =? new_id)
                       || (u_username u =? username)
                       || (truthy email' && opt_eqb (u_email u) email'))
             (users d)
  then (Throw "duplicate key value violates unique constraint", d)
  else
    let u := {| u_id := new_id; u_username := username; u_email := email';
                u_phone_number := None; u_password := password;
                u_profile_picture := None;
                u_role := match role with Some r => r | None => RoleUser end;
                u_status := match status with Some s => s | None => Pending end;
                u_is_online := false; u_last_seen := None;
                u_created_at := now |} in
    (Ok u, with_users d (users d ++ [u])).

Definition set_online (isOnline : bool) (now : Z) (u : user) : user :=
  {| u_id := u_id u; u_username := u_username u; u_email := u_email u;
     u_phone_number := u_phone_number u; u_password := u_password u;
     u_profile_picture := u_profile_picture u; u_role := u_role u;
     u_status := u_status u; u_is_online := isOnline;
     u_last_seen := if isOnline then u_last_seen u else Some now;
     u_created_at := u_created_at u |}.

(** [UPDATE users SET is_online = $2, last_seen = CASE ... WHERE id = $1
    RETURNING *]. *)
Definition setOnlineStatus (d : Db.t) (id : string) (isOnline : bool) (now : Z)
  : option user * Db.t :=
  let users' :=
    map (fun u => if u_id u =? id then set_online isOnline now u else u)
        (users d) in
  (find (fun u => u_id u =? id) users', with_users d users').

Definition set_status (s : user_status) (u : user) : user :=
  {| u_id := u_id u; u_username := u_username u; u_email := u_email u;
     u_phone_number := u_phone_number u; u_password := u_password u;
     u_profile_picture := u_profile_picture u; u_role := u_role u;
     u_status := s; u_is_online := u_is_online u;
     u_last_seen := u_last_seen u; u_created_at := u_created_at u |}.

(** [UPDATE users SET status = $2 WHERE id = $1 RETURNING *]. *)
Definition setStatus (d : Db.t) (id : string) (s : user_status)
  : option user * Db.t :=
  let users' :=
    map (fun u => if u_id u =? id then set_status s u else u) (users d) in
  (find (fun u => u_id u =? id) users', with_users d users').

Definition status_eqb (a b : user_status) : bool :=
  match a, b with
  | Pending, Pending | Active, Active | Rejected, Rejected => true
  | _, _ => false
  end.

(** [SELECT * FROM users WHERE status = $1 ORDER BY created_at ASC
    LIMIT $2 OFFSET $3]; a negative limit or offset is an error. *)
Definition listByStatus (d : Db.t) (s : user_status) (limit offset : Z)
  : outcome (list user) :=
  if ((limit <? 0) || (offset <? 0))%Z then Throw "LIMIT must not be negative"
  else Ok (limit_offset limit offset
             (order_by (fun a b => (u_created_at a <=? u_created_at b)%Z)
                (filter (fun u => status_eqb (u_status u) s) (users d)))).

(** [SELECT * FROM users ORDER BY created_at DESC LIMIT $1 OFFSET $2]. *)
Definition listAll (d : Db.t) (limit offset : Z) : outcome (list user) :=
  if ((limit <? 0) || (offset <? 0))%Z then Throw "LIMIT must not be negative"
  else Ok (limit_offset limit offset
             (order_by (fun a b => (u_created_at b <=? u_created_at a)%Z)
                (users d))).

(** [const { password, ...safe } = user; return safe;] on a row object:
    the rest pattern copies every own property but [password], in order. *)
Definition sanitize (user : option obj) : option obj :=
  match user with
  | None => None
  | Some o => Some (filter (fun kv => negb (fst kv =? "password")) o)
  end.

End UserQueries.

(** ** db/queries/rooms.js *)

Module RoomQueries.
Import Db.

Definition is_private (r : room) : bool :=
  match r_type r with Private => true | Group => false end.

(** A row of [room_participants] for this room and user (whether or not
    the participant has left: the query does not look at [left_at]). *)
Definition has_participant (d : Db.t) (roomId userId : string) : bool :=
  existsb (fun rp => (rp_room_id rp =? roomId) && (rp_user_id rp =? userId))
          (room_participants d).

(** The [SELECT ... LIMIT 1] of [findOrCreatePrivate]. *)
Definition select_private (d : Db.t) (userIdA userIdB : string) : option room :=
  find (fun r => has_participant d (r_id r) userIdA
                 && has_participant d (r_id r) userIdB
                 && is_private r)
       (rooms d).

Definition member_row (roomId userId : string) (now : Z) : room_participant :=
  {| rp_room_id := roomId; rp_user_id := userId; rp_role := PMember;
     rp_joined_at := now; rp_left_at := None |}.

(** The transaction of [findOrCreatePrivate]: both inserts or neither.  The
    first insert checks the primary key of [rooms] and the foreign key
    [created_by]; the second checks the foreign keys [user_id] and
    [UNIQUE(room_id, user_id)]. *)
Definition insert_private (d : Db.t) (userIdA userIdB createdBy new_id : string)
    (now : Z) : outcome room * Db.t :=
  if room_exists d new_id || negb (user_exists d createdBy) then
    (Throw "insert into rooms rejected", d)
  else if negb (user_exists d userIdA && user_exists d userIdB)
          || has_participant d new_id userIdA
          || has_participant d new_id userIdB
          || (userIdA =? userIdB) then
    (Throw "insert into room_participants rejected", d)
  else
    let r := {| r_id := new_id; r_type := Private; r_name := None;
                r_created_at := now; r_created_by := Some createdBy |} in
    (Ok r, with_rooms d (rooms d ++ [r])
             (room_participants d
                ++ [member_row new_id userIdA now; member_row new_id userIdB now])).

(** [findOrCreatePrivate(userIdA, userIdB, createdBy)]; [new_id] is the id
    [uuid_generate_v4()] would give the new room. *)
Definition findOrCreatePrivate (d : Db.t) (userIdA userIdB createdBy : string)
    (new_id : string) (now : Z) : outcome (room * bool) * Db.t :=
  match select_private d userIdA userIdB with
  | Some r => (Ok (r, false), d)
  | None =>
      match insert_private d userIdA userIdB createdBy new_id now with
      | (Ok r, d') => (Ok (r, true), d')
      | (Throw e, d') => (Throw e, d')
      end
  end.

Record participant := {
  p_id : string;
  p_username : string;
  p_profile_picture : option string;
  p_is_online : bool;
  p_role : participant_role;
  p_joined_at : Z
}.

(** [getParticipants]: active participants joined with their user row,
    ordered by [joined_at]. *)
Definition getParticipants (d : Db.t) (roomId : string) : list participant :=
  order_by (fun a b => (p_joined_at a <=? p_joined_at b)%Z)
    (flat_map
       (fun rp =>
          if (rp_room_id rp =? roomId)
             && match rp_left_at rp with None => true | Some _ => false end
          then
            map (fun u => {| p_id := u_id u; p_username := u_username u;
                             p_profile_picture := u_profile_picture u;
                             p_is_online := u_is_online u;
                             p_role := rp_role rp;
                             p_joined_at := rp_joined_at rp |})
                (filter (fun u => u_id u =? rp_user_id rp) (users d))
          else [])
       (room_participants d)).

(** [create({ type, name, createdBy })]; [new_id] is the id the database
    gives the room.  [name || null]; [created_by] may be [NULL], and is
    checked against [users] otherwise. *)
Definition create (d : Db.t) (new_id : string) (type : room_type)
    (name createdBy : option string) (now : Z) : outcome room * Db.t :=
  if room_exists d new_id
     || match createdBy with
        | Some u => negb (user_exists d u)
        | None => false
        end
  then (Throw "insert into rooms rejected", d)
  else
    let r := {| r_id := new_id; r_type := type;
                r_name := if truthy name then name else None;
                r_created_at := now; r_created_by := createdBy |} in
    (Ok r, with_rooms d (rooms d ++ [r]) (room_participants d)).

Definition same_member (roomId userId : string) (rp : room_participant) : bool :=
  (rp_room_id rp =? roomId) && (rp_user_id rp =? userId).

Definition set_left_at (v : option Z) (rp : room_participant) : room_participant :=
  {| rp_room_id := rp_room_id rp; rp_user_id := rp_user_id rp;
     rp_role := rp_role rp; rp_joined_at := rp_joined_at rp;
     rp_left_at := v |}.

(** [addParticipant(roomId, userId, role)]: the row is inserted, or on a
    conflict on [(room_id, user_id)] the stored row gets [left_at = NULL]
    and keeps its other columns.  The result is [rows[0]]. *)
Definition addParticipant (d : Db.t) (roomId userId : string)
    (role : participant_role) (now : Z)
  : outcome (option room_participant) * Db.t :=
  if has_participant d roomId userId then
    let rows :=
      map (fun rp => if same_member roomId userId rp then set_left_at None rp
                     else rp)
          (room_participants d) in
    (Ok (find (same_member roomId userId) rows), with_rooms d (rooms d) rows)
  else if room_exists d roomId && user_exists d userId then
    let rp := {| rp_room_id := roomId; rp_user_id := userId; rp_role := role;
                 rp_joined_at := now; rp_left_at := None |} in
    (Ok (Some rp), with_rooms d (rooms d) (room_participants d ++ [rp]))
  else (Throw "insert into room_participants violates a foreign key", d).

(** [removeParticipant(roomId, userId)]: [left_at = NOW()] on the rows of
    the pair that have none. *)
Definition removeParticipant (d : Db.t) (roomId userId : string) (now : Z)
  : Db.t :=
  with_rooms d (rooms d)
    (map (fun rp =>
            if same_member roomId userId rp
               && match rp_left_at rp with None => true | Some _ => false end
            then set_left_at (Some now) rp
            else rp)
         (room_participants d)).

(** A row of [listByUser]: the room, the role of the user in it and the
    preview of its latest message. *)
Record listed_room := {
  lr_room : room;
  lr_role : participant_role;
  lr_last_message : option string;
  lr_last_message_at : option Z
}.

(** [SELECT ... FROM messages m WHERE m.room_id = r.id ORDER BY
    m.created_at DESC LIMIT 1]. *)
Definition latest_message (d : Db.t) (roomId : string) : option message :=
  hd_error
    (order_by (fun a b => (m_created_at b <=? m_created_at a)%Z)
       (filter (fun m => m_room_id m =? roomId) (messages d))).

(** [ORDER BY last_message_at DESC NULLS LAST]. *)
Definition latest_first (a b : listed_room) : bool :=
  match lr_last_message_at a, lr_last_message_at b with
  | Some x, Some y => (y <=? x)%Z
  | Some _, None => true
  | None, Some _ => false
  | None, None => true
  end.

(** [listByUser(userId)]. *)
Definition listByUser (d : Db.t) (userId : string) : list listed_room :=
  order_by latest_first
    (flat_map
       (fun r =>
          map (fun rp =>
                 {| lr_room := r; lr_role := rp_role rp;
                    lr_last_message :=
                      match latest_message d (r_id r) with
                      | Some m => m_content m
                      | None => None
                      end;
                    lr_last_message_at :=
                      option_map m_created_at (latest_message d (r_id r)) |})
              (filter (fun rp =>
                         (rp_room_id rp =? r_id r) && (rp_user_id rp =? userId)
                         && match rp_left_at rp with
                            | None => true
                            | Some _ => false
                            end)
                      (room_participants d)))
       (rooms d)).

End RoomQueries.

(** ** db/queries/messages.js *)

Module MessageQueries.
Import Db.

Definition findById (d : Db.t) (id : string) : option message :=
  find (fun m => m_id m =? id) (messages d).

(** *** Message history *)

Record history_row := {
  h_message : message;
  h_sender_username : option string;
  h_sender_picture : option string;
  h_delivery_status : delivery
}.

(** [CASE ms.status WHEN 'read' THEN 2 WHEN 'delivered' THEN 1 ELSE 0 END]. *)
Definition status_rank (s : delivery) : Z :=
  match s with Read => 2 | Delivered => 1 | Sent => 0 end.

(** [MIN(...)] of SQL: [NULL] over no rows. *)
Fixpoint sql_min (l : list Z) : option Z :=
  match l with
  | [] => None
  | x :: rest =>
      match sql_min rest with
      | None => Some x
      | Some y => Some (Z.min x y)
      end
  end.

(** [WHEN v >= n]: a comparison with [NULL] is not true. *)
Definition when_ge (v : option Z) (n : Z) : bool :=
  match v with Some x => (n <=? x)%Z | None => false end.

Definition statuses_of (d : Db.t) (messageId : string) : list delivery :=
  map ms_status
      (filter (fun r => ms_message_id r =? messageId) (message_statuses d)).

(** The [delivery_status] sub-select of [listByRoom], with its
    [COALESCE(..., 'sent')]. *)
Definition delivery_status (d : Db.t) (messageId : string) : delivery :=
  let rows := statuses_of d messageId in
  let lowest := sql_min (map status_rank rows) in
  let selected : option delivery :=
    Some (if Nat.eqb (List.length rows) 0 then Sent
          else if when_ge lowest 2 then Read
          else if when_ge lowest 1 then Delivered
          else Sent) in
  match selected with Some s => s | None => Sent end.

Definition history_of (d : Db.t) (m : message) : history_row :=
  let sender :=
    match m_sender_id m with
    | Some s => find (fun u => u_id u =? s) (users d)
    | None => None
    end in
  {| h_message := m;
     h_sender_username := option_map u_username sender;
     h_sender_picture :=
       match sender with Some u => u_profile_picture u | None => None end;
     h_delivery_status := delivery_status d (m_id m) |}.

(** [listByRoom(roomId, { limit = 50, before })]. *)
Definition listByRoom (d : Db.t) (roomId : string) (limit before : option Z)
  : outcome (list history_row) :=
  let limit' := match limit with Some n => n | None => 50 end in
  if (limit' <? 0)%Z then Throw "LIMIT must not be negative"
  else
    Ok (map (history_of d)
          (firstn (Z.to_nat limit')
             (order_by (fun a b => (m_created_at b <=? m_created_at a)%Z)
                (filter
                   (fun m =>
                      (m_room_id m =? roomId)
                      && match before with
                         | Some t => (m_created_at m <? t)%Z
                         | None => true
                         end)
                   (messages d))))).

(** *** Read receipts *)

Definition delivery_eqb (a b : delivery) : bool :=
  match a, b with
  | Sent, Sent | Delivered, Delivered | Read, Read => true
  | _, _ => false
  end.

Definition same_key (messageId userId : string) (r : message_status) : bool :=
  (ms_message_id r =? messageId) && (ms_user_id r =? userId).

Definition status_row (messageId userId : string) (s : delivery) (now : Z)
  : message_status :=
  {| ms_message_id := messageId; ms_user_id := userId; ms_status := s;
     ms_updated_at := now |}.

(** The status stored for a message and recipient, if there is a row. *)
Definition status_of (d : Db.t) (messageId userId : string) : option delivery :=
  option_map ms_status
    (find (same_key messageId userId) (message_statuses d)).

(** [setStatus]: [INSERT ... ON CONFLICT (message_id, user_id) DO UPDATE SET
    status = EXCLUDED.status].  A row that is really inserted is checked
    against both foreign keys. *)
Definition setStatus (d : Db.t) (messageId userId : string) (s : delivery)
    (now : Z) : outcome message_status * Db.t :=
  let r := status_row messageId userId s now in
  let rows := message_statuses d in
  if existsb (same_key messageId userId) rows then
    (Ok r, with_message_statuses d
             (map (fun x => if same_key messageId userId x then r else x) rows))
  else if message_exists d messageId && user_exists d userId then
    (Ok r, with_message_statuses d (rows ++ [r]))
  else (Throw "insert into message_status violates a foreign key", d).

(** One row of the [INSERT ... SELECT] of [markRoomAs]: inserted, or updated
    under [WHERE message_status.status != $3]. *)
Definition mark_one (userId : string) (s : delivery) (now : Z)
    (rows : list message_status) (messageId : string) : list message_status :=
  if existsb (same_key messageId userId) rows then
    map (fun x =>
           if same_key messageId userId x && negb (delivery_eqb (ms_status x) s)
           then status_row messageId userId s now else x)
        rows
  else rows ++ [status_row messageId userId s now].

(** The messages selected by [markRoomAs]: [m.room_id = $1 AND
    m.sender_id != $2] (not true for a [NULL] sender). *)
Definition marked_messages (d : Db.t) (roomId userId : string) : list string :=
  map m_id
      (filter (fun m =>
                 (m_room_id m =? roomId)
                 && match m_sender_id m with
                    | Some s => negb (s =? userId)
                    | None => false
                    end)
              (messages d)).

Definition markRoomAs (d : Db.t) (roomId userId : string) (s : delivery)
    (now : Z) : outcome unit * Db.t :=
  let rows := message_statuses d in
  let targets := marked_messages d roomId userId in
  if existsb (fun mid => negb (existsb (same_key mid userId) rows)) targets
     && negb (user_exists d userId)
  then (Throw "insert into message_status violates a foreign key", d)
  else (Ok tt, with_message_statuses d
                 (fold_left (mark_one userId s now) targets rows)).

(** [create({ roomId, senderId, content, messageType, fileUrl })]; [new_id]
    is the id the database gives the message.  [content || null],
    [fileUrl || null]. *)
Definition create (d : Db.t) (new_id roomId senderId : string)
    (content : option string) (messageType : message_type)
    (fileUrl : option string) (now : Z) : outcome message * Db.t :=
  if message_exists d new_id || negb (room_exists d roomId)
     || negb (user_exists d senderId)
  then (Throw "insert into messages rejected", d)
  else
    let m := {| m_id := new_id; m_room_id := roomId;
                m_sender_id := Some senderId;
                m_content := if truthy content then content else None;
                m_message_type := messageType;
                m_file_url := if truthy fileUrl then fileUrl else None;
                m_created_at := now; m_edited_at := None |} in
    (Ok m, with_messages d (messages d ++ [m])).

End MessageQueries.

(** ** db/queries/calls.js *)

Module CallQueries.
Import Db.

(** [INSERT INTO calls (...) VALUES ($1, $2, $3, 'ringing') RETURNING *]. *)
Definition create (d : Db.t) (new_id roomId initiatorId : string)
    (callType : call_type) (now : Z) : outcome call * Db.t :=
  if call_exists d new_id || negb (room_exists d roomId)
     || negb (user_exists d initiatorId)
  then (Throw "insert into calls rejected", d)
  else
    let c := {| c_id := new_id; c_room_id := roomId;
                c_initiator_id := Some initiatorId; c_started_at := now;
                c_ended_at := None; c_call_type := callType;
                c_status := Ringing |} in
    (Ok c, with_calls d (calls d ++ [c])).

Definition findById (d : Db.t) (id : string) : option call :=
  find (fun c => c_id c =? id) (calls d).

(** [['completed', 'missed', 'rejected'].includes(status)]. *)
Definition sets_ended_at (s : call_status) : bool :=
  match s with
  | Completed | Missed | Rejected_call => true
  | Ringing | Ongoing => false
  end.

Definition set_call_status (s : call_status) (now : Z) (c : call) : call :=
  {| c_id := c_id c; c_room_id := c_room_id c;
     c_initiator_id := c_initiator_id c; c_started_at := c_started_at c;
     c_ended_at := if sets_ended_at s then Some now else c_ended_at c;
     c_call_type := c_call_type c; c_status := s |}.

(** [UPDATE calls SET status = $2 [, ended_at = NOW()] WHERE id = $1
    RETURNING *]. *)
Definition updateStatus (d : Db.t) (id : string) (s : call_status) (now : Z)
  : option call * Db.t :=
  let calls' :=
    map (fun c => if c_id c =? id then set_call_status s now c else c)
        (calls d) in
  (find (fun c => c_id c =? id) calls', with_calls d calls').

(** [end(id)]: [return this.updateStatus(id, 'completed')]. *)
Definition end_ (d : Db.t) (id : string) (now : Z) : option call * Db.t :=
  updateStatus d id Completed now.

(** [INSERT INTO call_participants (call_id, user_id, answered) VALUES
    ($1, $2, FALSE)]. *)
Definition addParticipant (d : Db.t) (callId userId : string) (now : Z)
  : outcome call_participant * Db.t :=
  if call_exists d callId && user_exists d userId then
    let p := {| cp_call_id := callId; cp_user_id := userId;
                cp_joined_at := now; cp_left_at := None;
                cp_answered := false |} in
    (Ok p, with_call_participants d (call_participants d ++ [p]))
  else (Throw "insert into call_participants violates a foreign key", d).

(** [UPDATE call_participants SET answered = TRUE, joined_at = NOW()
    WHERE call_id = $1 AND user_id = $2]. *)
Definition answerParticipant (d : Db.t) (callId userId : string) (now : Z)
  : Db.t :=
  with_call_participants d
    (map (fun p =>
            if (cp_call_id p =? callId) && (cp_user_id p =? userId)
            then {| cp_call_id := cp_call_id p; cp_user_id := cp_user_id p;
                    cp_joined_at := now; cp_left_at := cp_left_at p;
                    cp_answered := true |}
            else p)
         (call_participants d)).

End CallQueries.

(** ** mediaServer.js *)

(** Template-literal rendering of an integer (below [10^21] in size, as
    every [Date.now()] and every index is). *)
Definition dec (n : Z) : string := NilEmpty.string_of_int (Z.to_int n).

Module Media.

Inductive kind := Audio | Video.

Definition kind_text (k : kind) : string :=
  match k with Audio => "audio" | Video => "video" end.

Definition is_video (k : kind) : bool :=
  match k with Video => true | Audio => false end.

Record producer := {
  prod_id : string;
  prod_kind : kind;
  prod_appData : obj
}.

Record consumer := {
  cons_id : string;
  cons_producerId : string;
  cons_kind : kind;
  cons_paused : bool
}.

Record transport := { tr_id : string }.

Record peer := {
  peer_id : string;
  username : string;
  sendTransport : option transport;
  recvTransport : option transport;
  producers : JsMap.t producer;
  consumers : JsMap.t consumer;
  rtpCapabilities : option json
}.

(** An entry of [recording.audioInputs] / [recording.videoInputs]. *)
Record rtp_input := {
  port : Z;
  sdpFile : string;
  in_peerId : string
}.

(** An entry of [recording.consumers]. *)
Record recording_consumer := {
  rc_consumer : consumer;
  rc_producerId : string;
  rc_kind : kind
}.

Record recording := {
  rec_id : string;
  startTime : Z;
  outputFile : string;
  hasVideo : bool;
  ffmpegProcess : option (list string);  (* the child, by its argument list *)
  rec_transports : list transport;
  rec_consumers : list recording_consumer;
  audioInputs : list rtp_input;
  videoInputs : list rtp_input
}.

Record room := {
  room_id : string;
  router : nat;                           (* index of the worker it runs on *)
  room_peers : JsMap.t peer;
  room_recording : option recording;
  createdAt : Z
}.

(** [this.peers] maps a peer id to [{ roomId, peer }], where [peer] is the
    very object stored in [room.peers] by the same [addPeer]; the model keeps
    the room id and reads the peer through the room. *)
Record t := {
  workers : nat;
  nextWorkerIndex : nat;
  rooms : JsMap.t room;
  peers : JsMap.t string
}.

Definition with_peers (r : room) (ps : JsMap.t peer) : room :=
  {| room_id := room_id r; router := router r; room_peers := ps;
     room_recording := room_recording r; createdAt := createdAt r |}.

Definition with_recording (r : room) (rc : option recording) : room :=
  {| room_id := room_id r; router := router r; room_peers := room_peers r;
     room_recording := rc; createdAt := createdAt r |}.

Definition with_rooms (ms : t) (rs : JsMap.t room) : t :=
  {| workers := workers ms; nextWorkerIndex := nextWorkerIndex ms;
     rooms := rs; peers := peers ms |}.

Definition with_producers (p : peer) (x : JsMap.t producer) : peer :=
  {| peer_id := peer_id p; username := username p;
     sendTransport := sendTransport p; recvTransport := recvTransport p;
     producers := x; consumers := consumers p;
     rtpCapabilities := rtpCapabilities p |}.

Definition with_consumers (p : peer) (x : JsMap.t consumer) : peer :=
  {| peer_id := peer_id p; username := username p;
     sendTransport := sendTransport p; recvTransport := recvTransport p;
     producers := producers p; consumers := x;
     rtpCapabilities := rtpCapabilities p |}.

(** What a method does to the outside: handles it closes, files it removes,
    the recording it stops. *)
Inductive event :=
| ProducerClosed (id : string)
| ConsumerClosed (id : string)
| TransportClosed (id : string)
| RouterClosed (roomId : string)
| FfmpegQuit (recordingId : string)
| SdpRemoved (path : string)
| RecordingStopped (roomId recordingId : string) (duration : Z).

(** *** Rooms and peers *)

(** [getOrCreateRoom], with [getNextWorker] inlined. *)
Definition getOrCreateRoom (ms : t) (roomId : string) (now : Z) : room * t :=
  match JsMap.get (rooms ms) roomId with
  | Some r => (r, ms)
  | None =>
      let r := {| room_id := roomId; router := nextWorkerIndex ms;
                  room_peers := JsMap.empty; room_recording := None;
                  createdAt := now |} in
      (r, {| workers := workers ms;
             nextWorkerIndex := Nat.modulo (S (nextWorkerIndex ms)) (workers ms);
             rooms := JsMap.set (rooms ms) roomId r;
             peers := peers ms |})
  end.

Definition addPeer (ms : t) (roomId peerId username : string) (now : Z) : t :=
  let '(r, ms1) := getOrCreateRoom ms roomId now in
  let p := {| peer_id := peerId; username := username;
              sendTransport := None; recvTransport := None;
              producers := JsMap.empty; consumers := JsMap.empty;
              rtpCapabilities := None |} in
  {| workers := workers ms1; nextWorkerIndex := nextWorkerIndex ms1;
     rooms := JsMap.set (rooms ms1) roomId
                (with_peers r (JsMap.set (room_peers r) peerId p));
     peers := JsMap.set (peers ms1) peerId roomId |}.

Definition not_found (what id : string) : string := what ++ " " ++ id ++ " not found".

(** Update of a peer object that is reachable as [room.peers.get(peerId)]. *)
Definition put_peer (ms : t) (roomId : string) (r : room) (peerId : string)
    (p : peer) : t :=
  with_rooms ms
    (JsMap.set (rooms ms) roomId
       (with_peers r (JsMap.set (room_peers r) peerId p))).

Definition storePeerTransport (ms : t) (roomId peerId : string)
    (tr : transport) (direction : string) : outcome unit * t :=
  match JsMap.get (rooms ms) roomId with
  | None => (Throw (not_found "Room" roomId), ms)
  | Some r =>
      match JsMap.get (room_peers r) peerId with
      | None => (Throw (not_found "Peer" peerId), ms)
      | Some p =>
          let p' :=
            {| peer_id := peer_id p; username := username p;
               sendTransport :=
                 if direction =? "send" then Some tr else sendTransport p;
               recvTransport :=
                 if direction =? "send" then recvTransport p else Some tr;
               producers := producers p; consumers := consumers p;
               rtpCapabilities := rtpCapabilities p |} in
          (Ok tt, put_peer ms roomId r peerId p')
      end
  end.

(** *** Consume *)

(** The loop of [consume] that looks for the producer: the first peer, in
    the order of [room.peers], whose [producers] has the id. *)
Definition producer_owner (r : room) (producerId : string)
  : option (string * producer) :=
  match find (fun kv => JsMap.has (producers (snd kv)) producerId)
             (room_peers r) with
  | Some (ownerId, p) =>
      match JsMap.get (producers p) producerId with
      | Some pr => Some (ownerId, pr)
      | None => None
      end
  | None => None
  end.

(** The descriptor [consume] returns. *)
Record consumed := {
  cd_id : string;
  cd_producerId : string;
  cd_kind : kind;
  cd_appData : obj
}.

(** [consume(roomId, peerId, producerId)].  [canConsume] is the answer of
    [router.canConsume], [lib] the result of [recvTransport.consume] (the id
    of the new consumer, or what it throws). *)
Definition consume (ms : t) (roomId peerId producerId : string)
    (canConsume : bool) (lib : outcome string) : outcome consumed * t :=
  match JsMap.get (rooms ms) roomId with
  | None => (Throw (not_found "Room" roomId), ms)
  | Some r =>
      match JsMap.get (room_peers r) peerId with
      | None => (Throw (not_found "Peer" peerId), ms)
      | Some p =>
          match producer_owner r producerId with
          | None => (Throw (not_found "Producer" producerId), ms)
          | Some (producerOwnerId, pr) =>
              if producerOwnerId =? peerId then
                (Throw "Cannot consume own producer", ms)
              else if negb canConsume then
                (Throw "Cannot consume this producer", ms)
              else
                match recvTransport p, lib with
                | None, _ =>
                    (Throw "Cannot read properties of null (reading 'consume')", ms)
                | Some _, Throw e => (Throw e, ms)
                | Some _, Ok cid =>
                    let c := {| cons_id := cid; cons_producerId := producerId;
                                cons_kind := prod_kind pr;
                                cons_paused := true |} in
                    (Ok {| cd_id := cid; cd_producerId := producerId;
                           cd_kind := prod_kind pr;
                           cd_appData := prod_appData pr |},
                     put_peer ms roomId r peerId
                       (with_consumers p (JsMap.set (consumers p) cid c)))
                end
          end
      end
  end.

(** *** Recording *)

(** What the outside gives one call of [createRecordingInput]: the value of
    [Math.random()], and the ids of the plain transport and of the consumer
    the router creates, or nothing when one of the calls in the [try] block
    throws. *)
Record tap_draw := {
  random : Q;
  plain : option (string * string)
}.

(** [20000 + Math.floor(Math.random() * 9000)], on the exact value of the
    draw. *)
Definition rtpPort (random : Q) : Z :=
  20000 + Qfloor (Qmult random (inject_Z 9000)).

Definition resume (c : recording_consumer) : recording_consumer :=
  {| rc_consumer :=
       {| cons_id := cons_id (rc_consumer c);
          cons_producerId := cons_producerId (rc_consumer c);
          cons_kind := cons_kind (rc_consumer c);
          cons_paused := false |};
     rc_producerId := rc_producerId c; rc_kind := rc_kind c |}.

(** [audioInputs.map((_, i) => `[${i}:a]`).join('')]. *)
Definition audio_streams (n : nat) : string :=
  String.concat ""
    (map (fun i => "[" ++ dec (Z.of_nat i) ++ ":a]") (seq 0 n)).

Definition amix (n : nat) : string :=
  audio_streams n ++ "amix=inputs=" ++ dec (Z.of_nat n) ++ ":duration=longest[aout]".

(** The argument list [startCombinedRecording] builds for ffmpeg. *)
Definition ffmpegArgs (rc : recording) : list string :=
  let totalAudioInputs := List.length (audioInputs rc) in
  let totalVideoInputs := List.length (videoInputs rc) in
  let a := Z.of_nat totalAudioInputs in
  ["-y"; "-protocol_whitelist"; "file,udp,rtp";
   "-analyzeduration"; "10000000"; "-probesize"; "10000000";
   "-fflags"; "+genpts+discardcorrupt"]
  ++ flat_map (fun i => ["-i"; sdpFile i]) (audioInputs rc)
  ++ (if hasVideo rc
      then flat_map (fun i => ["-i"; sdpFile i]) (videoInputs rc) else [])
  ++ (if hasVideo rc && Nat.ltb 0 totalVideoInputs then
        let audio :=
          if Nat.ltb 1 totalAudioInputs then amix totalAudioInputs ++ ";"
          else "[0:a]acopy[aout];" in
        let video :=
          if Nat.leb 2 totalVideoInputs then
            "[" ++ dec a ++ ":v][" ++ dec (a + 1) ++ ":v]hstack=inputs=2[vout]"
          else if Nat.eqb totalVideoInputs 1 then
            "[" ++ dec a ++ ":v]copy[vout]"
          else "" in
        ["-filter_complex"; audio ++ video;
         "-map"; "[aout]"; "-map"; "[vout]";
         "-c:a"; "aac"; "-b:a"; "192k";
         "-c:v"; "libx264"; "-preset"; "fast"; "-crf"; "23";
         outputFile rc]
      else
        (if Nat.ltb 1 totalAudioInputs
         then ["-filter_complex"; amix totalAudioInputs; "-map"; "[aout]"]
         else [])
        ++ ["-c:a"; "libmp3lame"; "-b:a"; "192k"; outputFile rc]).

(** [startCombinedRecording]: without an audio input nothing is spawned;
    otherwise ffmpeg is spawned and every recording consumer is resumed. *)
Definition startCombinedRecording (rc : recording) : recording :=
  match audioInputs rc with
  | [] => rc
  | _ :: _ =>
      {| rec_id := rec_id rc; startTime := startTime rc;
         outputFile := outputFile rc; hasVideo := hasVideo rc;
         ffmpegProcess := Some (ffmpegArgs rc);
         rec_transports := rec_transports rc;
         rec_consumers := map resume (rec_consumers rc);
         audioInputs := audioInputs rc; videoInputs := videoInputs rc |}
  end.

(** Every [(peerId, producer)] of the room, in the order of the nested
    [for ... of] loops over [room.peers] and [peer.producers]. *)
Definition all_producers (r : room) : list (string * producer) :=
  flat_map (fun kv => map (fun kp => (fst kv, snd kp)) (producers (snd kv)))
           (room_peers r).

(** [hasVideo]: some producer of some peer has [kind === 'video']. *)
Definition any_video (r : room) : bool :=
  existsb (fun kv =>
             existsb (fun kp => is_video (prod_kind (snd kp)))
                     (producers (snd kv)))
          (room_peers r).

(** [peersWithProducers] of [checkAndStartAutoRecording]. *)
Definition peersWithProducers (r : room) : nat :=
  List.length
    (filter (fun kv => Nat.ltb 0 (JsMap.size (producers (snd kv))))
            (room_peers r)).

Section Paths.
(** [path.join] of Node and [__dirname] of [mediaServer.js]. *)
Variable path_join : string -> string -> string.
Variable dirname : string.

Definition RECORDINGS_DIR : string := path_join dirname "recordings".

Definition createRecordingInput (rc : recording) (pr : producer)
    (peerId : string) (d : tap_draw) : recording :=
  match plain d with
  | None => rc
  | Some (transportId, consumerId) =>
      let input :=
        {| port := rtpPort (random d);
           sdpFile :=
             path_join RECORDINGS_DIR
               (rec_id rc ++ "_" ++ kind_text (prod_kind pr) ++ "_"
                  ++ peerId ++ ".sdp");
           in_peerId := peerId |} in
      let c := {| cons_id := consumerId; cons_producerId := prod_id pr;
                  cons_kind := prod_kind pr; cons_paused := true |} in
      {| rec_id := rec_id rc; startTime := startTime rc;
         outputFile := outputFile rc; hasVideo := hasVideo rc;
         ffmpegProcess := ffmpegProcess rc;
         rec_transports := rec_transports rc ++ [{| tr_id := transportId |}];
         rec_consumers :=
           rec_consumers rc
             ++ [{| rc_consumer := c; rc_producerId := prod_id pr;
                    rc_kind := prod_kind pr |}];
         audioInputs :=
           match prod_kind pr with
           | Audio => audioInputs rc ++ [input]
           | Video => audioInputs rc
           end;
         videoInputs :=
           match prod_kind pr with
           | Audio => videoInputs rc
           | Video => videoInputs rc ++ [input]
           end |}
  end.

(** The loop of [startRecording] over all producers; the [i]-th call of
    [createRecordingInput] gets [draws i]. *)
Definition record_inputs (rc : recording) (ps : list (string * producer))
    (draws : nat -> tap_draw) : recording :=
  fst (fold_left
         (fun acc x =>
            (createRecordingInput (fst acc) (snd x) (fst x) (draws (snd acc)),
             S (snd acc)))
         ps (rc, 0%nat)).

Definition new_recording (roomId : string) (r : room) (timestamp : Z)
  : recording :=
  let recordingId := roomId ++ "_" ++ dec timestamp in
  let video := any_video r in
  {| rec_id := recordingId; startTime := timestamp;
     outputFile :=
       path_join RECORDINGS_DIR
         (recordingId ++ "." ++ (if video then "mp4" else "mp3"));
     hasVideo := video; ffmpegProcess := None;
     rec_transports := []; rec_consumers := [];
     audioInputs := []; videoInputs := [] |}.

(** [startRecording(roomId)]; [timestamp] is [Date.now()]. *)
Definition startRecording (ms : t) (roomId : string) (timestamp : Z)
    (draws : nat -> tap_draw) : outcome recording * t :=
  match JsMap.get (rooms ms) roomId with
  | None => (Throw (not_found "Room" roomId), ms)
  | Some r =>
      match room_recording r with
      | Some rc => (Ok rc, ms)
      | None =>
          let rc :=
            startCombinedRecording
              (record_inputs (new_recording roomId r timestamp)
                 (all_producers r) draws) in
          (Ok rc,
           with_rooms ms
             (JsMap.set (rooms ms) roomId (with_recording r (Some rc))))
      end
  end.

(** [checkAndStartAutoRecording(roomId)]. *)
Definition checkAndStartAutoRecording (ms : t) (roomId : string)
    (timestamp : Z) (draws : nat -> tap_draw) : outcome unit * t :=
  match JsMap.get (rooms ms) roomId with
  | None => (Ok tt, ms)
  | Some r =>
      match room_recording r with
      | Some _ => (Ok tt, ms)
      | None =>
          if Nat.leb 2 (peersWithProducers r) then
            match startRecording ms roomId timestamp draws with
            | (Ok _, ms') => (Ok tt, ms')
            | (Throw e, ms') => (Throw e, ms')
            end
          else (Ok tt, ms)
      end
  end.

(** The state right after [peer.producers.set(producer.id, producer)]. *)
Definition add_producer (ms : t) (roomId : string) (r : room)
    (peerId : string) (p : peer) (producerId : string) (k : kind)
    (appData : obj) : t :=
  (* [appData: { ...appData, peerId }] *)
  let pr := {| prod_id := producerId; prod_kind := k;
               prod_appData := JsMap.set appData "peerId" (JStr peerId) |} in
  put_peer ms roomId r peerId
    (with_producers p (JsMap.set (producers p) producerId pr)).

(** [produce(roomId, peerId, transportId, kind, rtpParameters, appData)];
    [lib] is the result of [peer.sendTransport.produce]: the id of the new
    producer, or what the call throws. *)
Definition produce (ms : t) (roomId peerId : string) (k : kind)
    (appData : obj) (lib : outcome string) (timestamp : Z)
    (draws : nat -> tap_draw) : outcome string * t :=
  match JsMap.get (rooms ms) roomId with
  | None => (Throw (not_found "Room" roomId), ms)
  | Some r =>
      match JsMap.get (room_peers r) peerId with
      | None => (Throw (not_found "Peer" peerId), ms)
      | Some p =>
          match sendTransport p, lib with
          | None, _ =>
              (Throw "Cannot read properties of null (reading 'produce')", ms)
          | Some _, Throw e => (Throw e, ms)
          | Some _, Ok producerId =>
              let ms1 := add_producer ms roomId r peerId p producerId k appData in
              match checkAndStartAutoRecording ms1 roomId timestamp draws with
              | (Ok _, ms2) => (Ok producerId, ms2)
              | (Throw e, ms2) => (Throw e, ms2)
              end
          end
      end
  end.
End Paths.

(** The value [stopRecording] resolves to. *)
Record stopped := {
  st_id : string;
  st_duration : Z;
  st_file : string
}.

(** [stopRecording(roomId)], taken as one step (the waits between the quit
    command and the signals are not part of the state). *)
Definition stopRecording (ms : t) (roomId : string) (now : Z)
  : option stopped * t * list event :=
  match JsMap.get (rooms ms) roomId with
  | None => (None, ms, [])
  | Some r =>
      match room_recording r with
      | None => (None, ms, [])
      | Some rc =>
          let duration := now - startTime rc in
          (Some {| st_id := rec_id rc; st_duration := duration;
                   st_file := outputFile rc |},
           with_rooms ms (JsMap.set (rooms ms) roomId (with_recording r None)),
           ((match ffmpegProcess rc with
             | Some _ => [FfmpegQuit (rec_id rc)]
             | None => []
             end)
            ++ map (fun c => ConsumerClosed (cons_id (rc_consumer c)))
                   (rec_consumers rc)
            ++ map (fun tr => TransportClosed (tr_id tr)) (rec_transports rc)
            ++ map (fun i => SdpRemoved (sdpFile i))
                   (audioInputs rc ++ videoInputs rc)
            ++ [RecordingStopped roomId (rec_id rc) duration])%list)
      end
  end.

Definition close_transport (tr : option transport) : list event :=
  match tr with Some x => [TransportClosed (tr_id x)] | None => [] end.

Definition is_some {A : Type} (o : option A) : bool :=
  match o with Some _ => true | None => false end.

(** [removePeer(peerId)]. *)
Definition removePeer (ms : t) (peerId : string) (now : Z) : t * list event :=
  match JsMap.get (peers ms) peerId with
  | None => (ms, [])
  | Some roomId =>
      match JsMap.get (rooms ms) roomId with
      | None =>
          ({| workers := workers ms; nextWorkerIndex := nextWorkerIndex ms;
              rooms := rooms ms; peers := JsMap.delete (peers ms) peerId |}, [])
      | Some r =>
          let closed :=
            match JsMap.get (room_peers r) peerId with
            | Some p =>
                (map (fun kp => ProducerClosed (prod_id (snd kp))) (producers p)
                 ++ map (fun kc => ConsumerClosed (cons_id (snd kc))) (consumers p)
                 ++ close_transport (sendTransport p)
                 ++ close_transport (recvTransport p))%list
            | None => []
            end in
          let r1 := with_peers r (JsMap.delete (room_peers r) peerId) in
          let ms1 := with_rooms ms (JsMap.set (rooms ms) roomId r1) in
          let '(ms2, stop_events) :=
            if is_some (room_recording r1)
               && Nat.ltb (JsMap.size (room_peers r1)) 2
            then let '(_, ms', evs) := stopRecording ms1 roomId now in (ms', evs)
            else (ms1, []) in
          let '(rooms3, room_events) :=
            if Nat.eqb (JsMap.size (room_peers r1)) 0
            then (JsMap.delete (rooms ms2) roomId, [RouterClosed roomId])
            else (rooms ms2, []) in
          ({| workers := workers ms2; nextWorkerIndex := nextWorkerIndex ms2;
              rooms := rooms3; peers := JsMap.delete (peers ms2) peerId |},
           (closed ++ stop_events ++ room_events)%list)
      end
  end.

(** *** Capabilities, transports, consumers, discovery *)

(** [setPeerRtpCapabilities(roomId, peerId, rtpCapabilities)]. *)
Definition setPeerRtpCapabilities (ms : t) (roomId peerId : string)
    (caps : json) : outcome unit * t :=
  match JsMap.get (rooms ms) roomId with
  | None => (Throw (not_found "Room" roomId), ms)
  | Some r =>
      match JsMap.get (room_peers r) peerId with
      | None => (Throw (not_found "Peer" peerId), ms)
      | Some p =>
          (Ok tt,
           put_peer ms roomId r peerId
             {| peer_id := peer_id p; username := username p;
                sendTransport := sendTransport p;
                recvTransport := recvTransport p;
                producers := producers p; consumers := consumers p;
                rtpCapabilities := Some caps |})
      end
  end.

(** [createWebRtcTransport(roomId, peerId, announcedIp)]: [lib] is the
    transport the router creates, or what the call throws. *)
Definition createWebRtcTransport (ms : t) (roomId : string)
    (lib : outcome transport) : outcome transport :=
  match JsMap.get (rooms ms) roomId with
  | None => Throw (not_found "Room" roomId)
  | Some _ => lib
  end.

Definition transport_is (transportId : string) (tr : option transport) : bool :=
  match tr with Some x => tr_id x =? transportId | None => false end.

(** [connectTransport(roomId, transportId, dtlsParameters)]: the first peer
    whose send or receive transport has the id gets the [connect] call,
    whose result is [lib]. *)
Definition connectTransport (ms : t) (roomId transportId : string)
    (lib : outcome unit) : outcome unit :=
  match JsMap.get (rooms ms) roomId with
  | None => Throw (not_found "Room" roomId)
  | Some r =>
      if existsb (fun kv =>
                    transport_is transportId (sendTransport (snd kv))
                    || transport_is transportId (recvTransport (snd kv)))
                 (room_peers r)
      then lib
      else Throw (not_found "Transport" transportId)
  end.

(** [resumeConsumer(roomId, peerId, consumerId)]; [lib] is the result of
    [consumer.resume()]. *)
Definition resumeConsumer (ms : t) (roomId peerId consumerId : string)
    (lib : outcome unit) : outcome unit * t :=
  match JsMap.get (rooms ms) roomId with
  | None => (Throw (not_found "Room" roomId), ms)
  | Some r =>
      match JsMap.get (room_peers r) peerId with
      | None => (Throw (not_found "Peer" peerId), ms)
      | Some p =>
          match JsMap.get (consumers p) consumerId, lib with
          | None, _ => (Throw (not_found "Consumer" consumerId), ms)
          | Some _, Throw e => (Throw e, ms)
          | Some c, Ok _ =>
              (Ok tt,
               put_peer ms roomId r peerId
                 (with_consumers p
                    (JsMap.set (consumers p) consumerId
                       {| cons_id := cons_id c;
                          cons_producerId := cons_producerId c;
                          cons_kind := cons_kind c;
                          cons_paused := false |})))
          end
      end
  end.

(** An entry of the list [getProducers] returns. *)
Record listed := {
  l_producerId : string;
  l_peerId : string;
  l_username : string;
  l_kind : kind
}.

(** [getProducers(roomId, excludePeerId)]. *)
Definition getProducers (ms : t) (roomId excludePeerId : string) : list listed :=
  match JsMap.get (rooms ms) roomId with
  | None => []
  | Some r =>
      flat_map
        (fun kv =>
           if fst kv =? excludePeerId then []
           else map (fun kp => {| l_producerId := fst kp; l_peerId := fst kv;
                                  l_username := username (snd kv);
                                  l_kind := prod_kind (snd kp) |})
                    (producers (snd kv)))
        (room_peers r)
  end.

(** What [getRoomStats] reports of a peer, and of the room. *)
Record peer_stats := {
  ps_id : string;
  ps_username : string;
  ps_producerCount : nat;
  ps_consumerCount : nat
}.

Record room_stats := {
  rs_id : string;
  rs_peerCount : nat;
  rs_isRecording : bool;
  rs_createdAt : Z;
  rs_peers : list peer_stats
}.

Definition getRoomStats (ms : t) (roomId : string) : option room_stats :=
  match JsMap.get (rooms ms) roomId with
  | None => None
  | Some r =>
      Some {| rs_id := roomId;
              rs_peerCount := JsMap.size (room_peers r);
              rs_isRecording := is_some (room_recording r);
              rs_createdAt := createdAt r;
              rs_peers :=
                map (fun p => {| ps_id := peer_id p; ps_username := username p;
                                 ps_producerCount := JsMap.size (producers p);
                                 ps_consumerCount := JsMap.size (consumers p) |})
                    (JsMap.values (room_peers r)) |}
  end.

(** *** The calls the socket handlers make on the media server *)

Inductive op :=
| AddPeer (roomId peerId username : string) (now : Z)
| StoreTransport (roomId peerId : string) (tr : transport) (direction : string)
| SetCapabilities (roomId peerId : string) (caps : json)
| Produce (roomId peerId : string) (k : kind) (appData : obj)
          (lib : outcome string) (timestamp : Z) (draws : nat -> tap_draw)
| Consume (roomId peerId producerId : string) (canConsume : bool)
          (lib : outcome string)
| Resume (roomId peerId consumerId : string) (lib : outcome unit)
| StartRecording (roomId : string) (timestamp : Z) (draws : nat -> tap_draw)
| StopRecording (roomId : string) (now : Z)
| RemovePeer (peerId : string) (now : Z).

Definition step (path_join : string -> string -> string) (dirname : string)
    (ms : t) (o : op) : t :=
  match o with
  | AddPeer roomId peerId name now => addPeer ms roomId peerId name now
  | StoreTransport roomId peerId tr direction =>
      snd (storePeerTransport ms roomId peerId tr direction)
  | SetCapabilities roomId peerId caps =>
      snd (setPeerRtpCapabilities ms roomId peerId caps)
  | Produce roomId peerId k appData lib timestamp draws =>
      snd (produce path_join dirname ms roomId peerId k appData lib timestamp draws)
  | Consume roomId peerId producerId canConsume lib =>
      snd (consume ms roomId peerId producerId canConsume lib)
  | Resume roomId peerId consumerId lib =>
      snd (resumeConsumer ms roomId peerId consumerId lib)
  | StartRecording roomId timestamp draws =>
      snd (startRecording path_join dirname ms roomId timestamp draws)
  | StopRecording roomId now => snd (fst (stopRecording ms roomId now))
  | RemovePeer peerId now => fst (removePeer ms peerId now)
  end.

Definition run (path_join : string -> string -> string) (dirname : string)
    (ms : t) (os : list op) : t :=
  fold_left (step path_join dirname) os ms.

(** The media server of [new MediaServer()] after [init()] has created
    [n] workers. *)
Definition initial (n : nat) : t :=
  {| workers := n; nextWorkerIndex := 0; rooms := JsMap.empty;
     peers := JsMap.empty |}.

End Media.

(** ** index.js *)

Module Hub.

(** An entry of [connectedUsers]. *)
Record session := {
  socketId : string;
  userId : option string;
  username : option string
}.

Record t := {
  db : Db.t;
  connectedUsers : JsMap.t session;   (* socketId -> session *)
  activeCalls : JsMap.t string;       (* roomId -> callId *)
  mediaServer : Media.t
}.

Definition with_db (st : t) (d : Db.t) : t :=
  {| db := d; connectedUsers := connectedUsers st;
     activeCalls := activeCalls st; mediaServer := mediaServer st |}.

Definition with_activeCalls (st : t) (x : JsMap.t string) : t :=
  {| db := db st; connectedUsers := connectedUsers st;
     activeCalls := x; mediaServer := mediaServer st |}.

(** What a handler sends: [io.to(sid).emit] / [socket.emit], or [io.emit]. *)
Inductive emit :=
| ToSocket (sid : string) (event : string) (payload : json)
| ToAll (event : string) (payload : json).

Definition session_json (s : session) : json :=
  JObj [("socketId", JStr (socketId s)); ("userId", jopt (userId s));
        ("username", jopt (username s))].

(** [Array.from(connectedUsers.values())]. *)
Definition users_online (m : JsMap.t session) : json :=
  JArr (map session_json (JsMap.values m)).

Definition is_user (id : string) (s : session) : bool :=
  match userId s with Some x => x =? id | None => false end.

(** [resolveSocketId(userId)]: the first session of the user. *)
Definition resolveSocketId (m : JsMap.t session) (id : string) : option string :=
  option_map fst (find (fun kv => is_user id (snd kv)) m).

(** The [targetSocketId] of the call handlers: [to] itself when it is a
    connected socket id, else the first session of the user [to], else [to]. *)
Definition targetSocketId (m : JsMap.t session) (to : string) : string :=
  if JsMap.has m to then to
  else match resolveSocketId m to with Some sid => sid | None => to end.

(** *** Presence *)

Definition status_changed (uid : string) (name : option string) (online : bool)
  : emit :=
  ToAll "user_status_changed"
        (JObj [("userId", JStr uid); ("username", jopt name);
               ("is_online", JBool online)]).

(** [socket.on('register_user', ...)]. *)
Definition register_user (st : t) (sid : string) (uid name : option string)
    (now : Z) : t * list emit :=
  let cu := JsMap.set (connectedUsers st) sid
              {| socketId := sid; userId := uid; username := name |} in
  let '(d, sent) :=
    match uid with
    | Some u =>
        if truthy uid
        then (snd (UserQueries.setOnlineStatus (db st) u true now),
              [status_changed u name true])
        else (db st, [])
    | None => (db st, [])
    end in
  ({| db := d; connectedUsers := cu; activeCalls := activeCalls st;
      mediaServer := mediaServer st |},
   (sent ++ [ToAll "users_online" (users_online cu)])%list).

(** [socket.on('disconnect', ...)]. *)
Definition disconnect (st : t) (sid : string) (now : Z)
  : t * list emit * list Media.event :=
  let user := JsMap.get (connectedUsers st) sid in
  let '(ms, closed) := Media.removePeer (mediaServer st) sid now in
  let '(d, sent) :=
    match user with
    | Some s =>
        match userId s with
        | Some u =>
            if truthy (userId s)
            then (snd (UserQueries.setOnlineStatus (db st) u false now),
                  [status_changed u (username s) false])
            else (db st, [])
        | None => (db st, [])
        end
    | None => (db st, [])
    end in
  let cu := JsMap.delete (connectedUsers st) sid in
  ({| db := d; connectedUsers := cu; activeCalls := activeCalls st;
      mediaServer := ms |},
   (sent ++ [ToAll "users_online" (users_online cu)])%list,
   closed).

(** The stored [is_online] flag of a user. *)
Definition is_online (st : t) (uid : string) : option bool :=
  option_map Db.u_is_online (UserQueries.findById (db st) uid).

(** *** Delivery and read receipts *)

Definition delivery_text (s : Db.delivery) : string :=
  match s with
  | Db.Sent => "sent" | Db.Delivered => "delivered" | Db.Read => "read"
  end.

(** The session's user id when it is truthy ([user?.userId]). *)
Definition session_user (st : t) (sid : string) : option string :=
  match JsMap.get (connectedUsers st) sid with
  | Some s => if truthy (userId s) then userId s else None
  | None => None
  end.

(** [socket.on('message_delivered', ...)]; an error of a query is caught
    and logged. *)
Definition message_delivered (st : t) (sid : string) (messageId : option string)
    (now : Z) : t * list emit :=
  match session_user st sid, messageId with
  | Some uid, Some mid =>
      if negb (truthy messageId) then (st, [])
      else
        match MessageQueries.setStatus (db st) mid uid Db.Delivered now with
        | (Throw _, _) => (st, [])
        | (Ok _, d) =>
            (with_db st d,
             match MessageQueries.findById d mid with
             | Some msg =>
                 match Db.m_sender_id msg with
                 | Some sender =>
                     if truthy (Some sender) then
                       match resolveSocketId (connectedUsers st) sender with
                       | Some senderSocketId =>
                           [ToSocket senderSocketId "message_status_update"
                              (JObj [("messageId", JStr mid);
                                     ("userId", JStr uid);
                                     ("status", JStr "delivered");
                                     ("roomId", JStr (Db.m_room_id msg))])]
                       | None => []
                       end
                     else []
                 | None => []
                 end
             | None => []
             end)
        end
  | _, _ => (st, [])
  end.

(** [[...new Set(xs)]]: first occurrences, in order. *)
Fixpoint distinct (xs : list string) : list string :=
  match xs with
  | [] => []
  | x :: rest =>
      x :: filter (fun y => negb (y =? x)) (distinct rest)
  end.

(** [socket.on('mark_read', ...)]. *)
Definition mark_read (st : t) (sid : string) (roomId : string) (now : Z)
  : t * list emit :=
  match session_user st sid with
  | None => (st, [])
  | Some uid =>
      match MessageQueries.markRoomAs (db st) roomId uid Db.Read now with
      | (Throw _, _) => (st, [])
      | (Ok _, d) =>
          (with_db st d,
           match MessageQueries.listByRoom d roomId (Some 50) None with
           | Throw _ => []
           | Ok recentMessages =>
               let senderIds :=
                 distinct
                   (flat_map
                      (fun h =>
                         match Db.m_sender_id (MessageQueries.h_message h) with
                         | Some s => if s =? uid then [] else [s]
                         | None => []   (* a NULL sender has no session *)
                         end)
                      recentMessages) in
               flat_map
                 (fun senderId =>
                    match resolveSocketId (connectedUsers st) senderId with
                    | Some senderSocketId =>
                        [ToSocket senderSocketId "message_status_update"
                           (JObj [("roomId", JStr roomId);
                                  ("userId", JStr uid);
                                  ("status", JStr "read")])]
                    | None => []
                    end)
                 senderIds
           end)
      end
  end.

(** [socket.on('get_messages', ...)]: what the acknowledgement receives. *)
Definition get_messages (st : t) (roomId : string) (before limit : option Z)
  : list MessageQueries.history_row :=
  match MessageQueries.listByRoom (db st) roomId limit before with
  | Ok messages => messages
  | Throw _ => []
  end.

(** The two receipt events as one step function. *)
Inductive receipt :=
| MessageDelivered (sid : string) (messageId : option string) (now : Z)
| MarkRead (sid : string) (roomId : string) (now : Z).

Definition receipt_step (st : t) (e : receipt) : t :=
  match e with
  | MessageDelivered sid mid now => fst (message_delivered st sid mid now)
  | MarkRead sid roomId now => fst (mark_read st sid roomId now)
  end.

Definition receipts (st : t) (es : list receipt) : t :=
  fold_left receipt_step es st.

(** *** Rooms *)

Record private_chat := {
  pc_room : Db.room;
  pc_participants : list RoomQueries.participant;
  pc_otherUser : option RoomQueries.participant;
  pc_created : bool
}.

(** [socket.on('start_private_chat', ...)]: the new state and what the
    acknowledgement receives ([{ room, otherUser, created }] or
    [{ error }]). *)
Definition start_private_chat (st : t) (targetUserId uid : string)
    (new_id : string) (now : Z) : t * outcome private_chat :=
  match RoomQueries.findOrCreatePrivate (db st) uid targetUserId uid new_id now with
  | (Throw e, _) => (st, Throw e)
  | (Ok (room, created), d) =>
      let participants := RoomQueries.getParticipants d (Db.r_id room) in
      (with_db st d,
       Ok {| pc_room := room; pc_participants := participants;
             pc_otherUser :=
               find (fun p => negb (RoomQueries.p_id p =? uid)) participants;
             pc_created := created |})
  end.

(** One call of [start_private_chat] with what the database generates
    for it. *)
Record chat_call := {
  cc_userId : string;
  cc_targetUserId : string;
  cc_new_id : string;
  cc_now : Z
}.

(** Calls handled one after the other; the acknowledgements in order. *)
Fixpoint start_private_chats (st : t) (cs : list chat_call)
  : t * list (outcome private_chat) :=
  match cs with
  | [] => (st, [])
  | c :: rest =>
      let '(st1, ack) :=
        start_private_chat st (cc_targetUserId c) (cc_userId c)
          (cc_new_id c) (cc_now c) in
      let '(st2, acks) := start_private_chats st1 rest in
      (st2, ack :: acks)
  end.

(** *** Groups *)

Record group_ack := {
  ga_room : Db.room;
  ga_participants : list RoomQueries.participant
}.

(** The inserts of [Promise.all(memberIds.map(...))]: every one of them is
    issued, whether or not another one fails; the error is that of a
    failed one. *)
Fixpoint add_members (d : Db.t) (roomId : string) (memberIds : list string)
    (now : Z) : option string * Db.t :=
  match memberIds with
  | [] => (None, d)
  | memberId :: rest =>
      let '(r, d1) :=
        RoomQueries.addParticipant d roomId memberId Db.PMember now in
      let '(failed, d2) := add_members d1 roomId rest now in
      (match r with Throw e => Some e | Ok _ => failed end, d2)
  end.

(** [socket.on('create_group', ...)]: the new state and what the
    acknowledgement receives ([{ room }] or [{ error }]).  [memberIds] and
    [createdBy] are [None] when the client left them out. *)
Definition create_group (st : t) (name : option string)
    (memberIds : option (list string)) (createdBy : option string)
    (new_id : string) (now : Z) : t * outcome group_ack :=
  match RoomQueries.create (db st) new_id Db.Group name createdBy now with
  | (Throw e, _) => (st, Throw e)
  | (Ok room, d1) =>
      match createdBy with
      | None => (with_db st d1, Throw "null value in column user_id")
      | Some creator =>
          match RoomQueries.addParticipant d1 (Db.r_id room) creator
                  Db.PAdmin now with
          | (Throw e, d2) => (with_db st d2, Throw e)
          | (Ok _, d2) =>
              match memberIds with
              | None => (with_db st d2, Throw "memberIds is not an array")
              | Some ids =>
                  match add_members d2 (Db.r_id room) ids now with
                  | (Some e, d3) => (with_db st d3, Throw e)
                  | (None, d3) =>
                      (with_db st d3,
                       Ok {| ga_room := room;
                             ga_participants :=
                               RoomQueries.getParticipants d3 (Db.r_id room) |})
                  end
              end
          end
      end
  end.

(** *** Call lifecycle *)

(** [socket.on('call_user', ...)]; [new_id] is the id the database gives
    the call row. *)
Definition call_user (st : t) (sid userToCall : string) (signalData : json)
    (callerName : option string) (isVideoCall : bool) (roomId : option string)
    (new_id : string) (now : Z) : t * list emit :=
  let st1 :=
    match roomId, session_user st sid with
    | Some rid, Some uid =>
        if truthy roomId then
          match CallQueries.create (db st) new_id rid uid
                  (if isVideoCall then Db.VideoCall else Db.AudioCall) now with
          | (Throw _, _) => st
          | (Ok c, d1) =>
              match CallQueries.addParticipant d1 (Db.c_id c) uid now with
              | (Throw _, d2) => with_db st d2
              | (Ok _, d2) =>
                  {| db := d2; connectedUsers := connectedUsers st;
                     activeCalls := JsMap.set (activeCalls st) rid (Db.c_id c);
                     mediaServer := mediaServer st |}
              end
          end
        else st
    | _, _ => st
    end in
  let target := targetSocketId (connectedUsers st) userToCall in
  (st1,
   (ToSocket target "incoming_call"
      (JObj [("signal", signalData); ("from", JStr sid);
             ("callerName", jopt callerName);
             ("isVideoCall", JBool isVideoCall)])
    :: (if JsMap.has (connectedUsers st) target
        then [ToSocket sid "call_ringing" JNull] else []))%list).

(** [active?.callId] for a truthy [roomId]. *)
Definition active_call (st : t) (roomId : option string) : option (string * string) :=
  match roomId with
  | Some rid =>
      if truthy roomId then
        match JsMap.get (activeCalls st) rid with
        | Some callId => if truthy (Some callId) then Some (rid, callId) else None
        | None => None
        end
      else None
  | None => None
  end.

(** [socket.on('answer_call', ...)]. *)
Definition answer_call (st : t) (sid : string) (signal : json) (to : string)
    (roomId : option string) (now : Z) : t * list emit :=
  let st1 :=
    match active_call st roomId, session_user st sid with
    | Some (_, callId), Some uid =>
        match CallQueries.addParticipant (db st) callId uid now with
        | (Throw _, d1) => with_db st d1
        | (Ok _, d1) =>
            let d2 := CallQueries.answerParticipant d1 callId uid now in
            with_db st (snd (CallQueries.updateStatus d2 callId Db.Ongoing now))
        end
    | _, _ => st
    end in
  (st1,
   [ToSocket (targetSocketId (connectedUsers st) to) "call_accepted"
      (JObj [("signal", signal)])]).

(** [socket.on('reject_call', ...)]. *)
Definition reject_call (st : t) (to : string) (roomId : option string) (now : Z)
  : t * list emit :=
  let st1 :=
    match active_call st roomId with
    | Some (rid, callId) =>
        {| db := snd (CallQueries.updateStatus (db st) callId Db.Rejected_call now);
           connectedUsers := connectedUsers st;
           activeCalls := JsMap.delete (activeCalls st) rid;
           mediaServer := mediaServer st |}
    | None => st
    end in
  (st1, [ToSocket (targetSocketId (connectedUsers st) to) "call_rejected" JNull]).

(** [socket.on('end_call', ...)]. *)
Definition end_call (st : t) (to : string) (roomId : option string) (now : Z)
  : t * list emit :=
  let st1 :=
    match active_call st roomId with
    | Some (rid, callId) =>
        {| db := snd (CallQueries.end_ (db st) callId now);
           connectedUsers := connectedUsers st;
           activeCalls := JsMap.delete (activeCalls st) rid;
           mediaServer := mediaServer st |}
    | None => st
    end in
  (st1, [ToSocket (targetSocketId (connectedUsers st) to) "call_ended" JNull]).

(** Some participant of the call other than its initiator has answered. *)
Definition answered_by_other (d : Db.t) (c : Db.call) : bool :=
  existsb (fun p =>
             (Db.cp_call_id p =? Db.c_id c)
             && Db.cp_answered p
             && negb (opt_eqb (Some (Db.cp_user_id p)) (Db.c_initiator_id c)))
          (Db.call_participants d).

(** The call events a socket can send, with what the database and the
    clock give each of them. *)
Inductive call_event :=
| CallUser (sid userToCall : string) (signalData : json)
    (callerName : option string) (isVideoCall : bool) (roomId : option string)
    (new_id : string) (now : Z)
| AnswerCall (sid : string) (signal : json) (to : string)
    (roomId : option string) (now : Z)
| RejectCall (to : string) (roomId : option string) (now : Z)
| EndCall (to : string) (roomId : option string) (now : Z).

Definition call_step (st : t) (e : call_event) : t * list emit :=
  match e with
  | CallUser sid userToCall signalData callerName isVideoCall roomId new_id now =>
      call_user st sid userToCall signalData callerName isVideoCall roomId
        new_id now
  | AnswerCall sid signal to roomId now => answer_call st sid signal to roomId now
  | RejectCall to roomId now => reject_call st to roomId now
  | EndCall to roomId now => end_call st to roomId now
  end.

(** Call events handled one after the other. *)
Fixpoint call_steps (st : t) (es : list call_event) : t :=
  match es with
  | [] => st
  | e :: rest => call_steps (fst (call_step st e)) rest
  end.

(** *** Typing indicators and messages *)

(** What these handlers send, with payloads of type [P]: [io.to(sid).emit],
    [io.emit], or [socket.broadcast.emit] (every socket but the sender's). *)
Inductive cast (P : Type) :=
| CastTo (sid event : string) (payload : P)
| CastAll (event : string) (payload : P)
| CastOthers (sender event : string) (payload : P).

Arguments CastTo {P} sid event payload.
Arguments CastAll {P} event payload.
Arguments CastOthers {P} sender event payload.

(** The object a client sends with [send_group_message]: its [roomId],
    [text] and [messageId] (strings when present) and its other
    properties. *)
Record group_data := {
  gd_roomId : option string;
  gd_text : option string;
  gd_messageId : option string;
  gd_rest : obj
}.

(** The payload of [receive_group_message]: [{ ...data, roomId, senderId,
    socketId, timestamp }] and its [messageId]; the fields listed here
    replace properties of [data] of the same name. *)
Record group_payload := {
  gp_data : group_data;
  gp_senderId : option string;
  gp_socketId : string;
  gp_timestamp : Z;
  gp_messageId : option string
}.

(** The payload of [receive_private_message]. *)
Record private_payload := {
  pp_text : option string;
  pp_sender : json;
  pp_socketId : string;
  pp_senderId : option string;
  pp_recipientId : string;
  pp_roomId : option string;
  pp_timestamp : Z;
  pp_messageId : option string;
  pp_delivery_status : Db.delivery
}.

(** [participants.some(p => p.id === u.userId)], and
    [participantIds.includes(u.userId)]. *)
Definition is_participant (ps : list RoomQueries.participant) (s : session)
  : bool :=
  match userId s with
  | Some uid => existsb (fun p => RoomQueries.p_id p =? uid) ps
  | None => false
  end.

Definition typing_payload (roomId : string) (user : session) : json :=
  JObj [("roomId", JStr roomId); ("userId", jopt (userId user));
        ("username", jopt (username user))].

(** The loop of [send_group_message] over the participants: a status row
    [sent] for every participant but the sender, up to the first insert
    that fails. *)
Fixpoint mark_sent (d : Db.t) (messageId : string)
    (ps : list RoomQueries.participant) (uid : string) (now : Z) : Db.t :=
  match ps with
  | [] => d
  | p :: rest =>
      if RoomQueries.p_id p =? uid then mark_sent d messageId rest uid now
      else
        match MessageQueries.setStatus d messageId (RoomQueries.p_id p)
                Db.Sent now with
        | (Ok _, d1) => mark_sent d1 messageId rest uid now
        | (Throw _, d1) => d1
        end
  end.

Section FanOut.
(** The texts the database reads as a [uuid]; a query with another text
    for a room id fails. *)
Variable uuid_syntax : string -> bool.

Definition participants_query (d : Db.t) (roomId : string)
  : outcome (list RoomQueries.participant) :=
  if uuid_syntax roomId then Ok (RoomQueries.getParticipants d roomId)
  else Throw "invalid input syntax for type uuid".

(** [socket.on('typing_start', ...)] and [socket.on('typing_stop', ...)],
    which differ in the event they send. *)
Definition typing (event : string) (st : t) (sid : string)
    (roomId : option string) : list (cast json) :=
  match JsMap.get (connectedUsers st) sid, roomId with
  | Some user, Some rid =>
      if negb (truthy roomId) then []
      else
        match participants_query (db st) rid with
        | Ok participants =>
            map (fun kv => CastTo (fst kv) event (typing_payload rid user))
                (filter (fun kv => negb (fst kv =? sid)
                                   && is_participant participants (snd kv))
                        (connectedUsers st))
        | Throw _ => [CastOthers sid event (typing_payload rid user)]
        end
  | _, _ => []
  end.

Definition typing_start : t -> string -> option string -> list (cast json) :=
  typing "user_typing".

Definition typing_stop : t -> string -> option string -> list (cast json) :=
  typing "user_stopped_typing".

(** [socket.on('send_group_message', ...)]; [new_id] and [now] are the id
    and the time the database gives the message, [timestamp] is
    [Date.now()]. *)
Definition send_group_message (st : t) (sid : string) (data : group_data)
    (new_id : string) (now timestamp : Z) : t * list (cast group_payload) :=
  let sender := session_user st sid in
  let room := if truthy (gd_roomId data) then gd_roomId data else None in
  let '(d1, messageId) :=
    match room, sender with
    | Some rid, Some uid =>
        match MessageQueries.create (db st) new_id rid uid (gd_text data)
                Db.TText None now with
        | (Ok msg, d1) => (d1, Some (Db.m_id msg))
        | (Throw _, d1) => (d1, gd_messageId data)
        end
    | _, _ => (db st, gd_messageId data)
    end in
  let payload :=
    {| gp_data := data; gp_senderId := sender; gp_socketId := sid;
       gp_timestamp := timestamp; gp_messageId := messageId |} in
  let d2 :=
    match messageId, room, sender with
    | Some mid, Some rid, Some uid =>
        if truthy messageId then
          match participants_query d1 rid with
          | Ok participants => mark_sent d1 mid participants uid now
          | Throw _ => d1
          end
        else d1
    | _, _, _ => d1
    end in
  let sent :=
    match room with
    | Some rid =>
        match participants_query d2 rid with
        | Ok participants =>
            map (fun kv => CastTo (fst kv) "receive_group_message" payload)
                (filter (fun kv => is_participant participants (snd kv))
                        (connectedUsers st))
        | Throw _ => [CastAll "receive_group_message" payload]
        end
    | None => [CastAll "receive_group_message" payload]
    end in
  (with_db st d2, sent).

(** [socket.on('get_rooms', ...)]: what the acknowledgement receives, the
    rooms with their participants or [{ error }].  A client that leaves
    [userId] out gets no room. *)
Definition get_rooms (st : t) (userId : option string)
  : outcome (list (RoomQueries.listed_room * list RoomQueries.participant)) :=
  match userId with
  | None => Ok []
  | Some uid =>
      if uuid_syntax uid then
        Ok (map (fun row =>
                   (row,
                    RoomQueries.getParticipants (db st)
                      (Db.r_id (RoomQueries.lr_room row))))
                (RoomQueries.listByUser (db st) uid))
      else Throw "invalid input syntax for type uuid"
  end.

End FanOut.

(** [socket.on('send_private_message', ...)], for a client that names a
    recipient. *)
Definition send_private_message (st : t) (sid recipientId : string)
    (text : option string) (sender : json) (roomId : option string)
    (new_id : string) (now timestamp : Z) : t * list (cast private_payload) :=
  let senderId := session_user st sid in
  let '(d1, messageId) :=
    match roomId, senderId with
    | Some rid, Some uid =>
        if truthy roomId then
          match MessageQueries.create (db st) new_id rid uid text
                  Db.TText None now with
          | (Ok msg, d1) => (d1, Some (Db.m_id msg))
          | (Throw _, d1) => (d1, None)
          end
        else (db st, None)
    | _, _ => (db st, None)
    end in
  let d2 :=
    match messageId with
    | Some mid =>
        if truthy messageId && truthy (Some recipientId)
        then snd (MessageQueries.setStatus d1 mid recipientId Db.Sent now)
        else d1
    | None => d1
    end in
  let messageData :=
    {| pp_text := text; pp_sender := sender; pp_socketId := sid;
       pp_senderId := senderId; pp_recipientId := recipientId;
       pp_roomId := roomId; pp_timestamp := timestamp;
       pp_messageId := messageId; pp_delivery_status := Db.Sent |} in
  (with_db st d2,
   (match resolveSocketId (connectedUsers st) recipientId with
    | Some recipientSocketId =>
        if truthy (Some recipientSocketId)
        then [CastTo recipientSocketId "receive_private_message" messageData]
        else []
    | None => []
    end
    ++ [CastTo sid "receive_private_message" messageData])%list).

End Hub.

(** *** REST routes of index.js *)

Module Rest.
Import Db.

Record response := {
  status : Z;
  body : json
}.

Definition error (code : Z) (msg : string) : response :=
  {| status := code; body := JObj [("error", JStr msg)] |}.

(** [queries.users.sanitize(user)] as a value of the response body. *)
Definition safe_user (u : user) : json :=
  match UserQueries.sanitize (Some (UserQueries.row u)) with
  | Some o => JObj o
  | None => JNull
  end.

(** [parseInt(req.query.x, 10) || dflt]; [None] is [NaN]. *)
Definition or_default (v : option Z) (dflt : Z) : Z :=
  match v with
  | Some n => if (n =? 0)%Z then dflt else n
  | None => dflt
  end.

Inductive request :=
| Register (username email password : option string)
| Login (username password : option string)
| ListPending (bearer : outcome string) (limit offset : option Z)
| ListUsers (bearer : outcome string) (limit offset : option Z)
| Approve (bearer : outcome string) (id : string)
| Reject (bearer : outcome string) (id : string).

Section Routes.
(** [signToken]: the signed token for a user id. *)
Variable signToken : string -> string.

Definition with_token (u : user) : json :=
  JObj [("user", safe_user u); ("token", JStr (signToken (u_id u)))].

(** [POST /api/auth/register]. *)
Definition register (d : Db.t) (username email password : option string)
    (new_id : string) (now : Z) : response * Db.t :=
  match username, password with
  | Some un, Some pw =>
      if negb (truthy username) || negb (truthy password) then
        (error 400 "Username and password are required", d)
      else
        match UserQueries.findByUsername d un with
        | Some _ => (error 409 "Username already taken", d)
        | None =>
            match UserQueries.create d new_id now un email pw None None with
            | (Throw _, d') => (error 500 "Internal server error", d')
            | (Ok u, d') => ({| status := 201; body := with_token u |}, d')
            end
        end
  | _, _ => (error 400 "Username and password are required", d)
  end.

(** [POST /api/auth/login]. *)
Definition login (d : Db.t) (username password : option string) (now : Z)
  : response * Db.t :=
  match username, password with
  | Some un, Some pw =>
      if negb (truthy username) || negb (truthy password) then
        (error 400 "Username and password are required", d)
      else
        match UserQueries.findByUsername d un with
        | None => (error 401 "Invalid credentials", d)
        | Some u =>
            if negb (pw =? u_password u) then
              (error 401 "Invalid credentials", d)
            else
              match u_status u with
              | Pending => (error 403 "Account pending admin approval", d)
              | Rejected => (error 403 "Account has been rejected", d)
              | Active =>
                  ({| status := 200; body := with_token u |},
                   snd (UserQueries.setOnlineStatus d (u_id u) true now))
              end
        end
  | _, _ => (error 400 "Username and password are required", d)
  end.

(** [authMiddleware] then [adminMiddleware]: the response that ends the
    request, if any.  [bearer] is the user id of the verified token, or the
    message of the 401 response. *)
Definition guard (d : Db.t) (bearer : outcome string) : option response :=
  match bearer with
  | Throw msg => Some (error 401 msg)
  | Ok uid =>
      match UserQueries.findById d uid with
      | Some u =>
          match u_role u with
          | RoleAdmin => None
          | RoleUser => Some (error 403 "Admin access required")
          end
      | None => Some (error 403 "Admin access required")
      end
  end.

Definition user_list (r : outcome (list user)) : response :=
  match r with
  | Ok us => {| status := 200; body := JObj [("users", JArr (map safe_user us))] |}
  | Throw _ => error 500 "Internal server error"
  end.

(** [POST /api/admin/users/:id/approve] and [.../reject]. *)
Definition decide (d : Db.t) (id : string) (s : user_status) : response * Db.t :=
  match UserQueries.setStatus d id s with
  | (None, d') => (error 404 "User not found", d')
  | (Some u, d') =>
      ({| status := 200; body := JObj [("user", safe_user u)] |}, d')
  end.

(** The routes that answer with user rows. *)
Definition handle (d : Db.t) (req : request) (new_id : string) (now : Z)
  : response * Db.t :=
  match req with
  | Register username email password =>
      register d username email password new_id now
  | Login username password => login d username password now
  | ListPending bearer limit offset =>
      match guard d bearer with
      | Some r => (r, d)
      | None =>
          (user_list (UserQueries.listByStatus d Pending
                        (or_default limit 50) (or_default offset 0)), d)
      end
  | ListUsers bearer limit offset =>
      match guard d bearer with
      | Some r => (r, d)
      | None =>
          (user_list (UserQueries.listAll d
                        (or_default limit 50) (or_default offset 0)), d)
      end
  | Approve bearer id =>
      match guard d bearer with
      | Some r => (r, d)
      | None => decide d id Active
      end
  | Reject bearer id =>
      match guard d bearer with
      | Some r => (r, d)
      | None => decide d id Rejected
      end
  end.
End Routes.

(** *** The upload route *)

(** [req.file] as multer leaves it. *)
Record uploaded_file := {
  filename : string;
  originalname : string;
  mimetype : string
}.

Definition message_type_text (t : message_type) : string :=
  match t with
  | TText => "text" | TImage => "image" | TAudio => "audio"
  | TVideo => "video" | TFile => "file"
  end.

(** The texts the [CHECK] on [messages.message_type] admits. *)
Definition message_type_of (s : string) : option message_type :=
  if s =? "text" then Some TText
  else if s =? "image" then Some TImage
  else if s =? "audio" then Some TAudio
  else if s =? "video" then Some TVideo
  else if s =? "file" then Some TFile
  else None.

Definition room_message (msg : message) (roomId senderId : string)
    (senderUsername : option string) (f : uploaded_file) (type fileUrl : string)
  : json :=
  JObj [("id", JStr (m_id msg)); ("roomId", JStr roomId);
        ("room_id", JStr roomId); ("senderId", JStr senderId);
        ("sender_id", JStr senderId);
        ("sender_username",
         if truthy senderUsername then jopt senderUsername else JNull);
        ("content", JStr (originalname f)); ("message_type", JStr type);
        ("file_url", JStr fileUrl); ("created_at", JNum (m_created_at msg));
        ("edited_at", JNull)].

(** [POST /api/upload], once multer has stored the file; [new_id] and [now]
    are the id and the time the database gives the message.  The stored
    room of the message has an id that reads as a [uuid], so that the
    lookup of its participants does not fail. *)
Definition upload (st : Hub.t) (file : option uploaded_file)
    (roomId senderId senderUsername messageType : option string)
    (new_id : string) (now : Z) : response * Hub.t * list (Hub.cast json) :=
  match file with
  | None => (error 400 "No file provided", st, [])
  | Some f =>
      match roomId, senderId with
      | Some rid, Some uid =>
          if negb (truthy roomId) || negb (truthy senderId)
          then (error 400 "roomId and senderId are required", st, [])
          else
            let fileUrl := "/uploads/" ++ filename f in
            let type :=
              match messageType with
              | Some t => if truthy messageType then t
                          else if String.prefix "image/" (mimetype f)
                               then "image" else "file"
              | None => if String.prefix "image/" (mimetype f)
                        then "image" else "file"
              end in
            match message_type_of type with
            | None => (error 500 "Upload failed", st, [])
            | Some t =>
                match MessageQueries.create (Hub.db st) new_id rid uid
                        (Some (originalname f)) t (Some fileUrl) now with
                | (Throw _, _) => (error 500 "Upload failed", st, [])
                | (Ok msg, d1) =>
                    let participants := RoomQueries.getParticipants d1 rid in
                    let payload :=
                      room_message msg rid uid senderUsername f type fileUrl in
                    ({| status := 200;
                        body := JObj [("success", JBool true);
                                      ("messageId", JStr (m_id msg));
                                      ("fileUrl", JStr fileUrl)] |},
                     Hub.with_db st d1,
                     map (fun kv => Hub.CastTo (fst kv) "room_message" payload)
                         (filter (fun kv =>
                                    Hub.is_participant participants (snd kv))
                                 (Hub.connectedUsers st)))
                end
            end
      | _, _ => (error 400 "roomId and senderId are required", st, [])
      end
  end.

End Rest.

(** ** Orderings and properties the statements below refer to *)

(** The order [sent < delivered < read] on delivery statuses. *)
Definition delivery_le (a b : Db.delivery) : Prop :=
  match a, b with
  | Db.Sent, _ => True
  | Db.Delivered, Db.Sent => False
  | Db.Delivered, _ => True
  | Db.Read, Db.Read => True
  | Db.Read, _ => False
  end.

(** No receipt event replaces a stored status with an earlier one. *)
Definition receipts_never_regress : Prop :=
  forall (st : Hub.t) (e : Hub.receipt) (messageId userId : string)
         (a b : Db.delivery),
    MessageQueries.status_of (Hub.db st) messageId userId = Some a ->
    MessageQueries.status_of (Hub.db (Hub.receipt_step st e)) messageId userId
      = Some b ->
    delivery_le a b.

(** The status stored in a list of status rows for a message and
    recipient. *)
Definition status_in (rows : list Db.message_status) (messageId userId : string)
  : option Db.delivery :=
  option_map Db.ms_status (find (MessageQueries.same_key messageId userId) rows).

(** While another session of the user stays registered, a disconnect keeps
    the user's [is_online] flag. *)
Definition online_while_sessions_remain : Prop :=
  forall (st : Hub.t) (sid sid' uid : string) (now : Z),
    sid <> sid' ->
    Hub.session_user st sid = Some uid ->
    Hub.session_user st sid' = Some uid ->
    Hub.is_online st uid = Some true ->
    Hub.is_online (fst (fst (Hub.disconnect st sid now))) uid = Some true.

(** Ending a ringing call that nobody but its initiator has answered
    stores it as missed. *)
Definition unanswered_end_is_missed : Prop :=
  forall (st : Hub.t) (to rid callId : string) (c : Db.call) (now : Z),
    Hub.active_call st (Some rid) = Some (rid, callId) ->
    CallQueries.findById (Hub.db st) callId = Some c ->
    Db.c_status c = Db.Ringing ->
    Hub.answered_by_other (Hub.db st) c = false ->
    exists c',
      CallQueries.findById (Hub.db (fst (Hub.end_call st to (Some rid) now)))
        callId = Some c'
      /\ Db.c_status c' = Db.Missed.

(** The foreign key of [room_participants.room_id]. *)
Definition participants_reference_rooms (d : Db.t) : Prop :=
  forall rp, In rp (Db.room_participants d) ->
             Db.room_exists d (Db.rp_room_id rp) = true.

(** What a client reads off an acknowledgement of [start_private_chat]:
    the room id and the [created] flag (nothing for [{ error }]). *)
Definition ack_summary (a : outcome Hub.private_chat) : option (string * bool) :=
  match a with
  | Ok pc => Some (Db.r_id (Hub.pc_room pc), Hub.pc_created pc)
  | Throw _ => None
  end.

(** A call made by one of [a], [b] towards the other. *)
Definition between (a b : string) (c : Hub.chat_call) : Prop :=
  (Hub.cc_userId c = a /\ Hub.cc_targetUserId c = b)
  \/ (Hub.cc_userId c = b /\ Hub.cc_targetUserId c = a).

(** Within a room a producer id is held by one peer (ids come from the
    media library, which never repeats one). *)
Definition producer_ids_unique (r : Media.room) : Prop :=
  forall k1 p1 k2 p2 producerId,
    In (k1, p1) (Media.room_peers r) -> In (k2, p2) (Media.room_peers r) ->
    JsMap.has (Media.producers p1) producerId = true ->
    JsMap.has (Media.producers p2) producerId = true ->
    k1 = k2.

(** The UDP ports of the RTP taps of a recording. *)
Definition tap_ports (rc : Media.recording) : list Z :=
  map Media.port (Media.audioInputs rc ++ Media.videoInputs rc).

(** A value [Math.random()] can return. *)
Definition unit_interval (q : Q) : Prop := (0 <= q)%Q /\ (q < 1)%Q.

(** Whatever the random draws, the taps of a recording that starts have
    pairwise different ports. *)
Definition taps_have_distinct_ports : Prop :=
  forall (path_join : string -> string -> string) (dirname : string)
         (ms : Media.t) (roomId : string) (r : Media.room) (timestamp : Z)
         (draws : nat -> Media.tap_draw) (rc : Media.recording) (ms' : Media.t),
    (forall i, unit_interval (Media.random (draws i))) ->
    JsMap.get (Media.rooms ms) roomId = Some r ->
    Media.room_recording r = None ->
    Media.startRecording path_join dirname ms roomId timestamp draws
    = (Ok rc, ms') ->
    NoDup (tap_ports rc).

(** Some peer of the room holds a producer of kind video. *)
Definition has_video_producer (r : Media.room) : Prop :=
  exists peerId p producerId pr,
    In (peerId, p) (Media.room_peers r)
    /\ In (producerId, pr) (Media.producers p)
    /\ Media.prod_kind pr = Media.Video.

(** The fields of a recording fixed when it is allocated. *)
Definition header (rc : Media.recording) : string * Z * string * bool :=
  (Media.rec_id rc, Media.startTime rc, Media.outputFile rc, Media.hasVideo rc).

(** The condition of [checkAndStartAutoRecording]: no recording yet and
    at least two peers that hold a producer. *)
Definition call_established (r : Media.room) : Prop :=
  Media.room_recording r = None /\ (2 <= Media.peersWithProducers r)%nat.

(** The condition of [removePeer], on the room as it was before the
    removal: a recording exists and fewer than two peers remain. *)
Definition call_over (r : Media.room) (peerId : string) : Prop :=
  Media.room_recording r <> None
  /\ (JsMap.size (JsMap.delete (Media.room_peers r) peerId) < 2)%nat.

(** [stopRecording] ran for the room. *)
Definition stopped_in (roomId : string) (evs : list Media.event) : Prop :=
  exists recordingId duration,
    In (Media.RecordingStopped roomId recordingId duration) evs.

Definition is_stop (e : Media.event) : bool :=
  match e with Media.RecordingStopped _ _ _ => true | _ => false end.

(** A port that some draw gives, inside the window. *)
Definition drawn (draws : nat -> Media.tap_draw) (p : Z) : Prop :=
  (exists i, p = Media.rtpPort (Media.random (draws i)))
  /\ (20000 <= p <= 28999)%Z.

Definition all_drawn (draws : nat -> Media.tap_draw) (rc : Media.recording)
  : Prop :=
  Forall (drawn draws) (map Media.port (Media.audioInputs rc))
  /\ Forall (drawn draws) (map Media.port (Media.videoInputs rc)).

(** What every state of the media server satisfies: a peer the server
    knows is a peer of the room it is filed under, no room is empty, and the
    next worker is one of the workers. *)
Definition media_consistent (ms : Media.t) : Prop :=
  (forall peerId roomId,
      JsMap.get (Media.peers ms) peerId = Some roomId ->
      exists r p, JsMap.get (Media.rooms ms) roomId = Some r
                  /\ JsMap.get (Media.room_peers r) peerId = Some p)
  /\ (forall roomId r,
         JsMap.get (Media.rooms ms) roomId = Some r -> Media.room_peers r <> [])
  /\ (Media.nextWorkerIndex ms < Media.workers ms)%nat.

Definition is_router_closed (e : Media.event) : bool :=
  match e with Media.RouterClosed _ => true | _ => false end.

(** The handles of a peer that [removePeer] closes. *)
Definition closed_with (p : Media.peer) : list Media.event :=
  (map (fun kp => Media.ProducerClosed (Media.prod_id (snd kp)))
       (Media.producers p)
   ++ map (fun kc => Media.ConsumerClosed (Media.cons_id (snd kc)))
          (Media.consumers p)
   ++ Media.close_transport (Media.sendTransport p)
   ++ Media.close_transport (Media.recvTransport p))%list.

(** The producers of a kind among the producers of a room. *)
Definition producers_of_kind (video : bool) (ps : list (string * Media.producer))
  : list (string * Media.producer) :=
  filter (fun x => Bool.eqb (Media.is_video (Media.prod_kind (snd x))) video) ps.

(** The library calls of every tap succeed. *)
Definition taps_succeed (draws : nat -> Media.tap_draw) : Prop :=
  forall i, Media.plain (draws i) <> None.

Definition paused (c : Media.recording_consumer) : bool :=
  Media.cons_paused (Media.rc_consumer c).

(** The bearer of a request is an administrator: a verified token of a
    user whose role is admin. *)
Definition is_admin (d : Db.t) (bearer : outcome string) : Prop :=
  exists uid u,
    bearer = Ok uid /\ UserQueries.findById d uid = Some u
    /\ Db.u_role u = Db.RoleAdmin.

(** The token a request under [/api/admin] carries. *)
Definition admin_request (req : Rest.request) : option (outcome string) :=
  match req with
  | Rest.ListPending b _ _ | Rest.ListUsers b _ _
  | Rest.Approve b _ | Rest.Reject b _ => Some b
  | Rest.Register _ _ _ | Rest.Login _ _ => None
  end.

(** A message that [listByRoom] selects: of the room, and older than the
    [before] bound when there is one. *)
Definition in_page (roomId : string) (before : option Z) (m : Db.message) : Prop :=
  Db.m_room_id m = roomId
  /\ match before with
     | Some t => (Db.m_created_at m < t)%Z
     | None => True
     end.

(** Newest first. *)
Definition newer_first (a b : Db.message) : Prop :=
  (Db.m_created_at b <= Db.m_created_at a)%Z.

(** A call that is [ringing] or [ongoing]. *)
Definition call_open (c : Db.call) : Prop :=
  CallQueries.sets_ended_at (Db.c_status c) = false.

(** The bookkeeping of calls: call ids are unique, a call has an [ended_at]
    exactly when it is no longer open, and every entry of [activeCalls]
    names an open call of its room. *)
Definition calls_tracked (st : Hub.t) : Prop :=
  NoDup (map Db.c_id (Db.calls (Hub.db st)))
  /\ (forall c, In c (Db.calls (Hub.db st)) ->
                (call_open c <-> Db.c_ended_at c = None))
  /\ (forall rid callId,
         JsMap.get (Hub.activeCalls st) rid = Some callId ->
         exists c, CallQueries.findById (Hub.db st) callId = Some c
                   /\ Db.c_room_id c = rid /\ call_open c).

(** The participant a row of [room_participants] and the row of its user
    give in [getParticipants]. *)
Definition participant_of (u : Db.user) (rp : Db.room_participant)
  : RoomQueries.participant :=
  {| RoomQueries.p_id := Db.u_id u; RoomQueries.p_username := Db.u_username u;
     RoomQueries.p_profile_picture := Db.u_profile_picture u;
     RoomQueries.p_is_online := Db.u_is_online u;
     RoomQueries.p_role := Db.rp_role rp;
     RoomQueries.p_joined_at := Db.rp_joined_at rp |}.

(** The user is listed among the participants of the room. *)
Definition listed_in (d : Db.t) (roomId userId : string) : Prop :=
  In userId (map RoomQueries.p_id (RoomQueries.getParticipants d roomId)).

(** The rows of a group room: every row of the room is that of the creator
    (as admin) or of one of the members (as member), of a stored user and
    not left; and the creator and every member have a row. *)
Definition group_members (d : Db.t) (roomId creator : string)
    (members : string -> Prop) : Prop :=
  (forall rp, In rp (Db.room_participants d) -> Db.rp_room_id rp = roomId ->
              Db.rp_left_at rp = None
              /\ Db.rp_role rp
                 = (if Db.rp_user_id rp =? creator then Db.PAdmin else Db.PMember)
              /\ Db.user_exists d (Db.rp_user_id rp) = true
              /\ (Db.rp_user_id rp = creator \/ members (Db.rp_user_id rp)))
  /\ (forall u, u = creator \/ members u ->
                exists rp, In rp (Db.room_participants d)
                           /\ Db.rp_room_id rp = roomId
                           /\ Db.rp_user_id rp = u).

(** The user has a row in the room that has not been left. *)
Definition member_of (d : Db.t) (userId : string) (r : Db.room) : Prop :=
  In r (Db.rooms d)
  /\ exists rp, In rp (Db.room_participants d)
                /\ Db.rp_room_id rp = Db.r_id r
                /\ Db.rp_user_id rp = userId
                /\ Db.rp_left_at rp = None.

(** The preview of a listed room is that of a newest message of the room,
    and empty when the room has no message. *)
Definition preview_of (d : Db.t) (row : RoomQueries.listed_room) : Prop :=
  match RoomQueries.lr_last_message_at row with
  | None =>
      RoomQueries.lr_last_message row = None
      /\ forall m, In m (Db.messages d) ->
                   Db.m_room_id m <> Db.r_id (RoomQueries.lr_room row)
  | Some t =>
      (exists m, In m (Db.messages d)
                 /\ Db.m_room_id m = Db.r_id (RoomQueries.lr_room row)
                 /\ Db.m_created_at m = t
                 /\ RoomQueries.lr_last_message row = Db.m_content m)
      /\ forall m, In m (Db.messages d) ->
                   Db.m_room_id m = Db.r_id (RoomQueries.lr_room row) ->
                   (Db.m_created_at m <= t)%Z
  end.

(** Rooms with a message before rooms without, the latest message first. *)
Definition recent_before (a b : RoomQueries.listed_room) : Prop :=
  match RoomQueries.lr_last_message_at a, RoomQueries.lr_last_message_at b with
  | Some x, Some y => (y <= x)%Z
  | Some _, None => True
  | None, Some _ => False
  | None, None => True
  end.

(** ** Sample data *)

Definition sample_user : Db.user :=
  {| Db.u_id := "u-alice"; Db.u_username := "alice";
     Db.u_email := Some "alice@example.org"; Db.u_phone_number := None;
     Db.u_password := "hunter2"; Db.u_profile_picture := None;
     Db.u_role := Db.RoleUser; Db.u_status := Db.Active;
     Db.u_is_online := false; Db.u_last_seen := None;
     Db.u_created_at := 1700000000000 |}.

Definition sample_person (id name : string) (created : Z) : Db.user :=
  {| Db.u_id := id; Db.u_username := name; Db.u_email := None;
     Db.u_phone_number := None; Db.u_password := "secret";
     Db.u_profile_picture := None; Db.u_role := Db.RoleUser;
     Db.u_status := Db.Active; Db.u_is_online := false;
     Db.u_last_seen := None; Db.u_created_at := created |}.

Definition sample_member (roomId userId : string) : Db.room_participant :=
  {| Db.rp_room_id := roomId; Db.rp_user_id := userId;
     Db.rp_role := Db.PMember; Db.rp_joined_at := 50; Db.rp_left_at := None |}.

Definition sample_message : Db.message :=
  {| Db.m_id := "m1"; Db.m_room_id := "r1"; Db.m_sender_id := Some "u-alice";
     Db.m_content := Some "hi"; Db.m_message_type := Db.TText;
     Db.m_file_url := None; Db.m_created_at := 100; Db.m_edited_at := None |}.

(** Alice, Bob and Carol in the group room [r1]; Alice's message [m1] has
    been read by Bob and delivered to Carol. *)
Definition sample_db : Db.t :=
  {| Db.users := [sample_person "u-alice" "alice" 1;
                  sample_person "u-bob" "bob" 2;
                  sample_person "u-carol" "carol" 3];
     Db.rooms := [{| Db.r_id := "r1"; Db.r_type := Db.Group;
                     Db.r_name := Some "team"; Db.r_created_at := 40;
                     Db.r_created_by := Some "u-alice" |}];
     Db.room_participants := [sample_member "r1" "u-alice";
                              sample_member "r1" "u-bob";
                              sample_member "r1" "u-carol"];
     Db.messages := [sample_message];
     Db.message_statuses :=
       [MessageQueries.status_row "m1" "u-bob" Db.Read 150;
        MessageQueries.status_row "m1" "u-carol" Db.Delivered 140];
     Db.calls := []; Db.call_participants := [] |}.

Definition sample_session (sid uid name : string) : Hub.session :=
  {| Hub.socketId := sid; Hub.userId := Some uid; Hub.username := Some name |}.

Definition sample_hub : Hub.t :=
  {| Hub.db := sample_db;
     Hub.connectedUsers := [("s-alice", sample_session "s-alice" "u-alice" "alice");
                            ("s-bob", sample_session "s-bob" "u-bob" "bob")];
     Hub.activeCalls := [];
     Hub.mediaServer := {| Media.workers := 1; Media.nextWorkerIndex := 0;
                           Media.rooms := []; Media.peers := [] |} |}.

(** Bob registered from two devices. *)
Definition two_devices : Hub.t :=
  fst (Hub.register_user
         (fst (Hub.register_user sample_hub "s-bob" (Some "u-bob") (Some "bob") 10))
         "s-bob2" (Some "u-bob") (Some "bob") 20).

(** Alice calls Bob in room [r1]; the call is ringing. *)
Definition ringing : Hub.t :=
  fst (Hub.call_user sample_hub "s-alice" "u-bob" JNull (Some "alice") false
         (Some "r1") "c1" 300).

Definition chat (userId targetUserId new_id : string) (now : Z)
  : Hub.chat_call :=
  {| Hub.cc_userId := userId; Hub.cc_targetUserId := targetUserId;
     Hub.cc_new_id := new_id; Hub.cc_now := now |}.

(** Alice opens a chat with Bob, Bob with Alice, Alice with Bob again. *)
Definition sample_chats : list Hub.chat_call :=
  [chat "u-alice" "u-bob" "p1" 500; chat "u-bob" "u-alice" "p2" 510;
   chat "u-alice" "u-bob" "p3" 520].

Definition unix_join (dir file : string) : string := dir ++ "/" ++ file.

(** Every draw of [Math.random()] gives 0. *)
Definition zero_draws (i : nat) : Media.tap_draw :=
  {| Media.random := 0%Q;
     Media.plain := Some ("plain-" ++ dec (Z.of_nat i), "tap-" ++ dec (Z.of_nat i)) |}.

Definition no_media : Media.t :=
  {| Media.workers := 1; Media.nextWorkerIndex := 0;
     Media.rooms := []; Media.peers := [] |}.

(** Alice joins media room [r1], creates her send transport and produces
    audio; then Bob joins, creates his transports and produces audio. *)
Definition alice_ready : Media.t :=
  snd (Media.storePeerTransport
         (Media.addPeer no_media "r1" "s-alice" "alice" 1000)
         "r1" "s-alice" {| Media.tr_id := "t-alice" |} "send").

Definition alice_producing : Media.t :=
  snd (Media.produce unix_join "/srv" alice_ready "r1" "s-alice" Media.Audio []
         (Ok "P-alice") 2000 zero_draws).

Definition bob_ready : Media.t :=
  snd (Media.storePeerTransport
         (Media.addPeer alice_producing "r1" "s-bob" "bob" 3000)
         "r1" "s-bob" {| Media.tr_id := "t-bob" |} "send").

Definition both_producing : Media.t :=
  snd (Media.produce unix_join "/srv" bob_ready "r1" "s-bob" Media.Audio []
         (Ok "P-bob") 4000 zero_draws).

(** The media server at the moment Bob's producer has been stored and
    [checkAndStartAutoRecording] is about to run. *)
Definition two_producers : Media.t :=
  match JsMap.get (Media.rooms bob_ready) "r1" with
  | Some r =>
      match JsMap.get (Media.room_peers r) "s-bob" with
      | Some p =>
          Media.add_producer bob_ready "r1" r "s-bob" p "P-bob" Media.Audio []
      | None => bob_ready
      end
  | None => bob_ready
  end.

(** A recording with two audio and two video inputs. *)
Definition sample_input (file peerId : string) : Media.rtp_input :=
  {| Media.port := 20000; Media.sdpFile := file; Media.in_peerId := peerId |}.

Definition four_inputs : Media.recording :=
  {| Media.rec_id := "r1_1"; Media.startTime := 1;
     Media.outputFile := "/srv/recordings/r1_1.mp4"; Media.hasVideo := true;
     Media.ffmpegProcess := None; Media.rec_transports := [];
     Media.rec_consumers := [];
     Media.audioInputs := [sample_input "a1.sdp" "s-alice";
                           sample_input "a2.sdp" "s-bob"];
     Media.videoInputs := [sample_input "v1.sdp" "s-alice";
                           sample_input "v2.sdp" "s-bob"] |}.

(** Alice joins [r1] and leaves again. *)
Definition join_and_leave : list Media.op :=
  [Media.AddPeer "r1" "s-alice" "alice" 1000; Media.RemovePeer "s-alice" 2000].

(** Alice also has a receive transport. *)
Definition alice_receiving : Media.t :=
  snd (Media.storePeerTransport both_producing "r1" "s-alice"
         {| Media.tr_id := "t-alice-recv" |} "recv").

Definition bobs_audio : Media.listed :=
  {| Media.l_producerId := "P-bob"; Media.l_peerId := "s-bob";
     Media.l_username := "bob"; Media.l_kind := Media.Audio |}.

(** A database with the administrator Root and nobody else. *)
Definition root_only : Db.t :=
  Db.with_users Db.empty
    [{| Db.u_id := "u-root"; Db.u_username := "root"; Db.u_email := None;
        Db.u_phone_number := None; Db.u_password := "toor";
        Db.u_profile_picture := None; Db.u_role := Db.RoleAdmin;
        Db.u_status := Db.Active; Db.u_is_online := false;
        Db.u_last_seen := None; Db.u_created_at := 1 |}].

(** A token service for the examples. *)
Definition sample_token (userId : string) : string := "token-for-" ++ userId.

(** The room [r1] with three messages, sent at 100, 300 and 200. *)
Definition sample_message_at (id : string) (t : Z) : Db.message :=
  {| Db.m_id := id; Db.m_room_id := "r1"; Db.m_sender_id := Some "u-alice";
     Db.m_content := Some "hi"; Db.m_message_type := Db.TText;
     Db.m_file_url := None; Db.m_created_at := t; Db.m_edited_at := None |}.

Definition three_messages : Hub.t :=
  {| Hub.db :=
       Db.with_messages sample_db
         [sample_message; sample_message_at "m2" 300; sample_message_at "m3" 200];
     Hub.connectedUsers := Hub.connectedUsers sample_hub;
     Hub.activeCalls := [];
     Hub.mediaServer := Hub.mediaServer sample_hub |}.

(** Alice calls Bob in room [r1], Bob answers, Alice hangs up; then Bob
    calls Alice and she rejects. *)
Definition first_call : list Hub.call_event :=
  [Hub.CallUser "s-alice" "u-bob" JNull (Some "alice") false (Some "r1") "c1" 300;
   Hub.AnswerCall "s-bob" JNull "s-alice" (Some "r1") 310;
   Hub.EndCall "u-bob" (Some "r1") 400].

Definition second_call : list Hub.call_event :=
  [Hub.CallUser "s-bob" "u-alice" JNull (Some "bob") true (Some "r1") "c2" 500;
   Hub.RejectCall "s-bob" (Some "r1") 510].

(** Every room id of the samples reads as a [uuid], the empty text and
    [?] apart. *)
Definition sample_uuid (s : string) : bool := negb ((s =? "") || (s =? "?")).

Definition hello : Hub.group_data :=
  {| Hub.gd_roomId := Some "r1"; Hub.gd_text := Some "hello";
     Hub.gd_messageId := None; Hub.gd_rest := [("sender", JStr "alice")] |}.

Definition photo : Rest.uploaded_file :=
  {| Rest.filename := "1700000000000-42.png"; Rest.originalname := "cat.png";
     Rest.mimetype := "image/png" |}.

(** ** General facts *)

Lemma eqb_same (s : string) : (s =? s) = true.
Proof. apply String.eqb_refl. Qed.

Lemma eqb_true (a b : string) : (a =? b) = true -> a = b.
Proof. apply String.eqb_eq. Qed.

Lemma eqb_false (a b : string) : a <> b -> (a =? b) = false.
Proof. apply String.eqb_neq. Qed.

(** ** Sanitized user rows *)

Lemma sanitize_drops_password (o : obj) :
  prop (filter (fun kv => negb (fst kv =? "password")) o) "password" = None.
Proof.
  induction o as [|[k v] o IH]; simpl; [reflexivity|].
  destruct (k =? "password") eqn:E; simpl; [exact IH|].
  rewrite E. exact IH.
Qed.

Lemma sanitize_keeps_others (o : obj) (k : string) :
  k <> "password" ->
  prop (filter (fun kv => negb (fst kv =? "password")) o) k = prop o k.
Proof.
  intros Hk. induction o as [|[k' v] o IH]; simpl; [reflexivity|].
  destruct (k' =? "password") eqn:E; simpl.
  - apply eqb_true in E. subst k'.
    rewrite eqb_false by congruence. exact IH.
  - destruct (k' =? k); [reflexivity | exact IH].
Qed.

Lemma safe_user_clean (u : Db.user) :
  mentions "password" (Rest.safe_user u) = false.
Proof.
  destruct u as [id un em ph pw pic role st on seen created].
  unfold Rest.safe_user, UserQueries.sanitize, UserQueries.row. simpl.
  destruct em, ph, pic, seen; reflexivity.
Qed.

Lemma safe_users_clean (us : list Db.user) :
  existsb (mentions "password") (map Rest.safe_user us) = false.
Proof.
  induction us as [|u us IH]; cbn [map existsb]; [reflexivity|].
  rewrite safe_user_clean. exact IH.
Qed.

Lemma error_clean (code : Z) (msg : string) :
  mentions "password" (Rest.body (Rest.error code msg)) = false.
Proof. reflexivity. Qed.

Lemma with_token_clean (signToken : string -> string) (u : Db.user) :
  mentions "password" (Rest.with_token signToken u) = false.
Proof.
  unfold Rest.with_token. cbn [mentions existsb fst snd].
  rewrite safe_user_clean. reflexivity.
Qed.

Lemma guard_clean (d : Db.t) (bearer : outcome string) (r : Rest.response) :
  Rest.guard d bearer = Some r -> mentions "password" (Rest.body r) = false.
Proof.
  unfold Rest.guard. intros H.
  destruct bearer as [uid|msg].
  - destruct (UserQueries.findById d uid) as [u|].
    + destruct (Db.u_role u); [discriminate|].
      injection H as <-. reflexivity.
    + injection H as <-. reflexivity.
  - injection H as <-. reflexivity.
Qed.

Lemma user_list_clean (r : outcome (list Db.user)) :
  mentions "password" (Rest.body (Rest.user_list r)) = false.
Proof.
  destruct r as [us|e]; [|reflexivity].
  cbn [Rest.user_list Rest.body mentions existsb fst snd].
  rewrite safe_users_clean. reflexivity.
Qed.

Lemma decide_clean (d : Db.t) (id : string) (s : Db.user_status) :
  mentions "password" (Rest.body (fst (Rest.decide d id s))) = false.
Proof.
  unfold Rest.decide.
  destruct (UserQueries.setStatus d id s) as [[u|] d']; [|reflexivity].
  cbn [fst Rest.body mentions existsb snd].
  rewrite safe_user_clean. reflexivity.
Qed.

(** C10.  [sanitize] removes exactly the [password] property of a row
    object: the result has no [password], and every other property reads as
    in the row; a row of [users] does carry the stored password.  The body
    of every response of the register, login, user-list, approve and reject
    routes has no property named [password] at any depth. *)
Theorem sanitize_strips_password_everywhere :
  (forall o : obj,
      exists o', UserQueries.sanitize (Some o) = Some o'
                 /\ prop o' "password" = None
                 /\ forall k, k <> "password" -> prop o' k = prop o k)
  /\ (forall u : Db.user,
         prop (UserQueries.row u) "password" = Some (JStr (Db.u_password u)))
  /\ (forall (signToken : string -> string) (d : Db.t) (req : Rest.request)
             (new_id : string) (now : Z),
         mentions "password"
           (Rest.body (fst (Rest.handle signToken d req new_id now))) = false).
Proof.
  split; [|split].
  - intros o. eexists. split; [reflexivity|]. split.
    + apply sanitize_drops_password.
    + intros k Hk. apply sanitize_keeps_others. exact Hk.
  - intros u. reflexivity.
  - intros signToken d req new_id now.
    destruct req as [un em pw | un pw | b l o | b l o | b id | b id];
      cbn [Rest.handle].
    + unfold Rest.register.
      destruct un as [un|], pw as [pw|]; try reflexivity.
      destruct (negb (truthy (Some un)) || negb (truthy (Some pw)));
        [reflexivity|].
      destruct (UserQueries.findByUsername d un); [reflexivity|].
      destruct (UserQueries.create d new_id now un em pw None None)
        as [[u|e] d']; [|reflexivity].
      apply with_token_clean.
    + unfold Rest.login.
      destruct un as [un|], pw as [pw|]; try reflexivity.
      destruct (negb (truthy (Some un)) || negb (truthy (Some pw)));
        [reflexivity|].
      destruct (UserQueries.findByUsername d un) as [u|]; [|reflexivity].
      destruct (negb (pw =? Db.u_password u)); [reflexivity|].
      destruct (Db.u_status u); try reflexivity.
      apply with_token_clean.
    + destruct (Rest.guard d b) as [r|] eqn:G.
      * apply (guard_clean _ _ _ G).
      * apply user_list_clean.
    + destruct (Rest.guard d b) as [r|] eqn:G.
      * apply (guard_clean _ _ _ G).
      * apply user_list_clean.
    + destruct (Rest.guard d b) as [r|] eqn:G.
      * apply (guard_clean _ _ _ G).
      * apply decide_clean.
    + destruct (Rest.guard d b) as [r|] eqn:G.
      * apply (guard_clean _ _ _ G).
      * apply decide_clean.
Qed.

Lemma sanitize_strips_password_everywhere_witness :
  exists o',
    UserQueries.sanitize (Some (UserQueries.row sample_user)) = Some o'
    /\ prop o' "password" = None
    /\ prop o' "username" = Some (JStr "alice").
Proof.
  destruct (proj1 sanitize_strips_password_everywhere
              (UserQueries.row sample_user)) as [o' [H1 [H2 H3]]].
  exists o'. split; [exact H1|]. split; [exact H2|].
  rewrite H3; [reflexivity | discriminate].
Defined.

(** ** Aggregated delivery status of the message history *)

Lemma delivery_le_rank (a b : Db.delivery) :
  delivery_le a b <->
  (MessageQueries.status_rank a <= MessageQueries.status_rank b)%Z.
Proof. destruct a, b; simpl; split; intros H; try lia; try exact I. Qed.

Lemma sql_min_least (l : list Z) :
  l <> [] ->
  exists m, MessageQueries.sql_min l = Some m /\ In m l
            /\ forall x, In x l -> (m <= x)%Z.
Proof.
  induction l as [|x l IH]; [congruence|]. intros _.
  destruct l as [|y l].
  - exists x. simpl. repeat split; auto. intros z [<-|[]]. lia.
  - destruct IH as [m [Hm [Hin Hle]]]; [discriminate|].
    change (MessageQueries.sql_min (x :: y :: l))
      with (match MessageQueries.sql_min (y :: l) with
            | None => Some x
            | Some z => Some (Z.min x z)
            end).
    rewrite Hm. exists (Z.min x m). split; [reflexivity|]. split.
    + destruct (Z.min_spec x m) as [[_ ->]|[_ ->]]; [left; reflexivity|right; exact Hin].
    + intros z [<-|Hz]; [lia|]. specialize (Hle z Hz). lia.
Qed.

Lemma delivery_status_least (d : Db.t) (messageId : string) :
  let rows := MessageQueries.statuses_of d messageId in
  (rows = [] -> MessageQueries.delivery_status d messageId = Db.Sent)
  /\ (rows <> [] ->
      In (MessageQueries.delivery_status d messageId) rows
      /\ forall s, In s rows ->
                   delivery_le (MessageQueries.delivery_status d messageId) s).
Proof.
  unfold MessageQueries.delivery_status.
  set (rows := MessageQueries.statuses_of d messageId). simpl.
  split.
  - intros ->. reflexivity.
  - intros Hne.
    destruct rows as [|r0 rows'] eqn:E; [congruence|].
    rewrite <- E in *. clear Hne.
    assert (Hne : map MessageQueries.status_rank rows <> []).
    { rewrite E. discriminate. }
    destruct (sql_min_least _ Hne) as [m [Hm [Hin Hle]]].
    rewrite Hm.
    replace (Nat.eqb (List.length rows) 0) with false by (rewrite E; reflexivity).
    apply in_map_iff in Hin. destruct Hin as [s0 [Hs0 Hin0]].
    assert (Hall : forall s, In s rows ->
                             (MessageQueries.status_rank s0
                              <= MessageQueries.status_rank s)%Z).
    { intros s Hs. rewrite Hs0. apply Hle. apply in_map. exact Hs. }
    unfold MessageQueries.when_ge.
    destruct s0; simpl in Hs0; subst m; simpl.
    + split; [exact Hin0|]. intros s Hs. exact I.
    + split; [exact Hin0|]. intros s Hs.
      apply (proj2 (delivery_le_rank Db.Delivered s)), (Hall s Hs).
    + split; [exact Hin0|]. intros s Hs.
      apply (proj2 (delivery_le_rank Db.Read s)), (Hall s Hs).
Qed.



(** ** Receipts and stored statuses *)

Lemma same_key_eq (m u : string) (x : Db.message_status) :
  MessageQueries.same_key m u x = true ->
  Db.ms_message_id x = m /\ Db.ms_user_id x = u.
Proof.
  unfold MessageQueries.same_key. intros H.
  apply andb_true_iff in H. destruct H as [H1 H2].
  split; apply eqb_true; assumption.
Qed.

Lemma same_key_status_row (m u m0 u0 : string) (s : Db.delivery) (now : Z)
    (x : Db.message_status) :
  MessageQueries.same_key m0 u0 x = true ->
  MessageQueries.same_key m u (MessageQueries.status_row m0 u0 s now)
  = MessageQueries.same_key m u x.
Proof.
  intros H. apply same_key_eq in H. destruct H as [<- <-]. reflexivity.
Qed.

Lemma find_map_keyed {A : Type} (p : A -> bool) (f : A -> A) (l : list A) :
  (forall x, p (f x) = p x) ->
  find p (map f l) = option_map f (find p l).
Proof.
  intros Hf. induction l as [|x l IH]; simpl; [reflexivity|].
  rewrite Hf. destruct (p x); [reflexivity | exact IH].
Qed.

Lemma find_app_found {A : Type} (p : A -> bool) (l l' : list A) (x : A) :
  find p l = Some x -> find p (l ++ l') = Some x.
Proof.
  induction l as [|y l IH]; simpl; [discriminate|].
  destruct (p y); [auto | exact IH].
Qed.

Lemma status_in_some (rows : list Db.message_status) (m u : string)
    (a : Db.delivery) :
  status_in rows m u = Some a ->
  exists x, find (MessageQueries.same_key m u) rows = Some x
            /\ Db.ms_status x = a.
Proof.
  unfold status_in.
  destruct (find (MessageQueries.same_key m u) rows) as [x|]; simpl;
    [|discriminate].
  intros [= <-]. exists x. split; reflexivity.
Qed.

(** [setStatus] writes its status over the row of its key and leaves every
    other row alone. *)
Lemma setStatus_status (d : Db.t) (mid uid : string) (s : Db.delivery)
    (now : Z) (m u : string) (a : Db.delivery) :
  MessageQueries.status_of d m u = Some a ->
  exists b,
    MessageQueries.status_of (snd (MessageQueries.setStatus d mid uid s now)) m u
      = Some b
    /\ (b = a \/ (b = s /\ m = mid /\ u = uid)).
Proof.
  intros Ha. apply status_in_some in Ha. destruct Ha as [x [Hx Hs]].
  unfold MessageQueries.setStatus.
  destruct (existsb (MessageQueries.same_key mid uid) (Db.message_statuses d)).
  - cbn [snd]. unfold MessageQueries.status_of.
    cbn [Db.message_statuses Db.with_message_statuses].
    rewrite find_map_keyed.
    + rewrite Hx. cbn [option_map].
      destruct (MessageQueries.same_key mid uid x) eqn:K.
      * exists s. split; [reflexivity|]. right. split; [reflexivity|].
        apply find_some in Hx. destruct Hx as [_ Hk].
        apply same_key_eq in Hk. apply same_key_eq in K.
        destruct Hk as [<- <-]. destruct K as [<- <-]. auto.
      * exists a. split; [rewrite Hs; reflexivity | left; reflexivity].
    + intros y. destruct (MessageQueries.same_key mid uid y) eqn:K;
        [apply same_key_status_row; exact K | reflexivity].
  - destruct (Db.message_exists d mid && Db.user_exists d uid).
    + cbn [snd]. unfold MessageQueries.status_of.
      cbn [Db.message_statuses Db.with_message_statuses].
      rewrite (find_app_found _ _ _ _ Hx). exists a. cbn [option_map].
      rewrite Hs. auto.
    + cbn [snd]. unfold MessageQueries.status_of. rewrite Hx.
      exists a. cbn [option_map]. rewrite Hs. auto.
Qed.

Lemma mark_one_status (uid : string) (s : Db.delivery) (now : Z)
    (rows : list Db.message_status) (mid m u : string) (a : Db.delivery) :
  status_in rows m u = Some a ->
  exists b, status_in (MessageQueries.mark_one uid s now rows mid) m u = Some b
            /\ (b = a \/ b = s).
Proof.
  intros Ha. apply status_in_some in Ha. destruct Ha as [x [Hx Hs]].
  unfold MessageQueries.mark_one, status_in.
  destruct (existsb (MessageQueries.same_key mid uid) rows).
  - rewrite find_map_keyed.
    + rewrite Hx. cbn [option_map].
      destruct (MessageQueries.same_key mid uid x
                && negb (MessageQueries.delivery_eqb (Db.ms_status x) s)).
      * exists s. auto.
      * exists a. rewrite Hs. auto.
    + intros y.
      destruct (MessageQueries.same_key mid uid y) eqn:K; cbn [andb];
        [|reflexivity].
      destruct (negb (MessageQueries.delivery_eqb (Db.ms_status y) s));
        [apply same_key_status_row; exact K | reflexivity].
  - rewrite (find_app_found _ _ _ _ Hx). exists a. cbn [option_map].
    rewrite Hs. auto.
Qed.

Lemma mark_all_status (uid : string) (s : Db.delivery) (now : Z)
    (targets : list string) (rows : list Db.message_status) (m u : string)
    (a : Db.delivery) :
  status_in rows m u = Some a ->
  exists b,
    status_in (fold_left (MessageQueries.mark_one uid s now) targets rows) m u
      = Some b
    /\ (b = a \/ b = s).
Proof.
  revert rows a. induction targets as [|t targets IH]; intros rows a Ha.
  - exists a. auto.
  - cbn [fold_left].
    destruct (mark_one_status uid s now rows t m u a Ha) as [b [Hb Hab]].
    destruct (IH _ _ Hb) as [c [Hc Hbc]].
    exists c. split; [exact Hc|].
    destruct Hbc as [ -> | -> ]; [exact Hab | right; reflexivity].
Qed.

Lemma markRoomAs_status (d : Db.t) (roomId uid : string) (s : Db.delivery)
    (now : Z) (m u : string) (a : Db.delivery) :
  MessageQueries.status_of d m u = Some a ->
  exists b,
    MessageQueries.status_of (snd (MessageQueries.markRoomAs d roomId uid s now))
      m u = Some b
    /\ (b = a \/ b = s).
Proof.
  intros Ha. unfold MessageQueries.markRoomAs.
  match goal with |- context [if ?c then _ else _] => destruct c end.
  - exists a. auto.
  - cbn [snd]. apply (mark_all_status uid s now _ _ m u a Ha).
Qed.

Lemma delivery_le_refl (a : Db.delivery) : delivery_le a a.
Proof. destruct a; exact I. Qed.

Lemma delivery_le_read (a : Db.delivery) : delivery_le a Db.Read.
Proof. destruct a; exact I. Qed.

Lemma message_delivered_db (st : Hub.t) (sid : string)
    (messageId : option string) (now : Z) :
  Hub.db (fst (Hub.message_delivered st sid messageId now)) = Hub.db st
  \/ exists mid uid,
       messageId = Some mid /\ Hub.session_user st sid = Some uid
       /\ Hub.db (fst (Hub.message_delivered st sid messageId now))
          = snd (MessageQueries.setStatus (Hub.db st) mid uid Db.Delivered now).
Proof.
  unfold Hub.message_delivered.
  destruct (Hub.session_user st sid) as [uid|]; [|left; reflexivity].
  destruct messageId as [mid|]; [|left; reflexivity].
  destruct (negb (truthy (Some mid))); [left; reflexivity|].
  destruct (MessageQueries.setStatus (Hub.db st) mid uid Db.Delivered now)
    as [[r|e] d] eqn:E; [|left; reflexivity].
  right. exists mid, uid. rewrite E. auto.
Qed.

Lemma mark_read_db (st : Hub.t) (sid roomId : string) (now : Z) :
  Hub.db (fst (Hub.mark_read st sid roomId now)) = Hub.db st
  \/ exists uid,
       Hub.db (fst (Hub.mark_read st sid roomId now))
       = snd (MessageQueries.markRoomAs (Hub.db st) roomId uid Db.Read now).
Proof.
  unfold Hub.mark_read.
  destruct (Hub.session_user st sid) as [uid|]; [|left; reflexivity].
  destruct (MessageQueries.markRoomAs (Hub.db st) roomId uid Db.Read now)
    as [[r|e] d] eqn:E; [|left; reflexivity].
  right. exists uid. rewrite E. reflexivity.
Qed.

(** C1 (as amended).  A receipt event leaves every stored status where it
    was or moves it forward in [sent < delivered < read], with one
    exception: [message_delivered] by the recipient of a message whose
    stored status is [read] writes [delivered] over it.  [setStatus] writes
    the status it is given whatever the stored one is: after
    [message_delivered] handled for a recipient that has a row for the
    message, the stored status is [delivered]. *)
Theorem receipt_step_status :
  forall (st : Hub.t) (e : Hub.receipt) (messageId userId : string)
         (a : Db.delivery),
    MessageQueries.status_of (Hub.db st) messageId userId = Some a ->
    (exists b,
        MessageQueries.status_of (Hub.db (Hub.receipt_step st e))
          messageId userId = Some b
        /\ (delivery_le a b
            \/ (a = Db.Read /\ b = Db.Delivered
                /\ exists sid now,
                     e = Hub.MessageDelivered sid (Some messageId) now
                     /\ Hub.session_user st sid = Some userId)))
    /\ (forall sid now,
           Hub.session_user st sid = Some userId ->
           truthy (Some messageId) = true ->
           MessageQueries.status_of
             (Hub.db (Hub.receipt_step st
                        (Hub.MessageDelivered sid (Some messageId) now)))
             messageId userId = Some Db.Delivered).
Proof.
  intros st e m u a Ha. split.
  - destruct e as [sid mid now | sid roomId now]; cbn [Hub.receipt_step].
    + destruct (message_delivered_db st sid mid now)
        as [-> | [mid' [uid [-> [Hu ->]]]]].
      * exists a. split; [exact Ha | left; apply delivery_le_refl].
      * destruct (setStatus_status (Hub.db st) mid' uid Db.Delivered now m u a Ha)
          as [b [Hb [-> | [-> [-> ->]]]]].
        -- exists a. split; [exact Hb | left; apply delivery_le_refl].
        -- exists Db.Delivered. split; [exact Hb|].
           destruct a; [left; exact I | left; exact I |].
           right. split; [reflexivity|]. split; [reflexivity|].
           exists sid, now. auto.
    + destruct (mark_read_db st sid roomId now) as [-> | [uid ->]].
      * exists a. split; [exact Ha | left; apply delivery_le_refl].
      * destruct (markRoomAs_status (Hub.db st) roomId uid Db.Read now m u a Ha)
          as [b [Hb [-> | ->]]].
        -- exists a. split; [exact Hb | left; apply delivery_le_refl].
        -- exists Db.Read. split; [exact Hb | left; apply delivery_le_read].
  - intros sid now Hu Ht. cbn [Hub.receipt_step].
    unfold Hub.message_delivered. rewrite Hu, Ht. cbn [negb].
    apply status_in_some in Ha. destruct Ha as [x [Hx _]].
    assert (Hex : existsb (MessageQueries.same_key m u)
                    (Db.message_statuses (Hub.db st)) = true).
    { apply existsb_exists. exists x. apply find_some in Hx. exact Hx. }
    unfold MessageQueries.setStatus. rewrite Hex. cbn [fst Hub.with_db Hub.db].
    unfold MessageQueries.status_of.
    cbn [Db.message_statuses Db.with_message_statuses].
    rewrite find_map_keyed.
    + rewrite Hx. cbn [option_map].
      apply find_some in Hx. destruct Hx as [_ ->]. reflexivity.
    + intros y. destruct (MessageQueries.same_key m u y) eqn:K;
        [|exact K].
      rewrite (same_key_status_row m u m u _ _ y K). exact K.
Qed.

Lemma receipt_step_status_witness :
  MessageQueries.status_of (Hub.db sample_hub) "m1" "u-bob" = Some Db.Read
  /\ MessageQueries.status_of
       (Hub.db (Hub.receipt_step sample_hub
                  (Hub.MessageDelivered "s-bob" (Some "m1") 200)))
       "m1" "u-bob" = Some Db.Delivered.
Proof.
  split; [reflexivity|].
  apply (proj2 (receipt_step_status sample_hub
                  (Hub.MessageDelivered "s-bob" (Some "m1") 200)
                  "m1" "u-bob" Db.Read eq_refl)
           "s-bob" 200); reflexivity.
Defined.

(** C1 fails as stated: Bob has read [m1]; his delivery receipt for [m1]
    then puts the stored status back to [delivered]. *)
Lemma delivered_receipt_after_read_regresses : ~ receipts_never_regress.
Proof.
  intros H.
  exact (H sample_hub (Hub.MessageDelivered "s-bob" (Some "m1") 200)
           "m1" "u-bob" Db.Read Db.Delivered eq_refl eq_refl).
Qed.

(** ** Presence *)

Lemma get_delete_same {V : Type} (m : JsMap.t V) (k : string) :
  JsMap.get (JsMap.delete m k) k = None.
Proof.
  induction m as [|[k' v] m IH]; [reflexivity|].
  unfold JsMap.delete in *. cbn [filter fst].
  destruct (k' =? k) eqn:E; cbn [negb]; [exact IH|].
  cbn [JsMap.get]. rewrite E. exact IH.
Qed.

Lemma get_delete_other {V : Type} (m : JsMap.t V) (k k' : string) :
  k' <> k -> JsMap.get (JsMap.delete m k) k' = JsMap.get m k'.
Proof.
  intros Hk. induction m as [|[k0 v] m IH]; [reflexivity|].
  unfold JsMap.delete in *. cbn [filter fst].
  destruct (k0 =? k) eqn:E; cbn [negb JsMap.get].
  - apply eqb_true in E. subst k0.
    rewrite (eqb_false k k') by congruence. exact IH.
  - destruct (k0 =? k'); [reflexivity | exact IH].
Qed.

Lemma get_set_same {V : Type} (m : JsMap.t V) (k : string) (v : V) :
  JsMap.get (JsMap.set m k v) k = Some v.
Proof.
  induction m as [|[k' v'] m IH]; cbn [JsMap.set JsMap.get].
  - rewrite eqb_same. reflexivity.
  - destruct (k' =? k) eqn:E; cbn [JsMap.get].
    + rewrite eqb_same. reflexivity.
    + rewrite E. exact IH.
Qed.

Lemma get_set_other {V : Type} (m : JsMap.t V) (k k' : string) (v : V) :
  k' <> k -> JsMap.get (JsMap.set m k v) k' = JsMap.get m k'.
Proof.
  intros Hk. induction m as [|[k0 v0] m IH]; cbn [JsMap.set JsMap.get].
  - rewrite (eqb_false k k') by congruence. reflexivity.
  - destruct (k0 =? k) eqn:E; cbn [JsMap.get].
    + apply eqb_true in E. subst k0.
      rewrite (eqb_false k k') by congruence. reflexivity.
    + destruct (k0 =? k'); [reflexivity | exact IH].
Qed.

Lemma setOnlineStatus_flag (d : Db.t) (uid : string) (flag : bool) (now : Z)
    (u : Db.user) :
  UserQueries.findById d uid = Some u ->
  option_map Db.u_is_online
    (UserQueries.findById (snd (UserQueries.setOnlineStatus d uid flag now)) uid)
  = Some flag.
Proof.
  unfold UserQueries.findById, UserQueries.setOnlineStatus. intros H.
  cbn [snd Db.users Db.with_users].
  rewrite find_map_keyed.
  - rewrite H. cbn [option_map].
    apply find_some in H. destruct H as [_ ->]. reflexivity.
  - intros x. destruct (Db.u_id x =? uid) eqn:E; [|exact E].
    cbn [UserQueries.set_online Db.u_id]. exact E.
Qed.

Lemma session_user_truthy (st : Hub.t) (sid uid : string) :
  Hub.session_user st sid = Some uid ->
  exists s, JsMap.get (Hub.connectedUsers st) sid = Some s
            /\ Hub.userId s = Some uid /\ truthy (Some uid) = true.
Proof.
  unfold Hub.session_user.
  destruct (JsMap.get (Hub.connectedUsers st) sid) as [s|]; [|discriminate].
  destruct (truthy (Hub.userId s)) eqn:T; [|discriminate].
  intros H. exists s. rewrite H in T. auto.
Qed.

(** C2 (as amended).  [register_user] with a user id sets that user's
    [is_online] to true.  [disconnect] of a session registered with a user
    id sets the user's [is_online] to false, whether or not other sessions
    of the user stay registered: no count of sessions is kept.  It removes
    that session only. *)
Theorem disconnect_sets_offline :
  forall (st : Hub.t) (sid uid : string) (now : Z) (u : Db.user),
    UserQueries.findById (Hub.db st) uid = Some u ->
    (forall name,
        truthy (Some uid) = true ->
        Hub.is_online (fst (Hub.register_user st sid (Some uid) name now)) uid
        = Some true)
    /\ (Hub.session_user st sid = Some uid ->
        let st' := fst (fst (Hub.disconnect st sid now)) in
        Hub.is_online st' uid = Some false
        /\ JsMap.get (Hub.connectedUsers st') sid = None
        /\ forall sid', sid' <> sid ->
                        JsMap.get (Hub.connectedUsers st') sid'
                        = JsMap.get (Hub.connectedUsers st) sid').
Proof.
  intros st sid uid now u Hu. split.
  - intros name Ht. unfold Hub.register_user. rewrite Ht.
    cbn [fst Hub.is_online Hub.db]. unfold Hub.is_online. cbn [Hub.db].
    apply (setOnlineStatus_flag _ _ _ _ _ Hu).
  - intros Hs. apply session_user_truthy in Hs.
    destruct Hs as [s [Hget [Hid Ht]]].
    unfold Hub.disconnect. rewrite Hget, Hid, Ht.
    destruct (Media.removePeer (Hub.mediaServer st) sid now) as [ms closed].
    cbn [fst]. unfold Hub.is_online. cbn [Hub.db Hub.connectedUsers].
    split; [apply (setOnlineStatus_flag _ _ _ _ _ Hu)|].
    split; [apply get_delete_same|].
    intros sid' Hne. apply get_delete_other. exact Hne.
Qed.

Lemma disconnect_sets_offline_witness :
  Hub.is_online (fst (fst (Hub.disconnect two_devices "s-bob" 30))) "u-bob"
  = Some false
  /\ Hub.session_user (fst (fst (Hub.disconnect two_devices "s-bob" 30))) "s-bob2"
     = Some "u-bob".
Proof.
  split; [|reflexivity].
  apply (proj2 (disconnect_sets_offline two_devices "s-bob" "u-bob" 30
                  (UserQueries.set_online true 20
                     (UserQueries.set_online true 10
                        (sample_person "u-bob" "bob" 2)))
                  eq_refl)
           eq_refl).
Defined.

(** C2 fails as stated: Bob is registered from two devices; the first one
    disconnects, and Bob is stored as offline although his second session
    is still registered. *)
Lemma second_session_left_offline : ~ online_while_sessions_remain.
Proof.
  intros H.
  specialize (H two_devices "s-bob" "s-bob2" "u-bob" 30).
  assert (Hne : "s-bob" <> "s-bob2") by discriminate.
  specialize (H Hne eq_refl eq_refl eq_refl).
  discriminate H.
Qed.

(** ** Call lifecycle *)

Lemma updateStatus_row (d : Db.t) (id : string) (s : Db.call_status) (now : Z)
    (c : Db.call) :
  CallQueries.findById d id = Some c ->
  CallQueries.findById (snd (CallQueries.updateStatus d id s now)) id
  = Some (CallQueries.set_call_status s now c).
Proof.
  unfold CallQueries.findById, CallQueries.updateStatus. intros H.
  cbn [snd Db.calls Db.with_calls].
  rewrite find_map_keyed.
  - rewrite H. cbn [option_map].
    apply find_some in H. destruct H as [_ ->]. reflexivity.
  - intros x. destruct (Db.c_id x =? id) eqn:E; [|exact E].
    cbn [CallQueries.set_call_status Db.c_id]. exact E.
Qed.

(** C5 (as amended).  [end_call] for a room with an active call stores the
    call as [completed] with [ended_at] set to the time of the update,
    whatever its status was (ringing and unanswered included), and drops the
    room's entry of [activeCalls]. *)
Theorem end_call_completes :
  forall (st : Hub.t) (to rid callId : string) (c : Db.call) (now : Z),
    Hub.active_call st (Some rid) = Some (rid, callId) ->
    CallQueries.findById (Hub.db st) callId = Some c ->
    let st' := fst (Hub.end_call st to (Some rid) now) in
    exists c',
      CallQueries.findById (Hub.db st') callId = Some c'
      /\ Db.c_status c' = Db.Completed
      /\ Db.c_ended_at c' = Some now
      /\ JsMap.get (Hub.activeCalls st') rid = None.
Proof.
  intros st to rid callId c now Hact Hc. unfold Hub.end_call.
  rewrite Hact. cbn [fst Hub.db Hub.activeCalls].
  exists (CallQueries.set_call_status Db.Completed now c).
  split; [apply updateStatus_row; exact Hc|].
  split; [reflexivity|]. split; [reflexivity|].
  apply get_delete_same.
Qed.

Lemma end_call_completes_witness :
  Hub.answered_by_other (Hub.db ringing)
    {| Db.c_id := "c1"; Db.c_room_id := "r1";
       Db.c_initiator_id := Some "u-alice"; Db.c_started_at := 300;
       Db.c_ended_at := None; Db.c_call_type := Db.AudioCall;
       Db.c_status := Db.Ringing |} = false
  /\ exists c',
       CallQueries.findById
         (Hub.db (fst (Hub.end_call ringing "u-bob" (Some "r1") 400))) "c1"
       = Some c'
       /\ Db.c_status c' = Db.Completed
       /\ Db.c_ended_at c' = Some 400
       /\ JsMap.get
            (Hub.activeCalls (fst (Hub.end_call ringing "u-bob" (Some "r1") 400)))
            "r1" = None.
Proof.
  split; [reflexivity|].
  apply (end_call_completes ringing "u-bob" "r1" "c1"
           {| Db.c_id := "c1"; Db.c_room_id := "r1";
              Db.c_initiator_id := Some "u-alice"; Db.c_started_at := 300;
              Db.c_ended_at := None; Db.c_call_type := Db.AudioCall;
              Db.c_status := Db.Ringing |} 400); reflexivity.
Defined.

(** C5 fails as stated: Alice's call to Bob is ringing and unanswered; she
    ends it, and the call is stored as [completed], not [missed]. *)
Lemma unanswered_call_ends_completed : ~ unanswered_end_is_missed.
Proof.
  intros H.
  destruct (H ringing "u-bob" "r1" "c1"
              {| Db.c_id := "c1"; Db.c_room_id := "r1";
                 Db.c_initiator_id := Some "u-alice"; Db.c_started_at := 300;
                 Db.c_ended_at := None; Db.c_call_type := Db.AudioCall;
                 Db.c_status := Db.Ringing |} 400
              eq_refl eq_refl eq_refl eq_refl) as [c' [Hc' Hs]].
  vm_compute in Hc'. injection Hc' as <-. discriminate Hs.
Qed.

(** ** Private rooms *)

Lemma find_same_test {A : Type} (p q : A -> bool) (l : list A) :
  (forall x, p x = q x) -> find p l = find q l.
Proof.
  intros H. induction l as [|x l IH]; cbn [find]; [reflexivity|].
  rewrite H, IH. reflexivity.
Qed.

Lemma select_private_sym (d : Db.t) (a b : string) :
  RoomQueries.select_private d a b = RoomQueries.select_private d b a.
Proof.
  unfold RoomQueries.select_private. apply find_same_test. intros r.
  f_equal. apply andb_comm.
Qed.

Lemma find_last {A : Type} (p : A -> bool) (l : list A) (x : A) :
  (forall y, In y l -> p y = false) -> p x = true ->
  find p (l ++ [x]) = Some x.
Proof.
  intros Hl Hx. induction l as [|y l IH]; cbn [app find].
  - rewrite Hx. reflexivity.
  - rewrite (Hl y (or_introl eq_refl)). apply IH.
    intros z Hz. apply Hl. right. exact Hz.
Qed.

Lemma unused_room_has_no_participant (d : Db.t) (roomId userId : string) :
  participants_reference_rooms d ->
  Db.room_exists d roomId = false ->
  RoomQueries.has_participant d roomId userId = false.
Proof.
  intros Hfk Hfresh. unfold RoomQueries.has_participant.
  destruct (existsb _ (Db.room_participants d)) eqn:E; [|reflexivity].
  apply existsb_exists in E. destruct E as [rp [Hin Hrp]].
  apply andb_true_iff in Hrp. destruct Hrp as [Hr _].
  apply eqb_true in Hr. rewrite <- Hr, (Hfk rp Hin) in Hfresh.
  discriminate.
Qed.

(** The first call for a pair without a private room creates one. *)
Lemma first_private (d : Db.t) (a b new_id : string) (now : Z) :
  a <> b ->
  Db.user_exists d a = true -> Db.user_exists d b = true ->
  participants_reference_rooms d ->
  RoomQueries.select_private d a b = None ->
  Db.room_exists d new_id = false ->
  exists r d',
    RoomQueries.findOrCreatePrivate d a b a new_id now = (Ok (r, true), d')
    /\ Db.r_id r = new_id
    /\ RoomQueries.select_private d' a b = Some r.
Proof.
  intros Hab Ha Hb Hfk Hsel Hfresh.
  unfold RoomQueries.findOrCreatePrivate, RoomQueries.insert_private.
  rewrite Hsel, Hfresh, Ha, Hb.
  rewrite (unused_room_has_no_participant d new_id a Hfk Hfresh).
  rewrite (unused_room_has_no_participant d new_id b Hfk Hfresh).
  rewrite (eqb_false a b Hab). cbn [negb orb andb].
  eexists. eexists. split; [reflexivity|]. split; [reflexivity|].
  unfold RoomQueries.select_private.
  cbn [Db.rooms Db.with_rooms].
  apply find_last.
  - intros r0 Hr0.
    assert (Hne : (Db.r_id r0 =? new_id) = false).
    { destruct (Db.r_id r0 =? new_id) eqn:E; [|reflexivity].
      apply eqb_true in E.
      assert (Hex : Db.room_exists d new_id = true).
      { apply existsb_exists. exists r0. split; [exact Hr0|].
        rewrite E. apply eqb_same. }
      rewrite Hex in Hfresh. discriminate. }
    assert (Hold : forall x,
               RoomQueries.has_participant
                 (Db.with_rooms d
                    (Db.rooms d ++ [{| Db.r_id := new_id; Db.r_type := Db.Private;
                                       Db.r_name := None; Db.r_created_at := now;
                                       Db.r_created_by := Some a |}])
                    (Db.room_participants d
                       ++ [RoomQueries.member_row new_id a now;
                           RoomQueries.member_row new_id b now]))
                 (Db.r_id r0) x
               = RoomQueries.has_participant d (Db.r_id r0) x).
    { intros x. unfold RoomQueries.has_participant.
      cbn [Db.room_participants Db.with_rooms].
      rewrite existsb_app.
      cbn [existsb RoomQueries.member_row Db.rp_room_id Db.rp_user_id].
      rewrite (String.eqb_sym new_id), Hne. cbn [andb orb].
      apply orb_false_r. }
    rewrite !Hold.
    apply (find_none _ _ Hsel r0 Hr0).
  - unfold RoomQueries.has_participant.
    cbn [Db.room_participants Db.with_rooms Db.r_id].
    rewrite !existsb_app.
    cbn [existsb RoomQueries.member_row Db.rp_room_id Db.rp_user_id].
    rewrite !eqb_same. cbn [andb orb].
    rewrite !orb_true_r. reflexivity.
Qed.

(** Once the pair has a private room, every further call finds it. *)
Lemma later_private (st : Hub.t) (a b : string) (r : Db.room)
    (cs : list Hub.chat_call) :
  RoomQueries.select_private (Hub.db st) a b = Some r ->
  Forall (between a b) cs ->
  map ack_summary (snd (Hub.start_private_chats st cs))
  = map (fun _ => Some (Db.r_id r, false)) cs.
Proof.
  intros Hsel Hcs. revert st Hsel.
  induction Hcs as [|c cs Hc _ IH]; intros st Hsel; [reflexivity|].
  cbn [Hub.start_private_chats].
  assert (Hfound :
            RoomQueries.select_private (Hub.db st)
              (Hub.cc_userId c) (Hub.cc_targetUserId c) = Some r).
  { destruct Hc as [[-> ->] | [-> ->]];
      [exact Hsel | rewrite select_private_sym; exact Hsel]. }
  unfold Hub.start_private_chat at 1, RoomQueries.findOrCreatePrivate.
  rewrite Hfound.
  specialize (IH (Hub.with_db st (Hub.db st)) Hsel).
  destruct (Hub.start_private_chats (Hub.with_db st (Hub.db st)) cs)
    as [st2 acks].
  cbn [snd map ack_summary Hub.pc_room Hub.pc_created] in *.
  rewrite IH. reflexivity.
Qed.



(** ** Echo prevention *)

Lemma get_in {V : Type} (m : JsMap.t V) (k : string) (v : V) :
  JsMap.get m k = Some v -> In (k, v) m.
Proof.
  induction m as [|[k' v'] m IH]; cbn [JsMap.get]; [discriminate|].
  destruct (k' =? k) eqn:E.
  - intros [= ->]. apply eqb_true in E. subst. left. reflexivity.
  - intros H. right. apply IH. exact H.
Qed.

(** Under unique producer ids, the owner the loop of [consume] finds for a
    producer held by the requesting peer is that peer. *)
Lemma owner_of_held_producer (r : Media.room) (peerId producerId : string)
    (p : Media.peer) :
  producer_ids_unique r ->
  JsMap.get (Media.room_peers r) peerId = Some p ->
  JsMap.has (Media.producers p) producerId = true ->
  exists pr, Media.producer_owner r producerId = Some (peerId, pr).
Proof.
  intros Huniq Hget Hhas. unfold Media.producer_owner.
  destruct (find (fun kv => JsMap.has (Media.producers (snd kv)) producerId)
                 (Media.room_peers r)) as [[k q]|] eqn:F.
  - apply find_some in F. destruct F as [Hin Hq]. cbn [snd] in Hq.
    assert (k = peerId).
    { apply (Huniq k q peerId p producerId Hin (get_in _ _ _ Hget) Hq Hhas). }
    subst k. unfold JsMap.has in Hq.
    destruct (JsMap.get (Media.producers q) producerId) as [pr|];
      [|discriminate].
    exists pr. reflexivity.
  - apply get_in in Hget.
    pose proof (find_none _ _ F _ Hget) as Hno. cbn [snd] in Hno.
    rewrite Hhas in Hno. discriminate.
Qed.

(** C3.  When the owner that [consume] finds for the producer is the
    requesting peer, [consume] throws 'Cannot consume own producer' and
    leaves the media server as it was, so the peer's [consumers] map is the
    same; with producer ids unique in the room this is the case for every
    producer the peer holds.  Whenever [consume] does create a consumer, the
    owner of the producer is another peer. *)
Theorem consume_own_producer_rejected :
  forall (ms : Media.t) (roomId peerId producerId : string)
         (canConsume : bool) (lib : outcome string),
    (forall r p pr,
        JsMap.get (Media.rooms ms) roomId = Some r ->
        JsMap.get (Media.room_peers r) peerId = Some p ->
        Media.producer_owner r producerId = Some (peerId, pr) ->
        Media.consume ms roomId peerId producerId canConsume lib
        = (Throw "Cannot consume own producer", ms))
    /\ (forall r p,
           JsMap.get (Media.rooms ms) roomId = Some r ->
           JsMap.get (Media.room_peers r) peerId = Some p ->
           producer_ids_unique r ->
           JsMap.has (Media.producers p) producerId = true ->
           Media.consume ms roomId peerId producerId canConsume lib
           = (Throw "Cannot consume own producer", ms))
    /\ (forall cd ms',
           Media.consume ms roomId peerId producerId canConsume lib
           = (Ok cd, ms') ->
           exists r ownerId pr,
             JsMap.get (Media.rooms ms) roomId = Some r
             /\ Media.producer_owner r producerId = Some (ownerId, pr)
             /\ ownerId <> peerId).
Proof.
  intros ms roomId peerId producerId canConsume lib.
  assert (Hown : forall r p pr,
             JsMap.get (Media.rooms ms) roomId = Some r ->
             JsMap.get (Media.room_peers r) peerId = Some p ->
             Media.producer_owner r producerId = Some (peerId, pr) ->
             Media.consume ms roomId peerId producerId canConsume lib
             = (Throw "Cannot consume own producer", ms)).
  { intros r p pr Hr Hp Ho. unfold Media.consume.
    rewrite Hr, Hp, Ho, eqb_same. reflexivity. }
  split; [exact Hown|]. split.
  - intros r p Hr Hp Huniq Hhas.
    destruct (owner_of_held_producer r peerId producerId p Huniq Hp Hhas)
      as [pr Ho].
    apply (Hown r p pr Hr Hp Ho).
  - clear Hown. intros cd ms'. unfold Media.consume.
    destruct (JsMap.get (Media.rooms ms) roomId) as [r|]; [|discriminate].
    destruct (JsMap.get (Media.room_peers r) peerId) as [p|]; [|discriminate].
    destruct (Media.producer_owner r producerId) as [[ownerId pr]|] eqn:Ho;
      [|discriminate].
    destruct (ownerId =? peerId) eqn:E; [discriminate|].
    intros _. exists r, ownerId, pr.
    split; [reflexivity|]. split; [exact Ho|].
    apply String.eqb_neq. exact E.
Qed.

Lemma consume_own_producer_rejected_witness :
  Media.consume alice_producing "r1" "s-alice" "P-alice" true (Ok "c1")
  = (Throw "Cannot consume own producer", alice_producing).
Proof.
  eapply (proj1 (consume_own_producer_rejected alice_producing
                   "r1" "s-alice" "P-alice" true (Ok "c1"))); reflexivity.
Defined.

(** ** Recording: what a start keeps and what it sets *)

Section RecordingFacts.
Variable path_join : string -> string -> string.
Variable dirname : string.

Lemma createRecordingInput_header (rc : Media.recording) (pr : Media.producer)
    (peerId : string) (d : Media.tap_draw) :
  header (Media.createRecordingInput path_join dirname rc pr peerId d)
  = header rc.
Proof.
  unfold Media.createRecordingInput.
  destruct (Media.plain d) as [[tid cid]|]; reflexivity.
Qed.

Lemma fold_inputs_header (ps : list (string * Media.producer))
    (draws : nat -> Media.tap_draw) (rc : Media.recording) (i : nat) :
  header
    (fst (fold_left
            (fun acc x =>
               (Media.createRecordingInput path_join dirname (fst acc) (snd x)
                  (fst x) (draws (snd acc)),
                S (snd acc)))
            ps (rc, i)))
  = header rc.
Proof.
  revert rc i. induction ps as [|x ps IH]; intros rc i; [reflexivity|].
  cbn [fold_left fst snd]. rewrite IH. apply createRecordingInput_header.
Qed.

Lemma startCombinedRecording_header (rc : Media.recording) :
  header (Media.startCombinedRecording rc) = header rc.
Proof.
  unfold Media.startCombinedRecording.
  destruct (Media.audioInputs rc); reflexivity.
Qed.

Lemma started_header (roomId : string) (r : Media.room) (timestamp : Z)
    (draws : nat -> Media.tap_draw) :
  header
    (Media.startCombinedRecording
       (Media.record_inputs path_join dirname
          (Media.new_recording path_join dirname roomId r timestamp)
          (Media.all_producers r) draws))
  = header (Media.new_recording path_join dirname roomId r timestamp).
Proof.
  rewrite startCombinedRecording_header.
  unfold Media.record_inputs. apply fold_inputs_header.
Qed.

Lemma startRecording_fresh (ms : Media.t) (roomId : string) (r : Media.room)
    (timestamp : Z) (draws : nat -> Media.tap_draw) :
  JsMap.get (Media.rooms ms) roomId = Some r ->
  Media.room_recording r = None ->
  exists rc,
    Media.startRecording path_join dirname ms roomId timestamp draws
    = (Ok rc,
       Media.with_rooms ms
         (JsMap.set (Media.rooms ms) roomId (Media.with_recording r (Some rc))))
    /\ rc = Media.startCombinedRecording
              (Media.record_inputs path_join dirname
                 (Media.new_recording path_join dirname roomId r timestamp)
                 (Media.all_producers r) draws)
    /\ header rc
       = header (Media.new_recording path_join dirname roomId r timestamp).
Proof.
  intros Hr Hrec. unfold Media.startRecording. rewrite Hr, Hrec.
  eexists. split; [reflexivity|]. split; [reflexivity|].
  apply started_header.
Qed.

End RecordingFacts.

(** ** Automatic start and stop of the recording *)

Lemma checkAndStart_cases (path_join : string -> string -> string)
    (dirname : string) (ms : Media.t) (roomId : string) (r : Media.room)
    (timestamp : Z) (draws : nat -> Media.tap_draw) :
  JsMap.get (Media.rooms ms) roomId = Some r ->
  (call_established r
   /\ exists rc,
       Media.checkAndStartAutoRecording path_join dirname ms roomId timestamp draws
       = (Ok tt,
          Media.with_rooms ms
            (JsMap.set (Media.rooms ms) roomId (Media.with_recording r (Some rc))))
       /\ header rc
          = header (Media.new_recording path_join dirname roomId r timestamp))
  \/ (~ call_established r
      /\ Media.checkAndStartAutoRecording path_join dirname ms roomId timestamp draws
         = (Ok tt, ms)).
Proof.
  intros Hr. unfold Media.checkAndStartAutoRecording, call_established.
  rewrite Hr.
  destruct (Media.room_recording r) as [rc0|] eqn:Hrec.
  - right. split; [intros [H _]; discriminate | reflexivity].
  - destruct (Nat.leb 2 (Media.peersWithProducers r)) eqn:Hcount.
    + left. apply Nat.leb_le in Hcount. split; [auto|].
      destruct (startRecording_fresh path_join dirname ms roomId r timestamp
                  draws Hr Hrec) as [rc [Hrun [_ Hhead]]].
      rewrite Hrun. exists rc. auto.
    + right. apply Nat.leb_gt in Hcount.
      split; [intros [_ H]; lia | reflexivity].
Qed.

Lemma no_stop_in (l : list Media.event) (roomId : string) :
  forallb (fun e => negb (is_stop e)) l = true -> ~ stopped_in roomId l.
Proof.
  intros Hall [recordingId [duration Hin]].
  rewrite forallb_forall in Hall. specialize (Hall _ Hin). discriminate.
Qed.

Lemma closing_is_no_stop (p : option Media.peer) :
  forallb (fun e => negb (is_stop e))
    (match p with
     | Some p =>
         map (fun kp => Media.ProducerClosed (Media.prod_id (snd kp)))
             (Media.producers p)
         ++ map (fun kc => Media.ConsumerClosed (Media.cons_id (snd kc)))
                (Media.consumers p)
         ++ Media.close_transport (Media.sendTransport p)
         ++ Media.close_transport (Media.recvTransport p)
     | None => []
     end) = true.
Proof.
  destruct p as [p|]; [|reflexivity].
  rewrite !forallb_app. repeat (apply andb_true_intro; split).
  - apply forallb_forall. intros e He.
    apply in_map_iff in He. destruct He as [x [<- _]]. reflexivity.
  - apply forallb_forall. intros e He.
    apply in_map_iff in He. destruct He as [x [<- _]]. reflexivity.
  - destruct (Media.sendTransport p); reflexivity.
  - destruct (Media.recvTransport p); reflexivity.
Qed.



(** ** Recording id and output file *)

Lemma any_video_iff (r : Media.room) :
  Media.any_video r = true <-> has_video_producer r.
Proof.
  unfold Media.any_video, has_video_producer. split.
  - intros H. apply existsb_exists in H. destruct H as [[peerId p] [Hin H]].
    apply existsb_exists in H. destruct H as [[producerId pr] [Hin' H]].
    exists peerId, p, producerId, pr. cbn [snd] in *.
    split; [exact Hin|]. split; [exact Hin'|].
    destruct (Media.prod_kind pr); [discriminate | reflexivity].
  - intros [peerId [p [producerId [pr [Hin [Hin' Hk]]]]]].
    apply existsb_exists. exists (peerId, p). split; [exact Hin|].
    apply existsb_exists. exists (producerId, pr). split; [exact Hin'|].
    cbn [snd]. rewrite Hk. reflexivity.
Qed.

(** C9.  A recording that starts in room [roomId] at time [timestamp] has
    id [roomId ++ "_" ++ dec timestamp]; its output file is [path.join] of
    the recordings directory and the id followed by [.mp4] when some peer
    of the room holds a video producer, and by [.mp3] when none does. *)
Theorem recording_id_and_output :
  forall (path_join : string -> string -> string) (dirname : string)
         (ms : Media.t) (roomId : string) (timestamp : Z)
         (draws : nat -> Media.tap_draw) (r : Media.room),
    JsMap.get (Media.rooms ms) roomId = Some r ->
    Media.room_recording r = None ->
    exists rc ms',
      Media.startRecording path_join dirname ms roomId timestamp draws
      = (Ok rc, ms')
      /\ JsMap.get (Media.rooms ms') roomId
         = Some (Media.with_recording r (Some rc))
      /\ Media.rec_id rc = roomId ++ "_" ++ dec timestamp
      /\ (has_video_producer r ->
          Media.outputFile rc
          = path_join (Media.RECORDINGS_DIR path_join dirname)
              (Media.rec_id rc ++ ".mp4"))
      /\ (~ has_video_producer r ->
          Media.outputFile rc
          = path_join (Media.RECORDINGS_DIR path_join dirname)
              (Media.rec_id rc ++ ".mp3")).
Proof.
  intros path_join dirname ms roomId timestamp draws r Hr Hrec.
  destruct (startRecording_fresh path_join dirname ms roomId r timestamp draws
              Hr Hrec) as [rc [Hrun [_ Hhead]]].
  exists rc. eexists. split; [exact Hrun|].
  split; [apply get_set_same|].
  unfold header in Hhead. cbn in Hhead.
  injection Hhead as Hid _ Hout _.
  split; [exact Hid|].
  rewrite Hout, Hid. split; intros Hv.
  - apply any_video_iff in Hv. rewrite Hv. reflexivity.
  - destruct (Media.any_video r) eqn:E; [|reflexivity].
    apply any_video_iff in E. contradiction.
Qed.

Lemma recording_id_and_output_witness :
  exists rc ms',
    Media.startRecording unix_join "/srv" bob_ready "r1" 4000 zero_draws
    = (Ok rc, ms')
    /\ Media.rec_id rc = "r1_4000"
    /\ Media.outputFile rc = "/srv/recordings/r1_4000.mp3".
Proof.
  destruct (recording_id_and_output unix_join "/srv" bob_ready "r1" 4000
              zero_draws _ eq_refl eq_refl)
    as [rc [ms' [Hrun [_ [Hid [_ Hmp3]]]]]].
  exists rc, ms'. split; [exact Hrun|]. split; [exact Hid|].
  rewrite Hmp3, Hid; [reflexivity|].
  intros [peerId [p [producerId [pr [Hin [Hin' Hk]]]]]].
  vm_compute in Hin.
  destruct Hin as [Hin | [Hin | []]]; injection Hin as <- <-;
    vm_compute in Hin'.
  - destruct Hin' as [Hin' | []]. injection Hin' as <- <-. discriminate Hk.
  - destruct Hin' as [].
Defined.

(** ** Ports of the RTP taps *)

Lemma rtpPort_window (q : Q) :
  unit_interval q -> (20000 <= Media.rtpPort q <= 28999)%Z.
Proof.
  intros [H0 H1]. unfold Media.rtpPort.
  assert (Hlo : (0 <= Qfloor (q * inject_Z 9000))%Z).
  { change 0%Z with (Qfloor 0).
    apply Qfloor_resp_le. apply Qmult_le_0_compat; [exact H0|].
    discriminate. }
  assert (Hhi : (Qfloor (q * inject_Z 9000) < 9000)%Z).
  { rewrite Zlt_Qlt.
    apply Qle_lt_trans with (q * inject_Z 9000)%Q; [apply Qfloor_le|].
    setoid_replace (inject_Z 9000) with (1 * inject_Z 9000)%Q at 2
      by (symmetry; apply Qmult_1_l).
    apply Qmult_lt_compat_r; [reflexivity | exact H1]. }
  lia.
Qed.

Section Taps.
Variable path_join : string -> string -> string.
Variable dirname : string.
Variable draws : nat -> Media.tap_draw.
Hypothesis draws_random : forall i, unit_interval (Media.random (draws i)).

Lemma createRecordingInput_drawn (rc : Media.recording) (pr : Media.producer)
    (peerId : string) (i : nat) :
  all_drawn draws rc ->
  all_drawn draws
    (Media.createRecordingInput path_join dirname rc pr peerId (draws i)).
Proof.
  intros [Ha Hv]. unfold Media.createRecordingInput, all_drawn.
  destruct (Media.plain (draws i)) as [[tid cid]|]; [|split; assumption].
  assert (Hnew : drawn draws (Media.rtpPort (Media.random (draws i)))).
  { split; [exists i; reflexivity | apply rtpPort_window, draws_random]. }
  cbn [Media.audioInputs Media.videoInputs].
  destruct (Media.prod_kind pr).
  - split; [|exact Hv]. rewrite map_app. apply Forall_app. split; [exact Ha|].
    constructor; [exact Hnew | constructor].
  - split; [exact Ha|]. rewrite map_app. apply Forall_app. split; [exact Hv|].
    constructor; [exact Hnew | constructor].
Qed.

Lemma fold_inputs_drawn (ps : list (string * Media.producer))
    (rc : Media.recording) (i : nat) :
  all_drawn draws rc ->
  all_drawn draws
    (fst (fold_left
            (fun acc x =>
               (Media.createRecordingInput path_join dirname (fst acc) (snd x)
                  (fst x) (draws (snd acc)),
                S (snd acc)))
            ps (rc, i))).
Proof.
  revert rc i. induction ps as [|x ps IH]; intros rc i H; [exact H|].
  cbn [fold_left fst snd]. apply IH. apply createRecordingInput_drawn. exact H.
Qed.

Lemma startCombinedRecording_drawn (rc : Media.recording) :
  all_drawn draws rc -> all_drawn draws (Media.startCombinedRecording rc).
Proof.
  unfold Media.startCombinedRecording, all_drawn.
  destruct (Media.audioInputs rc) eqn:E; [rewrite E; auto|].
  cbn [Media.audioInputs Media.videoInputs]. auto.
Qed.

Lemma started_taps_drawn (ms : Media.t) (roomId : string) (r : Media.room)
    (timestamp : Z) (rc : Media.recording) (ms' : Media.t) :
  JsMap.get (Media.rooms ms) roomId = Some r ->
  Media.room_recording r = None ->
  Media.startRecording path_join dirname ms roomId timestamp draws
  = (Ok rc, ms') ->
  Forall (drawn draws) (tap_ports rc).
Proof.
  intros Hr Hrec Hrun.
  destruct (startRecording_fresh path_join dirname ms roomId r timestamp draws
              Hr Hrec) as [rc' [Hrun' [Hrc _]]].
  rewrite Hrun' in Hrun. injection Hrun as <- _. subst rc'.
  unfold tap_ports. rewrite map_app. apply Forall_app.
  apply startCombinedRecording_drawn. unfold Media.record_inputs.
  apply fold_inputs_drawn. split; constructor.
Qed.

End Taps.


Lemma zero_draws_random : forall i, unit_interval (Media.random (zero_draws i)).
Proof. intros i. split; [apply Qle_refl | reflexivity]. Qed.



(** ** The scenarios of the specification, run on the model *)

(** Bob's delivery receipt and read receipt for Alice's message are each
    reported to Alice's socket. *)
Example receipts_are_reported_to_the_sender :
  snd (Hub.message_delivered sample_hub "s-bob" (Some "m1") 200)
  = [Hub.ToSocket "s-alice" "message_status_update"
       (JObj [("messageId", JStr "m1"); ("userId", JStr "u-bob");
              ("status", JStr "delivered"); ("roomId", JStr "r1")])]
  /\ snd (Hub.mark_read sample_hub "s-bob" "r1" 200)
     = [Hub.ToSocket "s-alice" "message_status_update"
          (JObj [("roomId", JStr "r1"); ("userId", JStr "u-bob");
                 ("status", JStr "read")])].
Proof. split; reflexivity. Qed.

(** Carol's status for [m1] goes from delivered to read and, with a late
    delivery receipt, back to delivered. *)
Example late_receipt_sequence :
  let carol := fst (Hub.register_user sample_hub "s-carol" (Some "u-carol")
                      (Some "carol") 160) in
  MessageQueries.status_of
    (Hub.db (Hub.receipts carol [Hub.MarkRead "s-carol" "r1" 170])) "m1" "u-carol"
  = Some Db.Read
  /\ MessageQueries.status_of
       (Hub.db (Hub.receipts carol
                  [Hub.MarkRead "s-carol" "r1" 170;
                   Hub.MessageDelivered "s-carol" (Some "m1") 180]))
       "m1" "u-carol"
     = Some Db.Delivered.
Proof. split; reflexivity. Qed.

(** A rejected call is stored as rejected with [ended_at] set, and the
    caller is told. *)
Example rejected_call :
  let '(st, sent) := Hub.reject_call ringing "u-alice" (Some "r1") 350 in
  option_map (fun c => (Db.c_status c, Db.c_ended_at c))
    (CallQueries.findById (Hub.db st) "c1")
  = Some (Db.Rejected_call, Some 350)
  /\ sent = [Hub.ToSocket "s-alice" "call_rejected" JNull]
  /\ JsMap.get (Hub.activeCalls st) "r1" = None.
Proof. repeat split; reflexivity. Qed.

(** An answered call is ongoing and ends as completed. *)
Example answered_call_completes :
  let answered := fst (Hub.answer_call ringing "s-bob" JNull "u-alice"
                         (Some "r1") 320) in
  option_map Db.c_status (CallQueries.findById (Hub.db answered) "c1")
  = Some Db.Ongoing
  /\ option_map Db.c_status
       (CallQueries.findById
          (Hub.db (fst (Hub.end_call answered "u-bob" (Some "r1") 400))) "c1")
     = Some Db.Completed.
Proof. split; reflexivity. Qed.

(** Alice alone: no recording.  Bob produces audio: a recording with an
    [.mp3] output starts, ffmpeg is spawned and both taps are resumed. *)
Example recording_starts_with_the_second_peer :
  option_map Media.room_recording (JsMap.get (Media.rooms alice_producing) "r1")
  = Some None
  /\ option_map
       (fun r =>
          option_map
            (fun rc => (Media.outputFile rc, Media.is_some (Media.ffmpegProcess rc),
                        map (fun c => Media.cons_paused (Media.rc_consumer c))
                            (Media.rec_consumers rc)))
            (Media.room_recording r))
       (JsMap.get (Media.rooms both_producing) "r1")
     = Some (Some ("/srv/recordings/r1_4000.mp3", true, [false; false])).
Proof. split; reflexivity. Qed.

(** When the last peer leaves, the router is closed and the room is gone. *)
Example empty_room_is_removed :
  let '(ms, evs) := Media.removePeer alice_producing "s-alice" 2500 in
  JsMap.get (Media.rooms ms) "r1" = None
  /\ evs = [Media.ProducerClosed "P-alice"; Media.TransportClosed "t-alice";
            Media.RouterClosed "r1"].
Proof. split; reflexivity. Qed.

(** Two audio and two video inputs are mixed and stacked. *)
Example filter_graph_of_a_video_call :
  nth 18 (Media.ffmpegArgs four_inputs) ""
  = "[0:a][1:a]amix=inputs=2:duration=longest[aout];[2:v][3:v]hstack=inputs=2[vout]".
Proof. reflexivity. Qed.

(** With a video producer in the room the output is an [.mp4] file. *)
Example video_recording_output :
  let ms := snd (Media.produce unix_join "/srv" alice_producing "r1" "s-alice"
                   Media.Video [] (Ok "V-alice") 2100 zero_draws) in
  option_map Media.outputFile
    (match fst (Media.startRecording unix_join "/srv" ms "r1" 2200 zero_draws) with
     | Ok rc => Some rc
     | Throw _ => None
     end)
  = Some "/srv/recordings/r1_2200.mp4".
Proof. reflexivity. Qed.

(** ** The media server keeps its tables consistent *)

Lemma set_not_empty {V : Type} (m : JsMap.t V) (k : string) (v : V) :
  JsMap.set m k v <> [].
Proof.
  destruct m as [|[k' v'] m]; cbn [JsMap.set]; [discriminate|].
  destruct (k' =? k); discriminate.
Qed.

Lemma get_set {V : Type} (m : JsMap.t V) (k k' : string) (v : V) :
  JsMap.get (JsMap.set m k v) k'
  = if k =? k' then Some v else JsMap.get m k'.
Proof.
  destruct (k =? k') eqn:E.
  - apply eqb_true in E. subst. apply get_set_same.
  - apply get_set_other. apply String.eqb_neq in E. congruence.
Qed.

Lemma get_delete {V : Type} (m : JsMap.t V) (k k' : string) :
  JsMap.get (JsMap.delete m k) k'
  = if k =? k' then None else JsMap.get m k'.
Proof.
  destruct (k =? k') eqn:E.
  - apply eqb_true in E. subst. apply get_delete_same.
  - apply get_delete_other. apply String.eqb_neq in E. congruence.
Qed.

Lemma get_some_not_empty {V : Type} (m : JsMap.t V) (k : string) (v : V) :
  JsMap.get m k = Some v -> JsMap.size m <> 0%nat.
Proof. destruct m; [discriminate | intros _; discriminate]. Qed.

(** Replacing a room by one that keeps its peers keeps the tables
    consistent. *)
Lemma consistent_room_update (ms : Media.t) (roomId : string)
    (r r' : Media.room) :
  media_consistent ms ->
  JsMap.get (Media.rooms ms) roomId = Some r ->
  (forall q p, JsMap.get (Media.room_peers r) q = Some p ->
               exists p', JsMap.get (Media.room_peers r') q = Some p') ->
  Media.room_peers r' <> [] ->
  media_consistent
    (Media.with_rooms ms (JsMap.set (Media.rooms ms) roomId r')).
Proof.
  intros [Hidx [Hne Hw]] Hr Hkeep Hne'. split; [|split].
  - intros q rid Hq. cbn [Media.peers Media.with_rooms] in Hq.
    destruct (Hidx q rid Hq) as [r0 [p0 [Hr0 Hp0]]].
    cbn [Media.rooms Media.with_rooms]. rewrite get_set.
    destruct (roomId =? rid) eqn:E.
    + apply eqb_true in E. subst rid. rewrite Hr in Hr0. injection Hr0 as <-.
      destruct (Hkeep q p0 Hp0) as [p' Hp']. exists r', p'. auto.
    + exists r0, p0. auto.
  - intros rid r0. cbn [Media.rooms Media.with_rooms]. rewrite get_set.
    destruct (roomId =? rid).
    + intros [= <-]. exact Hne'.
    + apply Hne.
  - exact Hw.
Qed.

Lemma consistent_put_peer (ms : Media.t) (roomId : string) (r : Media.room)
    (peerId : string) (p : Media.peer) :
  media_consistent ms ->
  JsMap.get (Media.rooms ms) roomId = Some r ->
  media_consistent (Media.put_peer ms roomId r peerId p).
Proof.
  intros Hc Hr. unfold Media.put_peer.
  apply (consistent_room_update ms roomId r _ Hc Hr).
  - intros q p0 Hq. cbn [Media.room_peers Media.with_peers].
    rewrite get_set. destruct (peerId =? q); eauto.
  - apply set_not_empty.
Qed.

Lemma consistent_recording (ms : Media.t) (roomId : string) (r : Media.room)
    (rc : option Media.recording) :
  media_consistent ms ->
  JsMap.get (Media.rooms ms) roomId = Some r ->
  media_consistent
    (Media.with_rooms ms
       (JsMap.set (Media.rooms ms) roomId (Media.with_recording r rc))).
Proof.
  intros Hc Hr.
  apply (consistent_room_update ms roomId r _ Hc Hr).
  - intros q p0 Hq. exists p0. exact Hq.
  - destruct Hc as [_ [Hne _]]. apply (Hne roomId r Hr).
Qed.

(** The media server after [removePeer] of a peer filed under an existing
    room: the room without the peer (and without its recording once fewer
    than two peers remain), or no room once it is empty. *)
Lemma removePeer_rooms (ms : Media.t) (peerId roomId : string) (now : Z)
    (r : Media.room) :
  JsMap.get (Media.peers ms) peerId = Some roomId ->
  JsMap.get (Media.rooms ms) roomId = Some r ->
  exists r2,
    Media.room_peers r2 = JsMap.delete (Media.room_peers r) peerId
    /\ (Media.room_recording r2 = Media.room_recording r
        \/ Media.room_recording r2 = None)
    /\ (forall rid,
           JsMap.get (Media.rooms (fst (Media.removePeer ms peerId now))) rid
           = if roomId =? rid
             then if Nat.eqb (JsMap.size (Media.room_peers r2)) 0
                  then None else Some r2
             else JsMap.get (Media.rooms ms) rid)
    /\ Media.peers (fst (Media.removePeer ms peerId now))
       = JsMap.delete (Media.peers ms) peerId
    /\ Media.workers (fst (Media.removePeer ms peerId now)) = Media.workers ms
    /\ Media.nextWorkerIndex (fst (Media.removePeer ms peerId now))
       = Media.nextWorkerIndex ms.
Proof.
  intros Hp Hr. unfold Media.removePeer. rewrite Hp, Hr.
  set (r1 := Media.with_peers r (JsMap.delete (Media.room_peers r) peerId)).
  set (ms1 := Media.with_rooms ms (JsMap.set (Media.rooms ms) roomId r1)).
  assert (Hr1 : JsMap.get (Media.rooms ms1) roomId = Some r1)
    by apply get_set_same.
  destruct (Media.is_some (Media.room_recording r1)
            && Nat.ltb (JsMap.size (Media.room_peers r1)) 2) eqn:Hstop.
  - exists (Media.with_recording r1 None).
    unfold Media.stopRecording. rewrite Hr1.
    apply andb_true_iff in Hstop. destruct Hstop as [Hrec _].
    destruct (Media.room_recording r1) as [rc|] eqn:Hrc; [|discriminate].
    cbn [Media.room_peers Media.with_recording Media.room_recording].
    split; [reflexivity|]. split; [right; reflexivity|].
    change (Media.room_peers r1)
      with (JsMap.delete (Media.room_peers r) peerId).
    destruct (Nat.eqb (JsMap.size (JsMap.delete (Media.room_peers r) peerId)) 0);
      cbn [fst Media.rooms Media.peers Media.workers Media.nextWorkerIndex
           Media.with_rooms];
      (split; [|auto]); intros rid; subst ms1;
      cbn [Media.rooms Media.with_rooms];
      rewrite ?get_delete, ?get_set;
      destruct (roomId =? rid) eqn:E; rewrite ?E; reflexivity.
  - exists r1.
    split; [reflexivity|]. split; [left; reflexivity|].
    change (Media.room_peers r1)
      with (JsMap.delete (Media.room_peers r) peerId).
    destruct (Nat.eqb (JsMap.size (JsMap.delete (Media.room_peers r) peerId)) 0);
      cbn [fst Media.rooms Media.peers Media.workers Media.nextWorkerIndex
           Media.with_rooms];
      (split; [|auto]); intros rid; subst ms1;
      cbn [Media.rooms Media.with_rooms];
      rewrite ?get_delete, ?get_set;
      destruct (roomId =? rid) eqn:E; rewrite ?E; reflexivity.
Qed.

Lemma consistent_addPeer (ms : Media.t) (roomId peerId name : string) (now : Z) :
  media_consistent ms ->
  media_consistent (Media.addPeer ms roomId peerId name now).
Proof.
  intros [Hidx [Hne Hw]]. unfold Media.addPeer, Media.getOrCreateRoom.
  destruct (JsMap.get (Media.rooms ms) roomId) as [r|] eqn:Hr.
  - split; [|split]; cbn [Media.peers Media.rooms Media.workers
                            Media.nextWorkerIndex].
    + intros q rid. rewrite get_set. destruct (peerId =? q) eqn:E.
      * intros [= <-]. apply eqb_true in E. subst q.
        eexists. eexists. split; [apply get_set_same|].
        cbn [Media.room_peers Media.with_peers]. apply get_set_same.
      * intros Hq. destruct (Hidx q rid Hq) as [r0 [p0 [Hr0 Hp0]]].
        rewrite get_set. destruct (roomId =? rid) eqn:E'.
        -- apply eqb_true in E'. subst rid. rewrite Hr in Hr0.
           injection Hr0 as <-. eexists. eexists. split; [reflexivity|].
           cbn [Media.room_peers Media.with_peers]. rewrite get_set, E.
           exact Hp0.
        -- exists r0, p0. auto.
    + intros rid r0. rewrite get_set. destruct (roomId =? rid).
      * intros [= <-]. apply set_not_empty.
      * apply Hne.
    + exact Hw.
  - split; [|split]; cbn [Media.peers Media.rooms Media.workers
                            Media.nextWorkerIndex].
    + intros q rid. rewrite get_set. destruct (peerId =? q) eqn:E.
      * intros [= <-]. apply eqb_true in E. subst q.
        eexists. eexists. split; [apply get_set_same|].
        cbn [Media.room_peers Media.with_peers]. apply get_set_same.
      * intros Hq. destruct (Hidx q rid Hq) as [r0 [p0 [Hr0 Hp0]]].
        rewrite !get_set. destruct (roomId =? rid) eqn:E'.
        -- apply eqb_true in E'. subst rid. rewrite Hr in Hr0. discriminate.
        -- exists r0, p0. auto.
    + intros rid r0. rewrite !get_set. destruct (roomId =? rid).
      * intros [= <-]. discriminate.
      * apply Hne.
    + apply Nat.mod_upper_bound. lia.
Qed.

Lemma consistent_removePeer (ms : Media.t) (peerId : string) (now : Z) :
  media_consistent ms ->
  media_consistent (fst (Media.removePeer ms peerId now)).
Proof.
  intros Hc.
  destruct (JsMap.get (Media.peers ms) peerId) as [roomId|] eqn:Hp;
    [|unfold Media.removePeer; rewrite Hp; exact Hc].
  destruct Hc as [Hidx [Hne Hw]].
  destruct (Hidx peerId roomId Hp) as [r [p [Hr _]]].
  destruct (removePeer_rooms ms peerId roomId now r Hp Hr)
    as [r2 [Hpeers [_ [Hrooms [Hindex [Hworkers Hnext]]]]]].
  split; [|split].
  - intros q rid. rewrite Hindex, get_delete.
    destruct (peerId =? q) eqn:E; [discriminate|]. intros Hq.
    destruct (Hidx q rid Hq) as [r0 [p0 [Hr0 Hp0]]].
    rewrite Hrooms. destruct (roomId =? rid) eqn:E'.
    + apply eqb_true in E'. subst rid. rewrite Hr in Hr0. injection Hr0 as <-.
      assert (Hq2 : JsMap.get (Media.room_peers r2) q = Some p0).
      { rewrite Hpeers, get_delete, E. exact Hp0. }
      destruct (Nat.eqb (JsMap.size (Media.room_peers r2)) 0) eqn:Z.
      * apply Nat.eqb_eq in Z. exfalso.
        apply (get_some_not_empty _ _ _ Hq2 Z).
      * exists r2, p0. auto.
    + exists r0, p0. auto.
  - intros rid r0. rewrite Hrooms. destruct (roomId =? rid).
    + destruct (Nat.eqb (JsMap.size (Media.room_peers r2)) 0) eqn:Z;
        [discriminate|].
      intros [= <-]. intros Hnil. rewrite Hnil in Z. discriminate.
    + apply Hne.
  - rewrite Hworkers, Hnext. exact Hw.
Qed.

Lemma consistent_startRecording (path_join : string -> string -> string)
    (dirname : string) (ms : Media.t) (roomId : string) (timestamp : Z)
    (draws : nat -> Media.tap_draw) :
  media_consistent ms ->
  media_consistent
    (snd (Media.startRecording path_join dirname ms roomId timestamp draws)).
Proof.
  intros Hc. unfold Media.startRecording.
  destruct (JsMap.get (Media.rooms ms) roomId) as [r|] eqn:Hr; [|exact Hc].
  destruct (Media.room_recording r); [exact Hc|].
  apply consistent_recording; assumption.
Qed.

Lemma consistent_checkAndStart (path_join : string -> string -> string)
    (dirname : string) (ms : Media.t) (roomId : string) (timestamp : Z)
    (draws : nat -> Media.tap_draw) :
  media_consistent ms ->
  media_consistent
    (snd (Media.checkAndStartAutoRecording path_join dirname ms roomId
            timestamp draws)).
Proof.
  intros Hc. unfold Media.checkAndStartAutoRecording.
  destruct (JsMap.get (Media.rooms ms) roomId) as [r|]; [|exact Hc].
  destruct (Media.room_recording r); [exact Hc|].
  destruct (Nat.leb 2 (Media.peersWithProducers r)); [|exact Hc].
  pose proof (consistent_startRecording path_join dirname ms roomId timestamp
                draws Hc) as H.
  destruct (Media.startRecording path_join dirname ms roomId timestamp draws)
    as [[rc|e] ms']; exact H.
Qed.

(** Every call the handlers make keeps the tables consistent. *)
Lemma consistent_step (path_join : string -> string -> string)
    (dirname : string) (ms : Media.t) (o : Media.op) :
  media_consistent ms ->
  media_consistent (Media.step path_join dirname ms o).
Proof.
  intros Hc. destruct o; cbn [Media.step].
  - apply consistent_addPeer. exact Hc.
  - unfold Media.storePeerTransport.
    destruct (JsMap.get (Media.rooms ms) roomId) as [r|] eqn:Hr; [|exact Hc].
    destruct (JsMap.get (Media.room_peers r) peerId); [|exact Hc].
    apply consistent_put_peer; assumption.
  - unfold Media.setPeerRtpCapabilities.
    destruct (JsMap.get (Media.rooms ms) roomId) as [r|] eqn:Hr; [|exact Hc].
    destruct (JsMap.get (Media.room_peers r) peerId); [|exact Hc].
    apply consistent_put_peer; assumption.
  - unfold Media.produce.
    destruct (JsMap.get (Media.rooms ms) roomId) as [r|] eqn:Hr; [|exact Hc].
    destruct (JsMap.get (Media.room_peers r) peerId) as [p|]; [|exact Hc].
    destruct (Media.sendTransport p); [|exact Hc].
    destruct lib as [producerId|e]; [|exact Hc].
    pose proof (consistent_checkAndStart path_join dirname
                  (Media.add_producer ms roomId r peerId p producerId k appData)
                  roomId timestamp draws
                  (consistent_put_peer ms roomId r peerId _ Hc Hr)) as H.
    destruct (Media.checkAndStartAutoRecording path_join dirname
                (Media.add_producer ms roomId r peerId p producerId k appData)
                roomId timestamp draws) as [[u|e] ms']; exact H.
  - unfold Media.consume.
    destruct (JsMap.get (Media.rooms ms) roomId) as [r|] eqn:Hr; [|exact Hc].
    destruct (JsMap.get (Media.room_peers r) peerId) as [p|]; [|exact Hc].
    destruct (Media.producer_owner r producerId) as [[ownerId pr]|];
      [|exact Hc].
    destruct (ownerId =? peerId); [exact Hc|].
    destruct (negb canConsume); [exact Hc|].
    destruct (Media.recvTransport p); [|exact Hc].
    destruct lib as [cid|e]; [|exact Hc].
    apply consistent_put_peer; assumption.
  - unfold Media.resumeConsumer.
    destruct (JsMap.get (Media.rooms ms) roomId) as [r|] eqn:Hr; [|exact Hc].
    destruct (JsMap.get (Media.room_peers r) peerId) as [p|]; [|exact Hc].
    destruct (JsMap.get (Media.consumers p) consumerId); [|exact Hc].
    destruct lib as [u|e]; [|exact Hc].
    apply consistent_put_peer; assumption.
  - apply consistent_startRecording. exact Hc.
  - unfold Media.stopRecording.
    destruct (JsMap.get (Media.rooms ms) roomId) as [r|] eqn:Hr; [|exact Hc].
    destruct (Media.room_recording r); [|exact Hc].
    apply consistent_recording; assumption.
  - apply consistent_removePeer. exact Hc.
Qed.



(** ** Leaving a media room *)

Lemma removePeer_events (ms : Media.t) (peerId roomId : string) (now : Z)
    (r : Media.room) (p : Media.peer) :
  JsMap.get (Media.peers ms) peerId = Some roomId ->
  JsMap.get (Media.rooms ms) roomId = Some r ->
  JsMap.get (Media.room_peers r) peerId = Some p ->
  exists stop_events,
    snd (Media.removePeer ms peerId now)
    = (closed_with p ++ stop_events
       ++ (if Nat.eqb (JsMap.size (JsMap.delete (Media.room_peers r) peerId)) 0
           then [Media.RouterClosed roomId] else []))%list
    /\ forallb (fun e => negb (is_router_closed e)) stop_events = true.
Proof.
  intros Hp Hr Hpeer. unfold Media.removePeer. rewrite Hp, Hr, Hpeer.
  set (r1 := Media.with_peers r (JsMap.delete (Media.room_peers r) peerId)).
  set (ms1 := Media.with_rooms ms (JsMap.set (Media.rooms ms) roomId r1)).
  change (Media.room_peers r1) with (JsMap.delete (Media.room_peers r) peerId).
  destruct (Media.is_some (Media.room_recording r1)
            && Nat.ltb (JsMap.size (JsMap.delete (Media.room_peers r) peerId)) 2).
  - unfold Media.stopRecording.
    replace (JsMap.get (Media.rooms ms1) roomId) with (Some r1)
      by (symmetry; apply get_set_same).
    destruct (Media.room_recording r1) as [rc|].
    + eexists. split.
      * destruct (Nat.eqb (JsMap.size (JsMap.delete (Media.room_peers r) peerId)) 0);
          reflexivity.
      * rewrite !forallb_app.
        repeat (apply andb_true_intro; split); try reflexivity;
          try (destruct (Media.ffmpegProcess rc); reflexivity);
          apply forallb_forall; intros e He;
          apply in_map_iff in He; destruct He as [x [<- _]]; reflexivity.
    + exists []. split; [|reflexivity].
      destruct (Nat.eqb (JsMap.size (JsMap.delete (Media.room_peers r) peerId)) 0);
        reflexivity.
  - exists []. split; [|reflexivity].
    destruct (Nat.eqb (JsMap.size (JsMap.delete (Media.room_peers r) peerId)) 0);
      reflexivity.
Qed.

Lemma closed_with_no_router (p : Media.peer) :
  forallb (fun e => negb (is_router_closed e)) (closed_with p) = true.
Proof.
  unfold closed_with. rewrite !forallb_app.
  repeat (apply andb_true_intro; split).
  - apply forallb_forall. intros e He.
    apply in_map_iff in He. destruct He as [x [<- _]]. reflexivity.
  - apply forallb_forall. intros e He.
    apply in_map_iff in He. destruct He as [x [<- _]]. reflexivity.
  - destruct (Media.sendTransport p); reflexivity.
  - destruct (Media.recvTransport p); reflexivity.
Qed.

(** X2.  [removePeer] of a peer of an existing room closes every producer,
    every consumer and both transports of the peer and drops the peer from
    [this.peers] and from the room.  The room is removed and its router
    closed exactly when no peer remains; otherwise the room stays with the
    remaining peers.  No other room changes. *)
Theorem removePeer_cleans_up :
  forall (ms : Media.t) (peerId roomId : string) (now : Z)
         (r : Media.room) (p : Media.peer),
    JsMap.get (Media.peers ms) peerId = Some roomId ->
    JsMap.get (Media.rooms ms) roomId = Some r ->
    JsMap.get (Media.room_peers r) peerId = Some p ->
    let ms' := fst (Media.removePeer ms peerId now) in
    let evs := snd (Media.removePeer ms peerId now) in
    let remaining := JsMap.delete (Media.room_peers r) peerId in
    JsMap.get (Media.peers ms') peerId = None
    /\ (forall k pr, In (k, pr) (Media.producers p) ->
                     In (Media.ProducerClosed (Media.prod_id pr)) evs)
    /\ (forall k c, In (k, c) (Media.consumers p) ->
                    In (Media.ConsumerClosed (Media.cons_id c)) evs)
    /\ (forall tr, Media.sendTransport p = Some tr
                   \/ Media.recvTransport p = Some tr ->
                   In (Media.TransportClosed (Media.tr_id tr)) evs)
    /\ (In (Media.RouterClosed roomId) evs <-> remaining = [])
    /\ (remaining = [] -> JsMap.get (Media.rooms ms') roomId = None)
    /\ (remaining <> [] ->
        exists r', JsMap.get (Media.rooms ms') roomId = Some r'
                   /\ Media.room_peers r' = remaining)
    /\ (forall rid, rid <> roomId ->
                    JsMap.get (Media.rooms ms') rid
                    = JsMap.get (Media.rooms ms) rid).
Proof.
  intros ms peerId roomId now r p Hp Hr Hpeer ms' evs remaining.
  destruct (removePeer_rooms ms peerId roomId now r Hp Hr)
    as [r2 [Hpeers [_ [Hrooms [Hindex _]]]]].
  destruct (removePeer_events ms peerId roomId now r p Hp Hr Hpeer)
    as [stop_events [Hevs Hstop]].
  fold ms' in Hrooms, Hindex. fold evs in Hevs. fold remaining in Hevs, Hpeers.
  assert (Hsize : Nat.eqb (JsMap.size remaining) 0 = true <-> remaining = []).
  { unfold JsMap.size. destruct remaining; split; intros H;
      try reflexivity; discriminate. }
  split; [rewrite Hindex; apply get_delete_same|].
  split.
  { intros k pr Hin. rewrite Hevs. apply in_or_app. left.
    unfold closed_with. apply in_or_app. left.
    apply in_map_iff. exists (k, pr). auto. }
  split.
  { intros k c Hin. rewrite Hevs. apply in_or_app. left.
    unfold closed_with. apply in_or_app. right. apply in_or_app. left.
    apply in_map_iff. exists (k, c). auto. }
  split.
  { intros tr Htr. rewrite Hevs. apply in_or_app. left.
    unfold closed_with. apply in_or_app. right. apply in_or_app. right.
    apply in_or_app.
    destruct Htr as [-> | ->]; [left | right]; left; reflexivity. }
  split.
  { rewrite Hevs. split.
    - intros Hin. apply in_app_or in Hin. destruct Hin as [Hin | Hin].
      + pose proof (closed_with_no_router p) as Hc.
        rewrite forallb_forall in Hc. specialize (Hc _ Hin). discriminate.
      + apply in_app_or in Hin. destruct Hin as [Hin | Hin].
        * rewrite forallb_forall in Hstop. specialize (Hstop _ Hin).
          discriminate.
        * destruct (Nat.eqb (JsMap.size remaining) 0);
            [apply Hsize; reflexivity | destruct Hin].
    - intros Hnil. apply Hsize in Hnil. rewrite Hnil.
      apply in_or_app. right. apply in_or_app. right. left. reflexivity. }
  split.
  { intros Hnil. rewrite Hrooms, eqb_same, Hpeers.
    apply Hsize in Hnil. rewrite Hnil. reflexivity. }
  split.
  { intros Hnn. rewrite Hrooms, eqb_same, Hpeers.
    destruct (Nat.eqb (JsMap.size remaining) 0).
    - exfalso. apply Hnn, Hsize. reflexivity.
    - exists r2. auto. }
  intros rid Hne. rewrite Hrooms.
  rewrite (eqb_false roomId rid) by congruence. reflexivity.
Qed.

Lemma removePeer_cleans_up_witness :
  In (Media.ProducerClosed "P-bob")
     (snd (Media.removePeer both_producing "s-bob" 5000))
  /\ JsMap.get (Media.peers (fst (Media.removePeer both_producing "s-bob" 5000)))
       "s-bob" = None.
Proof.
  destruct (removePeer_cleans_up both_producing "s-bob" "r1" 5000 _ _
              eq_refl eq_refl eq_refl) as [H1 [H2 _]].
  split; [|exact H1].
  apply (H2 "P-bob" {| Media.prod_id := "P-bob"; Media.prod_kind := Media.Audio;
                       Media.prod_appData := [("peerId", JStr "s-bob")] |}).
  left. reflexivity.
Defined.

(** ** Producer discovery and consumers *)

Lemma in_has {V : Type} (m : JsMap.t V) (k : string) (v : V) :
  In (k, v) m -> JsMap.has m k = true.
Proof.
  unfold JsMap.has. induction m as [|[k' v'] m IH]; [intros []|].
  cbn [JsMap.get In]. intros [H | H].
  - injection H as -> ->. rewrite eqb_same. reflexivity.
  - destruct (k' =? k); [reflexivity | apply IH; exact H].
Qed.

Lemma listed_iff (ms : Media.t) (roomId excludePeerId : string)
    (r : Media.room) (e : Media.listed) :
  JsMap.get (Media.rooms ms) roomId = Some r ->
  (In e (Media.getProducers ms roomId excludePeerId)
   <-> exists p pr,
        In (Media.l_peerId e, p) (Media.room_peers r)
        /\ Media.l_peerId e <> excludePeerId
        /\ In (Media.l_producerId e, pr) (Media.producers p)
        /\ Media.l_username e = Media.username p
        /\ Media.l_kind e = Media.prod_kind pr).
Proof.
  intros Hr. unfold Media.getProducers. rewrite Hr. rewrite in_flat_map. split.
  - intros [[k p] [Hin He]]. cbn [fst snd] in He.
    destruct (k =? excludePeerId) eqn:E; [destruct He|].
    apply in_map_iff in He. destruct He as [[pid pr] [<- Hpr]].
    cbn [fst snd Media.l_peerId Media.l_producerId Media.l_username Media.l_kind].
    exists p, pr. repeat split; auto. apply String.eqb_neq. exact E.
  - intros [p [pr [Hin [Hne [Hpr [Hu Hk]]]]]].
    exists (Media.l_peerId e, p). split; [exact Hin|]. cbn [fst snd].
    rewrite (eqb_false _ _ Hne). apply in_map_iff.
    exists (Media.l_producerId e, pr). split; [|exact Hpr].
    cbn [fst snd]. destruct e. cbn in *. subst. reflexivity.
Qed.

(** X3.  [getProducers] lists exactly the producers held by the peers of
    the room other than the requester, each with its holder's id and
    username and its kind; for a room the server does not know the list is
    empty.  With producer ids unique in the room, the requester can
    [consume] every listed producer once it has a receive transport and the
    router accepts its capabilities. *)
Theorem getProducers_lists_the_others :
  forall (ms : Media.t) (roomId excludePeerId : string),
    (JsMap.get (Media.rooms ms) roomId = None ->
     Media.getProducers ms roomId excludePeerId = [])
    /\ (forall r e,
           JsMap.get (Media.rooms ms) roomId = Some r ->
           (In e (Media.getProducers ms roomId excludePeerId)
            <-> exists p pr,
                 In (Media.l_peerId e, p) (Media.room_peers r)
                 /\ Media.l_peerId e <> excludePeerId
                 /\ In (Media.l_producerId e, pr) (Media.producers p)
                 /\ Media.l_username e = Media.username p
                 /\ Media.l_kind e = Media.prod_kind pr))
    /\ (forall r e me tr consumerId,
           JsMap.get (Media.rooms ms) roomId = Some r ->
           producer_ids_unique r ->
           JsMap.get (Media.room_peers r) excludePeerId = Some me ->
           Media.recvTransport me = Some tr ->
           In e (Media.getProducers ms roomId excludePeerId) ->
           exists cd ms',
             Media.consume ms roomId excludePeerId (Media.l_producerId e) true
               (Ok consumerId) = (Ok cd, ms')
             /\ Media.cd_id cd = consumerId
             /\ Media.cd_producerId cd = Media.l_producerId e).
Proof.
  intros ms roomId excludePeerId. split; [|split].
  - intros Hr. unfold Media.getProducers. rewrite Hr. reflexivity.
  - intros r e Hr. apply listed_iff. exact Hr.
  - intros r e me tr consumerId Hr Huniq Hme Htr He.
    apply (listed_iff ms roomId excludePeerId r e Hr) in He.
    destruct He as [p [pr [Hin [Hne [Hpr _]]]]].
    apply in_has in Hpr.
    unfold Media.consume. rewrite Hr, Hme.
    unfold Media.producer_owner.
    destruct (find (fun kv => JsMap.has (Media.producers (snd kv))
                                (Media.l_producerId e))
                   (Media.room_peers r)) as [[k q]|] eqn:F.
    + apply find_some in F. destruct F as [Hq Hhas]. cbn [snd] in Hhas.
      assert (k = Media.l_peerId e)
        by apply (Huniq k q _ p _ Hq Hin Hhas Hpr).
      subst k. unfold JsMap.has in Hhas.
      destruct (JsMap.get (Media.producers q) (Media.l_producerId e))
        as [pr'|]; [|discriminate].
      rewrite (eqb_false _ _ Hne), Htr. cbn [negb].
      eexists. eexists. split; [reflexivity|]. split; reflexivity.
    + pose proof (find_none _ _ F _ Hin) as Hno. cbn [snd] in Hno.
      rewrite Hpr in Hno. discriminate.
Qed.

Lemma getProducers_lists_the_others_witness :
  Media.getProducers alice_receiving "r1" "s-alice" = [bobs_audio]
  /\ exists cd ms',
       Media.consume alice_receiving "r1" "s-alice" "P-bob" true (Ok "c1")
       = (Ok cd, ms')
       /\ Media.cd_id cd = "c1"
       /\ Media.cd_producerId cd = "P-bob".
Proof.
  split; [reflexivity|].
  eapply (proj2 (proj2 (getProducers_lists_the_others alice_receiving
                          "r1" "s-alice")) _ bobs_audio).
  - reflexivity.
  - intros k1 p1 k2 p2 producerId H1 H2 Hh1 Hh2.
    vm_compute in H1, H2.
    destruct H1 as [H1 | [H1 | []]]; destruct H2 as [H2 | [H2 | []]];
      injection H1 as <- <-; injection H2 as <- <-; try reflexivity;
      unfold JsMap.has in Hh1, Hh2; cbn [JsMap.get Media.producers] in Hh1, Hh2.
    + destruct ("P-alice" =? producerId) eqn:E; [|discriminate].
      apply eqb_true in E. subst producerId. discriminate.
    + destruct ("P-bob" =? producerId) eqn:E; [|discriminate].
      apply eqb_true in E. subst producerId. discriminate.
  - reflexivity.
  - reflexivity.
  - left. reflexivity.
Defined.

(** X4.  A consumer that [consume] creates is stored in the peer's
    [consumers] map paused and for the requested producer; [resumeConsumer]
    for it then succeeds and stores it as not paused. *)
Theorem consumer_paused_until_resumed :
  forall (ms : Media.t) (roomId peerId producerId : string)
         (canConsume : bool) (lib : outcome string)
         (cd : Media.consumed) (ms' : Media.t),
    Media.consume ms roomId peerId producerId canConsume lib = (Ok cd, ms') ->
    (exists r' p' c,
        JsMap.get (Media.rooms ms') roomId = Some r'
        /\ JsMap.get (Media.room_peers r') peerId = Some p'
        /\ JsMap.get (Media.consumers p') (Media.cd_id cd) = Some c
        /\ Media.cons_paused c = true
        /\ Media.cons_producerId c = producerId)
    /\ (exists ms'' r'' p'' c',
           Media.resumeConsumer ms' roomId peerId (Media.cd_id cd) (Ok tt)
           = (Ok tt, ms'')
           /\ JsMap.get (Media.rooms ms'') roomId = Some r''
           /\ JsMap.get (Media.room_peers r'') peerId = Some p''
           /\ JsMap.get (Media.consumers p'') (Media.cd_id cd) = Some c'
           /\ Media.cons_paused c' = false
           /\ Media.cons_producerId c' = producerId).
Proof.
  intros ms roomId peerId producerId canConsume lib cd ms'.
  unfold Media.consume.
  destruct (JsMap.get (Media.rooms ms) roomId) as [r|]; [|discriminate].
  destruct (JsMap.get (Media.room_peers r) peerId) as [p|]; [|discriminate].
  destruct (Media.producer_owner r producerId) as [[ownerId pr]|];
    [|discriminate].
  destruct (ownerId =? peerId); [discriminate|].
  destruct (negb canConsume); [discriminate|].
  destruct (Media.recvTransport p); [|discriminate].
  destruct lib as [cid|e]; [|discriminate].
  intros [= <- <-]. cbn [Media.cd_id].
  assert (Hroom : forall ms0 r0 p0,
             JsMap.get (Media.rooms (Media.put_peer ms0 roomId r0 peerId p0))
               roomId
             = Some (Media.with_peers r0
                       (JsMap.set (Media.room_peers r0) peerId p0))).
  { intros. apply get_set_same. }
  split.
  - eexists. eexists. eexists. split; [apply Hroom|].
    split; [apply get_set_same|]. split; [apply get_set_same|].
    split; reflexivity.
  - unfold Media.resumeConsumer. rewrite Hroom.
    cbn [Media.room_peers Media.with_peers].
    rewrite get_set_same. cbn [Media.consumers Media.with_consumers].
    rewrite get_set_same.
    eexists. eexists. eexists. eexists. split; [reflexivity|].
    split; [apply Hroom|]. split; [apply get_set_same|].
    split; [apply get_set_same|]. split; reflexivity.
Qed.

Lemma consumer_paused_until_resumed_witness :
  exists r' p' c,
    JsMap.get
      (Media.rooms
         (snd (Media.consume alice_receiving "r1" "s-alice" "P-bob" true (Ok "c1"))))
      "r1" = Some r'
    /\ JsMap.get (Media.room_peers r') "s-alice" = Some p'
    /\ JsMap.get (Media.consumers p') "c1" = Some c
    /\ Media.cons_paused c = true
    /\ Media.cons_producerId c = "P-bob".
Proof.
  destruct (Media.consume alice_receiving "r1" "s-alice" "P-bob" true (Ok "c1"))
    as [[cd|e] ms'] eqn:E; [|vm_compute in E; discriminate].
  destruct (consumer_paused_until_resumed alice_receiving "r1" "s-alice" "P-bob"
              true (Ok "c1") cd ms' E) as [H _].
  assert (Hid : Media.cd_id cd = "c1").
  { vm_compute in E. injection E as <- _. reflexivity. }
  rewrite Hid in H. exact H.
Defined.

(** ** One recording per room *)



(** ** The taps of a recording *)

Section TapFacts.
Variable path_join : string -> string -> string.
Variable dirname : string.
Variable draws : nat -> Media.tap_draw.

Let tap (acc : Media.recording * nat) (x : string * Media.producer) :=
  (Media.createRecordingInput path_join dirname (fst acc) (snd x) (fst x)
     (draws (snd acc)),
   S (snd acc)).

Lemma tap_counts (rc : Media.recording) (pr : Media.producer)
    (peerId : string) (d : Media.tap_draw) :
  exists k,
    (k <= 1)%nat
    /\ List.length (Media.rec_transports
                      (Media.createRecordingInput path_join dirname rc pr peerId d))
       = (List.length (Media.rec_transports rc) + k)%nat
    /\ List.length (Media.rec_consumers
                      (Media.createRecordingInput path_join dirname rc pr peerId d))
       = (List.length (Media.rec_consumers rc) + k)%nat
    /\ (List.length (Media.audioInputs
                       (Media.createRecordingInput path_join dirname rc pr peerId d))
        + List.length (Media.videoInputs
                         (Media.createRecordingInput path_join dirname rc pr
                            peerId d)))%nat
       = (List.length (Media.audioInputs rc)
          + List.length (Media.videoInputs rc) + k)%nat.
Proof.
  unfold Media.createRecordingInput.
  destruct (Media.plain d) as [[tid cid]|].
  - exists 1%nat.
    cbn [Media.rec_transports Media.rec_consumers Media.audioInputs
         Media.videoInputs].
    destruct (Media.prod_kind pr); rewrite ?length_app; cbn [List.length];
      repeat split; lia.
  - exists 0%nat. repeat split; lia.
Qed.

Lemma fold_taps_counts (ps : list (string * Media.producer))
    (rc : Media.recording) (i : nat) :
  exists k,
    (k <= List.length ps)%nat
    /\ List.length (Media.rec_transports (fst (fold_left tap ps (rc, i))))
       = (List.length (Media.rec_transports rc) + k)%nat
    /\ List.length (Media.rec_consumers (fst (fold_left tap ps (rc, i))))
       = (List.length (Media.rec_consumers rc) + k)%nat
    /\ (List.length (Media.audioInputs (fst (fold_left tap ps (rc, i))))
        + List.length (Media.videoInputs (fst (fold_left tap ps (rc, i)))))%nat
       = (List.length (Media.audioInputs rc)
          + List.length (Media.videoInputs rc) + k)%nat.
Proof.
  revert rc i. induction ps as [|x ps IH]; intros rc i.
  - exists 0%nat. cbn. repeat split; lia.
  - cbn [fold_left]. unfold tap at 2 4 6 8. cbn [fst snd].
    destruct (IH (Media.createRecordingInput path_join dirname rc (snd x)
                    (fst x) (draws i)) (S i)) as [k [Hk [Ht [Hc Hi]]]].
    destruct (tap_counts rc (snd x) (fst x) (draws i))
      as [k1 [Hk1 [Ht1 [Hc1 Hi1]]]].
    exists (k1 + k)%nat. cbn [List.length].
    rewrite Ht, Hc, Hi, Ht1, Hc1, Hi1. repeat split; lia.
Qed.

Lemma fold_taps_all (ps : list (string * Media.producer))
    (rc : Media.recording) (i : nat) :
  taps_succeed draws ->
  List.length (Media.audioInputs (fst (fold_left tap ps (rc, i))))
  = (List.length (Media.audioInputs rc)
     + List.length (producers_of_kind false ps))%nat
  /\ List.length (Media.videoInputs (fst (fold_left tap ps (rc, i))))
     = (List.length (Media.videoInputs rc)
        + List.length (producers_of_kind true ps))%nat.
Proof.
  intros Hall. revert rc i. induction ps as [|x ps IH]; intros rc i.
  - cbn. split; lia.
  - cbn [fold_left]. unfold tap at 2 4. cbn [fst snd].
    destruct (IH (Media.createRecordingInput path_join dirname rc (snd x)
                    (fst x) (draws i)) (S i)) as [Ha Hv].
    rewrite Ha, Hv. unfold Media.createRecordingInput.
    specialize (Hall i).
    destruct (Media.plain (draws i)) as [[tid cid]|]; [|congruence].
    cbn [Media.audioInputs Media.videoInputs].
    unfold producers_of_kind. cbn [filter snd].
    destruct (Media.prod_kind (snd x)); cbn [Media.is_video Bool.eqb];
      rewrite ?length_app; cbn [List.length]; split; lia.
Qed.

Lemma fold_taps_paused (ps : list (string * Media.producer))
    (rc : Media.recording) (i : nat) :
  forallb paused (Media.rec_consumers rc) = true ->
  Media.ffmpegProcess rc = None ->
  forallb paused (Media.rec_consumers (fst (fold_left tap ps (rc, i)))) = true
  /\ Media.ffmpegProcess (fst (fold_left tap ps (rc, i))) = None.
Proof.
  revert rc i. induction ps as [|x ps IH]; intros rc i Hp Hf; [auto|].
  cbn [fold_left]. unfold tap at 2 4. cbn [fst snd]. apply IH.
  - unfold Media.createRecordingInput.
    destruct (Media.plain (draws i)) as [[tid cid]|]; [|exact Hp].
    cbn [Media.rec_consumers]. rewrite forallb_app, Hp. reflexivity.
  - unfold Media.createRecordingInput.
    destruct (Media.plain (draws i)) as [[tid cid]|]; exact Hf.
Qed.

Lemma fold_taps_from (ps : list (string * Media.producer))
    (rc : Media.recording) (i : nat) (c : Media.recording_consumer) :
  In c (Media.rec_consumers (fst (fold_left tap ps (rc, i)))) ->
  In c (Media.rec_consumers rc)
  \/ exists x, In x ps
               /\ Media.rc_producerId c = Media.prod_id (snd x)
               /\ Media.rc_kind c = Media.prod_kind (snd x).
Proof.
  revert rc i. induction ps as [|x ps IH]; intros rc i Hin; [left; exact Hin|].
  cbn [fold_left] in Hin. unfold tap at 2 in Hin. cbn [fst snd] in Hin.
  apply IH in Hin. destruct Hin as [Hin | [y [Hy Hc]]].
  - unfold Media.createRecordingInput in Hin.
    destruct (Media.plain (draws i)) as [[tid cid]|]; [|left; exact Hin].
    cbn [Media.rec_consumers] in Hin. apply in_app_or in Hin.
    destruct Hin as [Hin | [<- | []]]; [left; exact Hin|].
    right. exists x. split; [left; reflexivity|]. split; reflexivity.
  - right. exists y. split; [right; exact Hy | exact Hc].
Qed.

End TapFacts.

Lemma startCombinedRecording_inputs (rc : Media.recording) :
  Media.rec_transports (Media.startCombinedRecording rc) = Media.rec_transports rc
  /\ Media.audioInputs (Media.startCombinedRecording rc) = Media.audioInputs rc
  /\ Media.videoInputs (Media.startCombinedRecording rc) = Media.videoInputs rc
  /\ (Media.rec_consumers (Media.startCombinedRecording rc)
      = Media.rec_consumers rc
      \/ Media.rec_consumers (Media.startCombinedRecording rc)
         = map Media.resume (Media.rec_consumers rc)).
Proof.
  unfold Media.startCombinedRecording.
  destruct (Media.audioInputs rc) eqn:E; [rewrite E; auto|].
  cbn [Media.rec_transports Media.audioInputs Media.videoInputs
       Media.rec_consumers]. auto.
Qed.


Lemma last_of_app {A : Type} (l l' : list A) (d : A) :
  l' <> [] -> last (l ++ l') d = last l' d.
Proof.
  intros Hne. induction l as [|x l IH]; [reflexivity|].
  cbn [app]. destruct (l ++ l')%list eqn:E.
  - apply app_eq_nil in E. destruct E as [_ E]. contradiction.
  - exact IH.
Qed.

Lemma ffmpegArgs_last (rc : Media.recording) :
  last (Media.ffmpegArgs rc) "" = Media.outputFile rc.
Proof.
  unfold Media.ffmpegArgs.
  rewrite last_of_app.
  - rewrite last_of_app.
    + rewrite last_of_app.
      * destruct (Media.hasVideo rc && Nat.ltb 0 (List.length (Media.videoInputs rc))).
        -- reflexivity.
        -- rewrite last_of_app; [reflexivity | discriminate].
      * destruct (Media.hasVideo rc && Nat.ltb 0 (List.length (Media.videoInputs rc)));
          [discriminate|].
        intros H. apply app_eq_nil in H. destruct H as [_ H]. discriminate.
    + intros H. apply app_eq_nil in H. destruct H as [_ H].
      destruct (Media.hasVideo rc && Nat.ltb 0 (List.length (Media.videoInputs rc)));
        [discriminate|].
      apply app_eq_nil in H. destruct H as [_ H]. discriminate.
  - intros H. apply app_eq_nil in H. destruct H as [_ H].
    apply app_eq_nil in H. destruct H as [_ H].
    destruct (Media.hasVideo rc && Nat.ltb 0 (List.length (Media.videoInputs rc)));
      [discriminate|].
    apply app_eq_nil in H. destruct H as [_ H]. discriminate.
Qed.

(** X7.  In a recording that starts, ffmpeg is spawned exactly when there
    is at least one audio input.  It is then run with the argument list
    built from the recording's inputs, whose last argument is the output
    file, and every tap consumer is resumed.  Without an audio input (a
    room with video producers only, or all audio taps failed) no process is
    spawned and every tap consumer stays paused. *)
Theorem ffmpeg_needs_an_audio_input :
  forall (path_join : string -> string -> string) (dirname : string)
         (ms : Media.t) (roomId : string) (r : Media.room) (timestamp : Z)
         (draws : nat -> Media.tap_draw) (rc : Media.recording) (ms' : Media.t),
    JsMap.get (Media.rooms ms) roomId = Some r ->
    Media.room_recording r = None ->
    Media.startRecording path_join dirname ms roomId timestamp draws
    = (Ok rc, ms') ->
    (Media.audioInputs rc = [] ->
     Media.ffmpegProcess rc = None
     /\ forallb paused (Media.rec_consumers rc) = true)
    /\ (Media.audioInputs rc <> [] ->
        Media.ffmpegProcess rc = Some (Media.ffmpegArgs rc)
        /\ last (Media.ffmpegArgs rc) "" = Media.outputFile rc
        /\ forallb (fun c => negb (paused c)) (Media.rec_consumers rc) = true).
Proof.
  intros path_join dirname ms roomId r timestamp draws rc ms' Hr Hrec Hrun.
  destruct (startRecording_fresh path_join dirname ms roomId r timestamp draws
              Hr Hrec) as [rc' [Hrun' [Hrc _]]].
  rewrite Hrun' in Hrun. injection Hrun as <- _. subst rc'.
  set (rc1 := Media.record_inputs path_join dirname
                (Media.new_recording path_join dirname roomId r timestamp)
                (Media.all_producers r) draws).
  destruct (fold_taps_paused path_join dirname draws (Media.all_producers r)
              (Media.new_recording path_join dirname roomId r timestamp) 0
              eq_refl eq_refl) as [Hp Hf].
  fold (Media.record_inputs path_join dirname
          (Media.new_recording path_join dirname roomId r timestamp)
          (Media.all_producers r) draws) in Hp, Hf.
  fold rc1 in Hp, Hf.
  unfold Media.startCombinedRecording.
  destruct (Media.audioInputs rc1) as [|a l] eqn:E.
  - split; [|rewrite E; congruence]. intros _. auto.
  - cbn [Media.audioInputs Media.ffmpegProcess Media.rec_consumers].
    split; [discriminate|]. intros _. split; [|split].
    + f_equal. unfold Media.ffmpegArgs.
      cbn [Media.audioInputs Media.videoInputs Media.hasVideo Media.outputFile].
      rewrite E. reflexivity.
    + apply ffmpegArgs_last.
    + rewrite forallb_forall. intros c Hc.
      apply in_map_iff in Hc. destruct Hc as [c0 [<- _]]. reflexivity.
Qed.

Lemma zero_draws_succeed : taps_succeed zero_draws.
Proof. intros i. discriminate. Qed.


Lemma ffmpeg_needs_an_audio_input_witness :
  exists rc ms',
    Media.startRecording unix_join "/srv" two_producers "r1" 4000 zero_draws
    = (Ok rc, ms')
    /\ Media.ffmpegProcess rc = Some (Media.ffmpegArgs rc)
    /\ forallb (fun c => negb (paused c)) (Media.rec_consumers rc) = true.
Proof.
  destruct (Media.startRecording unix_join "/srv" two_producers "r1" 4000
              zero_draws) as [[rc|e] ms'] eqn:E;
    [|vm_compute in E; discriminate].
  destruct (ffmpeg_needs_an_audio_input unix_join "/srv" two_producers "r1"
              _ 4000 zero_draws rc ms' eq_refl eq_refl E) as [_ H].
  exists rc, ms'. split; [reflexivity|].
  assert (Hne : Media.audioInputs rc <> []).
  { vm_compute in E. injection E as <- _. discriminate. }
  destruct (H Hne) as [H1 [_ H3]]. auto.
Defined.

(** ** Stopping a recording *)

(** X8.  [stopRecording] for a room without a recording (or for no room)
    returns nothing and changes nothing.  For a room with a recording it
    returns the recording's id, output file and the time since its start;
    it closes every tap consumer and every plain transport, removes the SDP
    file of every audio and video input, sends the quit command exactly
    when ffmpeg had been spawned, and clears the room's recording, so that
    a later [startRecording] allocates a new one. *)
Theorem stopRecording_releases_the_taps :
  forall (ms : Media.t) (roomId : string) (now : Z),
    ((JsMap.get (Media.rooms ms) roomId = None
      \/ exists r, JsMap.get (Media.rooms ms) roomId = Some r
                   /\ Media.room_recording r = None) ->
     Media.stopRecording ms roomId now = (None, ms, []))
    /\ (forall r rc,
           JsMap.get (Media.rooms ms) roomId = Some r ->
           Media.room_recording r = Some rc ->
           exists ms' evs,
             Media.stopRecording ms roomId now
             = (Some {| Media.st_id := Media.rec_id rc;
                        Media.st_duration := now - Media.startTime rc;
                        Media.st_file := Media.outputFile rc |}, ms', evs)
             /\ JsMap.get (Media.rooms ms') roomId
                = Some (Media.with_recording r None)
             /\ (forall i, In i (Media.audioInputs rc ++ Media.videoInputs rc) ->
                           In (Media.SdpRemoved (Media.sdpFile i)) evs)
             /\ (forall c, In c (Media.rec_consumers rc) ->
                           In (Media.ConsumerClosed
                                 (Media.cons_id (Media.rc_consumer c))) evs)
             /\ (forall tr, In tr (Media.rec_transports rc) ->
                            In (Media.TransportClosed (Media.tr_id tr)) evs)
             /\ (In (Media.FfmpegQuit (Media.rec_id rc)) evs
                 <-> Media.ffmpegProcess rc <> None)
             /\ (forall path_join dirname timestamp draws,
                    exists rc2 ms2,
                      Media.startRecording path_join dirname ms' roomId
                        timestamp draws = (Ok rc2, ms2)
                      /\ Media.rec_id rc2 = roomId ++ "_" ++ dec timestamp)).
Proof.
  intros ms roomId now. split.
  - unfold Media.stopRecording. intros [-> | [r [-> ->]]]; reflexivity.
  - intros r rc Hr Hrec. unfold Media.stopRecording. rewrite Hr, Hrec.
    eexists. eexists. split; [reflexivity|].
    cbn [Media.rooms Media.with_rooms].
    split; [apply get_set_same|].
    split.
    { intros i Hi. apply in_or_app. right. apply in_or_app. right.
      apply in_or_app. right. apply in_or_app. left.
      apply in_map_iff. exists i. auto. }
    split.
    { intros c Hc. apply in_or_app. right. apply in_or_app. left.
      apply in_map_iff. exists c. auto. }
    split.
    { intros tr Htr. apply in_or_app. right. apply in_or_app. right.
      apply in_or_app. left. apply in_map_iff. exists tr. auto. }
    split.
    { split.
      - intros Hin. apply in_app_or in Hin. destruct Hin as [Hin | Hin].
        + destruct (Media.ffmpegProcess rc); [discriminate | destruct Hin].
        + exfalso.
          repeat (apply in_app_or in Hin; destruct Hin as [Hin | Hin]);
            try (apply in_map_iff in Hin; destruct Hin as [x [Hx _]];
                 discriminate).
          destruct Hin as [Hin | []]. discriminate.
      - intros Hf. apply in_or_app. left.
        destruct (Media.ffmpegProcess rc); [left; reflexivity | congruence]. }
    intros path_join dirname timestamp draws.
    destruct (startRecording_fresh path_join dirname
                (Media.with_rooms ms
                   (JsMap.set (Media.rooms ms) roomId
                      (Media.with_recording r None)))
                roomId (Media.with_recording r None) timestamp draws)
      as [rc2 [Hrun [_ Hhead]]];
      [apply get_set_same | reflexivity |].
    exists rc2. eexists. split; [exact Hrun|].
    unfold header in Hhead. cbn in Hhead. injection Hhead as H _ _ _. exact H.
Qed.

Lemma stopRecording_releases_the_taps_witness :
  exists st ms' evs,
    Media.stopRecording both_producing "r1" 6000 = (Some st, ms', evs)
    /\ Media.st_duration st = 2000
    /\ In (Media.SdpRemoved "/srv/recordings/r1_4000_audio_s-bob.sdp") evs.
Proof.
  destruct (JsMap.get (Media.rooms both_producing) "r1") as [r|] eqn:Hr;
    [|vm_compute in Hr; discriminate].
  destruct (Media.room_recording r) as [rc|] eqn:Hrec;
    [|vm_compute in Hr; injection Hr as <-; vm_compute in Hrec; discriminate].
  destruct (proj2 (stopRecording_releases_the_taps both_producing "r1" 6000)
              r rc Hr Hrec) as [ms' [evs [Hrun [_ [Hsdp _]]]]].
  eexists. exists ms', evs. split; [exact Hrun|].
  vm_compute in Hr. injection Hr as <-. vm_compute in Hrec.
  injection Hrec as <-. split; [reflexivity|].
  apply (Hsdp {| Media.port := 20000;
                 Media.sdpFile := "/srv/recordings/r1_4000_audio_s-bob.sdp";
                 Media.in_peerId := "s-bob" |}).
  right. left. reflexivity.
Defined.

(** ** Accounts: registration, approval, login *)

Lemma find_app_none {A : Type} (p : A -> bool) (l l' : list A) :
  find p l = None -> find p (l ++ l') = find p l'.
Proof.
  induction l as [|x l IH]; cbn [app find]; [reflexivity|].
  destruct (p x); [discriminate | exact IH].
Qed.

Lemma register_created (signToken : string -> string) (d : Db.t)
    (username email password : option string) (new_id : string) (now : Z)
    (resp : Rest.response) (d' : Db.t) :
  Rest.register signToken d username email password new_id now = (resp, d') ->
  Rest.status resp = 201 ->
  exists un pw u,
    username = Some un /\ password = Some pw
    /\ truthy username = true /\ truthy password = true
    /\ UserQueries.findByUsername d un = None
    /\ u = {| Db.u_id := new_id; Db.u_username := un;
              Db.u_email := if truthy email then email else None;
              Db.u_phone_number := None; Db.u_password := pw;
              Db.u_profile_picture := None; Db.u_role := Db.RoleUser;
              Db.u_status := Db.Pending; Db.u_is_online := false;
              Db.u_last_seen := None; Db.u_created_at := now |}
    /\ d' = Db.with_users d (Db.users d ++ [u])
    /\ resp = {| Rest.status := 201; Rest.body := Rest.with_token signToken u |}.
Proof.
  unfold Rest.register.
  destruct username as [un|]; [|intros [= <- _]; discriminate].
  destruct password as [pw|]; [|intros [= <- _]; discriminate].
  destruct (truthy (Some un)) eqn:Tu; cbn [negb orb];
    [|intros [= <- _]; discriminate].
  destruct (truthy (Some pw)) eqn:Tp; cbn [negb];
    [|intros [= <- _]; discriminate].
  destruct (UserQueries.findByUsername d un) eqn:F;
    [intros [= <- _]; discriminate|].
  unfold UserQueries.create.
  destruct (existsb _ (Db.users d)); [intros [= <- _]; discriminate|].
  intros [= <- <-] _.
  eexists. eexists. eexists. repeat split; try reflexivity; assumption.
Qed.

(** X9.  After a registration answered with 201 the new account is stored
    as a pending user with the given password; a login with the same
    credentials is refused with 403 'Account pending admin approval' and
    changes nothing; once the account is approved the same login is
    answered with 200 and stores the user as online. *)
Theorem registered_account_waits_for_approval :
  forall (signToken : string -> string) (d : Db.t)
         (un : string) (email : option string) (pw : string)
         (new_id : string) (now : Z) (resp : Rest.response) (d' : Db.t),
    Rest.register signToken d (Some un) email (Some pw) new_id now = (resp, d') ->
    Rest.status resp = 201 ->
    (exists u,
        UserQueries.findByUsername d' un = Some u
        /\ Db.u_id u = new_id /\ Db.u_password u = pw
        /\ Db.u_status u = Db.Pending /\ Db.u_role u = Db.RoleUser)
    /\ (forall later,
           Rest.login signToken d' (Some un) (Some pw) later
           = (Rest.error 403 "Account pending admin approval", d'))
    /\ (forall later,
           exists answer d'',
             Rest.login signToken (snd (Rest.decide d' new_id Db.Active))
               (Some un) (Some pw) later = (answer, d'')
             /\ Rest.status answer = 200
             /\ option_map Db.u_is_online (UserQueries.findByUsername d'' un)
                = Some true).
Proof.
  intros signToken d un email pw new_id now resp d' Hreg H201.
  destruct (register_created _ _ _ _ _ _ _ _ _ Hreg H201)
    as [un' [pw' [u [Eu [Ep [Tu [Tp [Hfree [Hu [Hd' _]]]]]]]]]].
  injection Eu as <-. injection Ep as <-.
  assert (Hfind : UserQueries.findByUsername d' un = Some u).
  { subst d'. unfold UserQueries.findByUsername in *.
    cbn [Db.users Db.with_users]. rewrite (find_app_none _ _ _ Hfree).
    cbn [find]. subst u. cbn [Db.u_username]. rewrite eqb_same. reflexivity. }
  split; [|split].
  - exists u. split; [exact Hfind|]. subst u. repeat split; reflexivity.
  - intros later. unfold Rest.login. rewrite Tu, Tp, Hfind. cbn [negb orb].
    subst u. cbn [Db.u_password Db.u_status]. rewrite eqb_same. reflexivity.
  - intros later.
    assert (Hfind2 : UserQueries.findByUsername
                       (snd (Rest.decide d' new_id Db.Active)) un
                     = Some (UserQueries.set_status Db.Active u)).
    { unfold Rest.decide, UserQueries.setStatus.
      match goal with
      | |- context [find ?p (map ?f (Db.users d'))] =>
          destruct (find p (map f (Db.users d'))); cbn [snd]
      end;
        unfold UserQueries.findByUsername in *;
        cbn [Db.users Db.with_users];
        (rewrite find_map_keyed;
         [rewrite Hfind; cbn [option_map]; subst u; cbn [Db.u_id];
          rewrite eqb_same; reflexivity
         | intros x; destruct (Db.u_id x =? new_id); reflexivity]). }
    unfold Rest.login. rewrite Tu, Tp, Hfind2. cbn [negb orb].
    subst u. cbn [UserQueries.set_status Db.u_password Db.u_status Db.u_id].
    rewrite eqb_same. cbn [negb].
    eexists. eexists. split; [reflexivity|]. split; [reflexivity|].
    unfold UserQueries.findByUsername, UserQueries.setOnlineStatus.
    cbn [snd Db.users Db.with_users].
    rewrite find_map_keyed.
    + unfold UserQueries.findByUsername in Hfind2. rewrite Hfind2.
      cbn [option_map UserQueries.set_status Db.u_id]. rewrite eqb_same.
      reflexivity.
    + intros x. destruct (Db.u_id x =? new_id); reflexivity.
Qed.

Lemma registered_account_waits_for_approval_witness :
  Rest.login sample_token
    (snd (Rest.register sample_token root_only (Some "dave") None (Some "pw1")
            "u-dave" 10))
    (Some "dave") (Some "pw1") 20
  = (Rest.error 403 "Account pending admin approval",
     snd (Rest.register sample_token root_only (Some "dave") None (Some "pw1")
            "u-dave" 10)).
Proof.
  destruct (Rest.register sample_token root_only (Some "dave") None (Some "pw1")
              "u-dave" 10) as [resp d'] eqn:E.
  cbn [snd].
  assert (H201 : Rest.status resp = 201).
  { vm_compute in E. injection E as <- _. reflexivity. }
  apply (proj1 (proj2 (registered_account_waits_for_approval sample_token
                         root_only "dave" None "pw1" "u-dave" 10 resp d' E
                         H201))).
Defined.

(** X10.  A login is answered with 200 only for the stored password of an
    active account; the body then is that user's sanitized row with a token
    for its id, and the only change is that user's online flag.  Every
    other login leaves the database as it is, and an unknown username and a
    wrong password get the same answer. *)
Theorem login_needs_the_stored_password :
  forall (signToken : string -> string) (d : Db.t)
         (username password : option string) (now : Z),
    (Rest.status (fst (Rest.login signToken d username password now)) = 200 ->
     exists un pw u,
       username = Some un /\ password = Some pw
       /\ UserQueries.findByUsername d un = Some u
       /\ Db.u_password u = pw /\ Db.u_status u = Db.Active
       /\ Rest.body (fst (Rest.login signToken d username password now))
          = Rest.with_token signToken u
       /\ snd (Rest.login signToken d username password now)
          = snd (UserQueries.setOnlineStatus d (Db.u_id u) true now))
    /\ (Rest.status (fst (Rest.login signToken d username password now)) <> 200 ->
        snd (Rest.login signToken d username password now) = d)
    /\ (forall un pw u,
           username = Some un -> password = Some pw ->
           truthy username = true -> truthy password = true ->
           (UserQueries.findByUsername d un = None
            \/ (UserQueries.findByUsername d un = Some u
                /\ Db.u_password u <> pw)) ->
           Rest.login signToken d username password now
           = (Rest.error 401 "Invalid credentials", d)).
Proof.
  intros signToken d username password now. unfold Rest.login.
  split; [|split].
  - destruct username as [un|]; [|discriminate].
    destruct password as [pw|]; [|discriminate].
    destruct (negb (truthy (Some un)) || negb (truthy (Some pw)));
      [discriminate|].
    destruct (UserQueries.findByUsername d un) as [u|] eqn:F; [|discriminate].
    destruct (pw =? Db.u_password u) eqn:P; cbn [negb]; [|discriminate].
    destruct (Db.u_status u) eqn:S; try discriminate.
    intros _. exists un, pw, u. apply eqb_true in P. subst pw.
    repeat split; try reflexivity; assumption.
  - destruct username as [un|]; [|reflexivity].
    destruct password as [pw|]; [|reflexivity].
    destruct (negb (truthy (Some un)) || negb (truthy (Some pw)));
      [reflexivity|].
    destruct (UserQueries.findByUsername d un) as [u|]; [|reflexivity].
    destruct (negb (pw =? Db.u_password u)); [reflexivity|].
    destruct (Db.u_status u); try reflexivity.
    intros H. exfalso. apply H. reflexivity.
  - intros un pw u -> -> Tu Tp Hbad. rewrite Tu, Tp. cbn [negb orb].
    destruct Hbad as [-> | [-> Hpw]]; [reflexivity|].
    rewrite (eqb_false pw (Db.u_password u)) by congruence. reflexivity.
Qed.

Lemma login_needs_the_stored_password_witness :
  Rest.login sample_token root_only (Some "root") (Some "guess") 5
  = (Rest.error 401 "Invalid credentials", root_only)
  /\ Rest.login sample_token root_only (Some "nobody") (Some "guess") 5
     = (Rest.error 401 "Invalid credentials", root_only).
Proof.
  split.
  - eapply (proj2 (proj2 (login_needs_the_stored_password sample_token
                            root_only (Some "root") (Some "guess") 5)));
      try reflexivity.
    right. split; [reflexivity | discriminate].
  - eapply (proj2 (proj2 (login_needs_the_stored_password sample_token
                            root_only (Some "nobody") (Some "guess") 5))
              "nobody" "guess" (sample_person "x" "x" 0));
      try reflexivity.
    left. reflexivity.
Defined.

(** ** Administration *)

Lemma guard_none_is_admin (d : Db.t) (bearer : outcome string) :
  Rest.guard d bearer = None <-> is_admin d bearer.
Proof.
  unfold Rest.guard, is_admin. split.
  - destruct bearer as [uid|msg]; [|discriminate].
    destruct (UserQueries.findById d uid) as [u|] eqn:F; [|discriminate].
    destruct (Db.u_role u) eqn:R; [|discriminate].
    intros _. exists uid, u. auto.
  - intros [uid [u [-> [-> ->]]]]. reflexivity.
Qed.

Lemma guard_refusal (d : Db.t) (bearer : outcome string) (r : Rest.response) :
  Rest.guard d bearer = Some r ->
  (Rest.status r = 401 \/ Rest.status r = 403)
  /\ exists msg, Rest.body r = JObj [("error", JStr msg)].
Proof.
  unfold Rest.guard.
  destruct bearer as [uid|msg].
  - destruct (UserQueries.findById d uid) as [u|].
    + destruct (Db.u_role u); [discriminate|].
      intros [= <-]. split; [right; reflexivity | eexists; reflexivity].
    + intros [= <-]. split; [right; reflexivity | eexists; reflexivity].
  - intros [= <-]. split; [left; reflexivity | eexists; reflexivity].
Qed.



Lemma approval_keeps_other_rows (d : Db.t) (id : string) (s : Db.user_status)
    (uid : string) (u : Db.user) :
  UserQueries.findById d uid = Some u ->
  UserQueries.findById (snd (UserQueries.setStatus d id s)) uid
  = Some (if Db.u_id u =? id then UserQueries.set_status s u else u).
Proof.
  unfold UserQueries.findById, UserQueries.setStatus. intros H.
  cbn [snd Db.users Db.with_users].
  rewrite find_map_keyed; [rewrite H; reflexivity|].
  intros x. destruct (Db.u_id x =? id); reflexivity.
Qed.

Lemma map_fixes {A : Type} (f : A -> A) (l : list A) :
  (forall x, In x l -> f x = x) -> map f l = l.
Proof.
  induction l as [|x l IH]; intros H; cbn [map]; [reflexivity|].
  rewrite (H x (or_introl eq_refl)), IH; [reflexivity|].
  intros y Hy. apply H. right. exact Hy.
Qed.



(** *** [ORDER BY] as a sort *)

Section OrderByFacts.
Context {A : Type} (le : A -> A -> bool).
Hypothesis le_total : forall a b, le a b = true \/ le b a = true.
Hypothesis le_trans : forall a b c, le a b = true -> le b c = true -> le a c = true.

Lemma insert_by_In (x y : A) (l : list A) :
  In y (insert_by le x l) <-> y = x \/ In y l.
Proof.
  induction l as [|z l IH]; cbn [insert_by].
  - cbn. intuition.
  - destruct (le x z); cbn [In]; [intuition|]. rewrite IH. intuition.
Qed.

Lemma order_by_In (y : A) (l : list A) :
  In y (order_by le l) <-> In y l.
Proof.
  induction l as [|x l IH]; cbn [order_by fold_right]; [reflexivity|].
  fold (order_by le l). rewrite insert_by_In, IH. cbn. intuition.
Qed.

Lemma insert_by_sorted (x : A) (l : list A) :
  StronglySorted (fun a b => le a b = true) l ->
  StronglySorted (fun a b => le a b = true) (insert_by le x l).
Proof.
  induction l as [|z l IH]; intros Hs; cbn [insert_by].
  - constructor; constructor.
  - inversion Hs as [|? ? Hl Hz]; subst.
    destruct (le x z) eqn:E.
    + constructor; [exact Hs|]. constructor; [exact E|].
      apply Forall_forall. intros w Hw.
      apply (le_trans x z w E). exact (proj1 (Forall_forall _ _) Hz w Hw).
    + constructor; [apply IH; exact Hl|].
      apply Forall_forall. intros w Hw. apply insert_by_In in Hw.
      destruct Hw as [-> | Hw].
      * destruct (le_total x z) as [H|H]; [congruence | exact H].
      * exact (proj1 (Forall_forall _ _) Hz w Hw).
Qed.

Lemma order_by_sorted (l : list A) :
  StronglySorted (fun a b => le a b = true) (order_by le l).
Proof.
  induction l as [|x l IH]; cbn [order_by fold_right]; [constructor|].
  apply insert_by_sorted. exact IH.
Qed.
End OrderByFacts.

Lemma sorted_firstn {A : Type} (R : A -> A -> Prop) (n : nat) (l : list A) :
  StronglySorted R l -> StronglySorted R (firstn n l).
Proof.
  revert n. induction l as [|x l IH]; intros n Hs.
  - rewrite firstn_nil. constructor.
  - destruct n as [|n]; [constructor|]. cbn [firstn].
    inversion Hs as [|? ? Hl Hx]; subst.
    constructor; [apply IH; exact Hl|].
    apply Forall_forall. intros y Hy.
    apply (proj1 (Forall_forall _ _) Hx).
    rewrite <- (firstn_skipn n l). apply in_or_app. left. exact Hy.
Qed.

Lemma sorted_across {A : Type} (R : A -> A -> Prop) (l l' : list A) :
  StronglySorted R (l ++ l') ->
  forall x y, In x l -> In y l' -> R x y.
Proof.
  induction l as [|z l IH]; intros Hs x y Hx Hy; [destruct Hx|].
  cbn in Hs. inversion Hs as [|? ? Hl Hz]; subst.
  destruct Hx as [<- | Hx].
  - apply (proj1 (Forall_forall _ _) Hz). apply in_or_app. right. exact Hy.
  - apply (IH Hl x y Hx Hy).
Qed.

Lemma history_messages (d : Db.t) (l : list Db.message) :
  map MessageQueries.h_message (map (MessageQueries.history_of d) l) = l.
Proof.
  induction l as [|m l IH]; cbn [map]; [reflexivity|].
  rewrite IH. reflexivity.
Qed.



(** ** Bookkeeping of calls *)

Lemma active_call_get (st : Hub.t) (roomId : option string) (rid callId : string) :
  Hub.active_call st roomId = Some (rid, callId) ->
  roomId = Some rid /\ JsMap.get (Hub.activeCalls st) rid = Some callId.
Proof.
  unfold Hub.active_call. destruct roomId as [r|]; [|discriminate].
  destruct (truthy (Some r)); [|discriminate].
  destruct (JsMap.get (Hub.activeCalls st) r) as [c|] eqn:E; [|discriminate].
  destruct (truthy (Some c)); [|discriminate].
  intros [= <- <-]. split; [reflexivity | exact E].
Qed.

Lemma find_unique_id (l : list Db.call) (c : Db.call) :
  NoDup (map Db.c_id l) -> In c l ->
  find (fun x => Db.c_id x =? Db.c_id c) l = Some c.
Proof.
  induction l as [|x l IH]; intros Hnd Hin; [destruct Hin|].
  cbn [map] in Hnd. inversion Hnd as [|? ? Hx Hl]; subst.
  cbn [find]. destruct Hin as [-> | Hin].
  - rewrite eqb_same. reflexivity.
  - destruct (Db.c_id x =? Db.c_id c) eqn:E; [|apply IH; assumption].
    apply eqb_true in E. exfalso. apply Hx. rewrite E.
    apply in_map. exact Hin.
Qed.

Lemma updated_ids (id : string) (s : Db.call_status) (now : Z) (l : list Db.call) :
  map Db.c_id
    (map (fun c => if Db.c_id c =? id
                   then CallQueries.set_call_status s now c else c) l)
  = map Db.c_id l.
Proof.
  rewrite map_map. apply map_ext. intros c.
  destruct (Db.c_id c =? id); reflexivity.
Qed.

Lemma updateStatus_other (d : Db.t) (id id' : string) (s : Db.call_status)
    (now : Z) (c : Db.call) :
  CallQueries.findById d id' = Some c ->
  CallQueries.findById (snd (CallQueries.updateStatus d id s now)) id'
  = Some (if Db.c_id c =? id then CallQueries.set_call_status s now c else c).
Proof.
  unfold CallQueries.findById, CallQueries.updateStatus. intros H.
  cbn [snd Db.calls Db.with_calls].
  rewrite find_map_keyed; [rewrite H; reflexivity|].
  intros x. destruct (Db.c_id x =? id); reflexivity.
Qed.

Lemma findById_same_calls (d d' : Db.t) (id : string) :
  Db.calls d' = Db.calls d ->
  CallQueries.findById d' id = CallQueries.findById d id.
Proof. unfold CallQueries.findById. intros ->. reflexivity. Qed.

Lemma tracked_same_calls (st st' : Hub.t) :
  Db.calls (Hub.db st') = Db.calls (Hub.db st) ->
  Hub.activeCalls st' = Hub.activeCalls st ->
  calls_tracked st -> calls_tracked st'.
Proof.
  intros Hc Ha (Hnd & Hend & Hact). unfold calls_tracked.
  rewrite Hc, Ha. split; [exact Hnd|]. split; [exact Hend|].
  intros rid callId H. destruct (Hact rid callId H) as [c [Hf Hc']].
  exists c. split; [|exact Hc'].
  rewrite (findById_same_calls (Hub.db st) (Hub.db st') callId Hc). exact Hf.
Qed.

Lemma tracked_call_is_the_row (st : Hub.t) (rid callId : string) (c0 : Db.call) :
  calls_tracked st ->
  JsMap.get (Hub.activeCalls st) rid = Some callId ->
  In c0 (Db.calls (Hub.db st)) -> Db.c_id c0 = callId ->
  Db.c_room_id c0 = rid /\ call_open c0.
Proof.
  intros (Hnd & _ & Hact) Hget Hin Hid.
  destruct (Hact rid callId Hget) as [c [Hf Hc]].
  unfold CallQueries.findById in Hf.
  rewrite <- Hid, (find_unique_id _ c0 Hnd Hin) in Hf.
  injection Hf as <-. exact Hc.
Qed.

(** A status update of the active call of a room, the entry of the room
    kept ([ongoing]) or dropped (a final status). *)
Lemma tracked_update (st : Hub.t) (d : Db.t) (rid callId : string)
    (s : Db.call_status) (now : Z) (keep : bool) :
  calls_tracked st ->
  JsMap.get (Hub.activeCalls st) rid = Some callId ->
  Db.calls d = Db.calls (Hub.db st) ->
  CallQueries.sets_ended_at s = negb keep ->
  calls_tracked
    {| Hub.db := snd (CallQueries.updateStatus d callId s now);
       Hub.connectedUsers := Hub.connectedUsers st;
       Hub.activeCalls :=
         if keep then Hub.activeCalls st
         else JsMap.delete (Hub.activeCalls st) rid;
       Hub.mediaServer := Hub.mediaServer st |}.
Proof.
  intros Ht Hget Hd Hs. pose proof Ht as (Hnd & Hend & Hact).
  unfold calls_tracked.
  cbn [Hub.db Hub.activeCalls CallQueries.updateStatus snd Db.calls
       Db.with_calls].
  rewrite Hd. split; [rewrite updated_ids; exact Hnd|]. split.
  - intros c' Hc'. apply in_map_iff in Hc'. destruct Hc' as [c0 [<- Hc0]].
    destruct (Db.c_id c0 =? callId) eqn:E; [|apply Hend; exact Hc0].
    apply eqb_true in E.
    destruct (tracked_call_is_the_row st rid callId c0 Ht Hget Hc0 E)
      as [_ Hopen].
    unfold call_open. cbn [CallQueries.set_call_status Db.c_status Db.c_ended_at].
    rewrite Hs. destruct keep; cbn [negb].
    + split; [intros _; apply (Hend c0 Hc0); exact Hopen | reflexivity].
    + split; discriminate.
  - intros rid' callId' H'.
    assert (Hold : JsMap.get (Hub.activeCalls st) rid' = Some callId'
                   /\ (keep = false -> rid' <> rid)).
    { destruct keep; [split; [exact H' | discriminate]|].
      rewrite get_delete in H'. destruct (rid =? rid') eqn:E; [discriminate|].
      split; [exact H'|]. intros _ ->. rewrite eqb_same in E. discriminate. }
    destruct Hold as [Hold Hne].
    destruct (Hact rid' callId' Hold) as [c [Hf [Hroom Hopen]]].
    exists (if Db.c_id c =? callId
            then CallQueries.set_call_status s now c else c).
    split.
    + pose proof (updateStatus_other (Hub.db st) callId callId' s now c Hf) as H.
      unfold CallQueries.findById, CallQueries.updateStatus in H.
      cbn [snd Db.calls Db.with_calls] in H. exact H.
    + destruct (Db.c_id c =? callId) eqn:E; [|split; assumption].
      apply eqb_true in E.
      assert (Hin : In c (Db.calls (Hub.db st)))
        by (apply (find_some _ _ Hf)).
      destruct (tracked_call_is_the_row st rid callId c Ht Hget Hin E)
        as [Hroom' _].
      destruct keep.
      * split; [exact Hroom|]. unfold call_open.
        cbn [CallQueries.set_call_status Db.c_status]. exact Hs.
      * exfalso. apply (Hne eq_refl). congruence.
Qed.

Lemma tracked_create (st : Hub.t) (d2 : Db.t) (rid : string) (c : Db.call) :
  calls_tracked st ->
  Db.call_exists (Hub.db st) (Db.c_id c) = false ->
  Db.c_room_id c = rid -> Db.c_status c = Db.Ringing -> Db.c_ended_at c = None ->
  Db.calls d2 = (Db.calls (Hub.db st) ++ [c])%list ->
  calls_tracked
    {| Hub.db := d2; Hub.connectedUsers := Hub.connectedUsers st;
       Hub.activeCalls := JsMap.set (Hub.activeCalls st) rid (Db.c_id c);
       Hub.mediaServer := Hub.mediaServer st |}.
Proof.
  intros (Hnd & Hend & Hact) Hnew Hroom Hst Hended Hd.
  unfold calls_tracked. cbn [Hub.db Hub.activeCalls]. rewrite Hd.
  assert (Hfresh : forall x, In x (Db.calls (Hub.db st)) ->
                             (Db.c_id x =? Db.c_id c) = false).
  { intros x Hx. unfold Db.call_exists in Hnew.
    destruct (Db.c_id x =? Db.c_id c) eqn:E; [|reflexivity].
    rewrite <- Hnew. symmetry. apply existsb_exists. exists x. split; assumption. }
  split.
  - rewrite map_app. cbn [map].
    apply NoDup_app.
    + exact Hnd.
    + constructor; [intros []|constructor].
    + intros a Ha [<-|[]]. apply in_map_iff in Ha. destruct Ha as [x [Hx Hin]].
      pose proof (Hfresh x Hin) as Hf. rewrite Hx, eqb_same in Hf. discriminate.
  - split.
    + intros c' Hc'. apply in_app_or in Hc'. destruct Hc' as [Hc'|[<-|[]]].
      * apply Hend. exact Hc'.
      * unfold call_open. rewrite Hst, Hended. split; reflexivity.
    + intros rid' callId' H'. rewrite get_set in H'.
      destruct (rid =? rid') eqn:E.
      * injection H' as <-. apply eqb_true in E. subst rid'.
        exists c. split; [|split; [exact Hroom|]].
        -- unfold CallQueries.findById. rewrite Hd.
           apply find_last; [exact Hfresh | apply eqb_same].
        -- unfold call_open. rewrite Hst. reflexivity.
      * destruct (Hact rid' callId' H') as [c' [Hf Hc']].
        exists c'. split; [|exact Hc'].
        unfold CallQueries.findById. rewrite Hd.
        apply find_app_found. exact Hf.
Qed.

Lemma addParticipant_calls (d : Db.t) (callId userId : string) (now : Z) :
  Db.calls (snd (CallQueries.addParticipant d callId userId now)) = Db.calls d.
Proof.
  unfold CallQueries.addParticipant.
  destruct (Db.call_exists d callId && Db.user_exists d userId); reflexivity.
Qed.

Lemma call_step_tracked (st : Hub.t) (e : Hub.call_event) :
  calls_tracked st -> calls_tracked (fst (Hub.call_step st e)).
Proof.
  intros Ht. destruct e as [sid userToCall signalData callerName isVideoCall
                              roomId new_id now
                           | sid signal to roomId now
                           | to roomId now | to roomId now];
    cbn [Hub.call_step].
  - unfold Hub.call_user. cbn [fst].
    destruct roomId as [rid|]; [|exact Ht].
    destruct (Hub.session_user st sid) as [uid|]; [|exact Ht].
    destruct (truthy (Some rid)); [|exact Ht].
    unfold CallQueries.create.
    destruct (Db.call_exists (Hub.db st) new_id
              || negb (Db.room_exists (Hub.db st) rid)
              || negb (Db.user_exists (Hub.db st) uid))%bool eqn:Hchk;
      [exact Ht|].
    apply orb_false_elim in Hchk. destruct Hchk as [Hchk Huser].
    apply orb_false_elim in Hchk. destruct Hchk as [Hnew _].
    apply negb_false_iff in Huser.
    cbn [Db.c_id]. unfold CallQueries.addParticipant.
    match goal with
    | |- context [if ?b then _ else _] =>
        assert (Hcond : b = true)
    end.
    { apply andb_true_intro. split; [|exact Huser].
      unfold Db.call_exists. cbn [Db.calls Db.with_calls].
      rewrite existsb_app. cbn [existsb Db.c_id]. rewrite eqb_same.
      apply orb_true_iff. right. reflexivity. }
    rewrite Hcond.
    apply (tracked_create st _ rid
             {| Db.c_id := new_id; Db.c_room_id := rid;
                Db.c_initiator_id := Some uid; Db.c_started_at := now;
                Db.c_ended_at := None;
                Db.c_call_type :=
                  if isVideoCall then Db.VideoCall else Db.AudioCall;
                Db.c_status := Db.Ringing |});
      try reflexivity; assumption.
  - unfold Hub.answer_call. cbn [fst].
    destruct (Hub.active_call st roomId) as [[rid callId]|] eqn:Hact; [|exact Ht].
    apply active_call_get in Hact. destruct Hact as [_ Hget].
    destruct (Hub.session_user st sid) as [uid|]; [|exact Ht].
    pose proof (addParticipant_calls (Hub.db st) callId uid now) as Hcalls.
    destruct (CallQueries.addParticipant (Hub.db st) callId uid now)
      as [[p|msg] d1]; cbn [snd] in Hcalls.
    + apply (tracked_update st (CallQueries.answerParticipant d1 callId uid now)
               rid callId Db.Ongoing now true Ht Hget);
        [exact Hcalls | reflexivity].
    + apply (tracked_same_calls st); [exact Hcalls | reflexivity | exact Ht].
  - unfold Hub.reject_call. cbn [fst].
    destruct (Hub.active_call st roomId) as [[rid callId]|] eqn:Hact; [|exact Ht].
    apply active_call_get in Hact. destruct Hact as [_ Hget].
    apply (tracked_update st (Hub.db st) rid callId Db.Rejected_call now false
             Ht Hget); reflexivity.
  - unfold Hub.end_call, CallQueries.end_. cbn [fst].
    destruct (Hub.active_call st roomId) as [[rid callId]|] eqn:Hact; [|exact Ht].
    apply active_call_get in Hact. destruct Hact as [_ Hget].
    apply (tracked_update st (Hub.db st) rid callId Db.Completed now false
             Ht Hget); reflexivity.
Qed.

Lemma call_steps_tracked (st : Hub.t) (es : list Hub.call_event) :
  calls_tracked st -> calls_tracked (Hub.call_steps st es).
Proof.
  revert st. induction es as [|e es IH]; intros st Ht; cbn [Hub.call_steps].
  - exact Ht.
  - apply IH, call_step_tracked, Ht.
Qed.

Lemma no_calls_tracked (st : Hub.t) :
  Db.calls (Hub.db st) = [] -> Hub.activeCalls st = [] -> calls_tracked st.
Proof.
  intros Hc Ha. unfold calls_tracked. rewrite Hc, Ha.
  split; [constructor|]. split; [intros c []|].
  intros rid callId H. discriminate H.
Qed.



Lemma finished_call_kept (st : Hub.t) (e : Hub.call_event) (c : Db.call) :
  calls_tracked st ->
  In c (Db.calls (Hub.db st)) ->
  CallQueries.sets_ended_at (Db.c_status c) = true ->
  In c (Db.calls (Hub.db (fst (Hub.call_step st e)))).
Proof.
  intros Ht Hin Hdone.
  assert (Hupd : forall d rid callId s now,
             JsMap.get (Hub.activeCalls st) rid = Some callId ->
             Db.calls d = Db.calls (Hub.db st) ->
             In c (Db.calls (snd (CallQueries.updateStatus d callId s now)))).
  { intros d rid callId s now Hget Hd.
    cbn [CallQueries.updateStatus snd Db.calls Db.with_calls]. rewrite Hd.
    apply in_map_iff. exists c. split; [|exact Hin].
    destruct (Db.c_id c =? callId) eqn:E; [|reflexivity].
    apply eqb_true in E.
    destruct (tracked_call_is_the_row st rid callId c Ht Hget Hin E)
      as [_ Hopen].
    unfold call_open in Hopen. congruence. }
  destruct e as [sid userToCall signalData callerName isVideoCall
                   roomId new_id now
                | sid signal to roomId now
                | to roomId now | to roomId now];
    cbn [Hub.call_step].
  - unfold Hub.call_user. cbn [fst].
    destruct roomId as [rid|]; [|exact Hin].
    destruct (Hub.session_user st sid) as [uid|]; [|exact Hin].
    destruct (truthy (Some rid)); [|exact Hin].
    unfold CallQueries.create.
    destruct (Db.call_exists (Hub.db st) new_id
              || negb (Db.room_exists (Hub.db st) rid)
              || negb (Db.user_exists (Hub.db st) uid))%bool;
      [exact Hin|].
    match goal with
    | |- context [CallQueries.addParticipant ?d ?c ?u ?n] =>
        pose proof (addParticipant_calls d c u n) as Hcalls;
        destruct (CallQueries.addParticipant d c u n) as [[p|msg] d2]
    end; cbn [snd Db.calls Db.with_calls] in Hcalls;
      cbn [Hub.db Hub.with_db]; rewrite Hcalls;
      apply in_or_app; left; exact Hin.
  - unfold Hub.answer_call. cbn [fst].
    destruct (Hub.active_call st roomId) as [[rid callId]|] eqn:Hact; [|exact Hin].
    apply active_call_get in Hact. destruct Hact as [_ Hget].
    destruct (Hub.session_user st sid) as [uid|]; [|exact Hin].
    pose proof (addParticipant_calls (Hub.db st) callId uid now) as Hcalls.
    destruct (CallQueries.addParticipant (Hub.db st) callId uid now)
      as [[p|msg] d1]; cbn [snd] in Hcalls; cbn [Hub.db Hub.with_db].
    + apply (Hupd _ rid callId Db.Ongoing now Hget). exact Hcalls.
    + rewrite Hcalls. exact Hin.
  - unfold Hub.reject_call. cbn [fst].
    destruct (Hub.active_call st roomId) as [[rid callId]|] eqn:Hact; [|exact Hin].
    apply active_call_get in Hact. destruct Hact as [_ Hget].
    cbn [Hub.db]. apply (Hupd _ rid callId _ now Hget). reflexivity.
  - unfold Hub.end_call, CallQueries.end_. cbn [fst].
    destruct (Hub.active_call st roomId) as [[rid callId]|] eqn:Hact; [|exact Hin].
    apply active_call_get in Hact. destruct Hact as [_ Hget].
    cbn [Hub.db]. apply (Hupd _ rid callId _ now Hget). reflexivity.
Qed.



(** ** The handlers of the call events *)

Lemma found_call_exists (d : Db.t) (id : string) (c : Db.call) :
  CallQueries.findById d id = Some c -> Db.call_exists d id = true.
Proof.
  unfold CallQueries.findById, Db.call_exists. intros H.
  apply find_some in H. apply existsb_exists. exists c. exact H.
Qed.

(** X16.  [answer_call] by a registered user for the active call of a room
    stores the call as [ongoing], leaving its [ended_at] alone, records the
    user as a participant who answered at that time, keeps the entry of
    [activeCalls] and sends [call_accepted] with the signal to the resolved
    target.  When the user is not a user of the database the participant
    cannot be inserted, and the call row stays as it was; [call_accepted]
    is sent all the same. *)
Theorem answer_call_makes_ongoing :
  forall (st : Hub.t) (sid : string) (signal : json) (to rid callId uid : string)
         (c : Db.call) (now : Z),
    Hub.active_call st (Some rid) = Some (rid, callId) ->
    Hub.session_user st sid = Some uid ->
    CallQueries.findById (Hub.db st) callId = Some c ->
    let st' := fst (Hub.answer_call st sid signal to (Some rid) now) in
    snd (Hub.answer_call st sid signal to (Some rid) now)
    = [Hub.ToSocket (Hub.targetSocketId (Hub.connectedUsers st) to)
         "call_accepted" (JObj [("signal", signal)])]
    /\ Hub.activeCalls st' = Hub.activeCalls st
    /\ (Db.user_exists (Hub.db st) uid = true ->
        CallQueries.findById (Hub.db st') callId
        = Some (CallQueries.set_call_status Db.Ongoing now c)
        /\ Db.c_status (CallQueries.set_call_status Db.Ongoing now c) = Db.Ongoing
        /\ Db.c_ended_at (CallQueries.set_call_status Db.Ongoing now c)
           = Db.c_ended_at c
        /\ In {| Db.cp_call_id := callId; Db.cp_user_id := uid;
                 Db.cp_joined_at := now; Db.cp_left_at := None;
                 Db.cp_answered := true |}
              (Db.call_participants (Hub.db st')))
    /\ (Db.user_exists (Hub.db st) uid = false -> Hub.db st' = Hub.db st).
Proof.
  intros st sid signal to rid callId uid c now Hact Huser Hc st'.
  subst st'. unfold Hub.answer_call. rewrite Hact, Huser. cbn [fst snd].
  split; [reflexivity|].
  unfold CallQueries.addParticipant.
  rewrite (found_call_exists _ _ _ Hc). cbn [andb].
  destruct (Db.user_exists (Hub.db st) uid) eqn:Hu.
  - split; [reflexivity|]. split; [|discriminate]. intros _.
    cbn [Hub.db Hub.with_db].
    split; [|split; [reflexivity | split; [reflexivity|]]].
    + apply updateStatus_row. exact Hc.
    + cbn [CallQueries.updateStatus snd Db.call_participants Db.with_calls
           CallQueries.answerParticipant Db.with_call_participants].
      apply in_map_iff.
      exists {| Db.cp_call_id := callId; Db.cp_user_id := uid;
                Db.cp_joined_at := now; Db.cp_left_at := None;
                Db.cp_answered := false |}.
      split.
      * cbn [Db.cp_call_id Db.cp_user_id Db.cp_left_at].
        rewrite !eqb_same. reflexivity.
      * apply in_or_app. right. left. reflexivity.
  - split; [reflexivity|]. split; [discriminate|]. intros _.
    destruct st; reflexivity.
Qed.

Lemma answer_call_makes_ongoing_witness :
  option_map Db.c_status
    (CallQueries.findById
       (Hub.db (fst (Hub.answer_call ringing "s-bob" JNull "s-alice"
                       (Some "r1") 310))) "c1")
  = Some Db.Ongoing.
Proof.
  rewrite (proj1 (proj1 (proj2 (proj2
             (answer_call_makes_ongoing ringing "s-bob" JNull "s-alice" "r1"
                "c1" "u-bob"
                {| Db.c_id := "c1"; Db.c_room_id := "r1";
                   Db.c_initiator_id := Some "u-alice"; Db.c_started_at := 300;
                   Db.c_ended_at := None; Db.c_call_type := Db.AudioCall;
                   Db.c_status := Db.Ringing |} 310
                eq_refl eq_refl eq_refl))) eq_refl)).
  reflexivity.
Defined.

(** X17.  [call_user] always sends [incoming_call] to the resolved target,
    and [call_ringing] back to the caller exactly when that target is a
    connected socket.  For a registered caller who is a user of the
    database, a stored room and a fresh call id it stores a [ringing] call
    of the room started by the caller, with the caller as its first
    participant (not answered), and makes it the active call of the room;
    without a room id it stores nothing. *)
Theorem call_user_rings :
  forall (st : Hub.t) (sid userToCall : string) (signalData : json)
         (callerName : option string) (isVideoCall : bool)
         (roomId : option string) (new_id : string) (now : Z),
    let st' := fst (Hub.call_user st sid userToCall signalData callerName
                      isVideoCall roomId new_id now) in
    let target := Hub.targetSocketId (Hub.connectedUsers st) userToCall in
    let incoming :=
      Hub.ToSocket target "incoming_call"
        (JObj [("signal", signalData); ("from", JStr sid);
               ("callerName", jopt callerName);
               ("isVideoCall", JBool isVideoCall)]) in
    snd (Hub.call_user st sid userToCall signalData callerName isVideoCall
           roomId new_id now)
    = (if JsMap.has (Hub.connectedUsers st) target
       then [incoming; Hub.ToSocket sid "call_ringing" JNull]
       else [incoming])
    /\ (truthy roomId = false -> st' = st)
    /\ (forall rid uid,
           roomId = Some rid -> rid <> "" ->
           Hub.session_user st sid = Some uid ->
           Db.user_exists (Hub.db st) uid = true ->
           Db.room_exists (Hub.db st) rid = true ->
           Db.call_exists (Hub.db st) new_id = false ->
           CallQueries.findById (Hub.db st') new_id
           = Some {| Db.c_id := new_id; Db.c_room_id := rid;
                     Db.c_initiator_id := Some uid; Db.c_started_at := now;
                     Db.c_ended_at := None;
                     Db.c_call_type :=
                       if isVideoCall then Db.VideoCall else Db.AudioCall;
                     Db.c_status := Db.Ringing |}
           /\ JsMap.get (Hub.activeCalls st') rid = Some new_id
           /\ Db.call_participants (Hub.db st')
              = (Db.call_participants (Hub.db st)
                   ++ [{| Db.cp_call_id := new_id; Db.cp_user_id := uid;
                          Db.cp_joined_at := now; Db.cp_left_at := None;
                          Db.cp_answered := false |}])%list).
Proof.
  intros st sid userToCall signalData callerName isVideoCall roomId new_id now
         st' target incoming.
  split; [|split].
  - unfold Hub.call_user. cbn [snd]. fold target. fold incoming.
    destruct (JsMap.has (Hub.connectedUsers st) target); reflexivity.
  - intros Hfalsy. subst st'. unfold Hub.call_user. cbn [fst].
    destruct roomId as [rid|]; [|reflexivity].
    destruct (Hub.session_user st sid); [|reflexivity].
    rewrite Hfalsy. reflexivity.
  - intros rid uid -> Hrid Huser Hu Hr Hnew. subst st'.
    unfold Hub.call_user. cbn [fst]. rewrite Huser.
    assert (Htruthy : truthy (Some rid) = true).
    { cbn [truthy]. rewrite (eqb_false rid "" Hrid). reflexivity. }
    rewrite Htruthy. unfold CallQueries.create.
    rewrite Hnew, Hr, Hu. cbn [orb negb Db.c_id].
    unfold CallQueries.addParticipant.
    assert (Hexists : Db.call_exists
                        (Db.with_calls (Hub.db st)
                           (Db.calls (Hub.db st)
                              ++ [{| Db.c_id := new_id; Db.c_room_id := rid;
                                     Db.c_initiator_id := Some uid;
                                     Db.c_started_at := now;
                                     Db.c_ended_at := None;
                                     Db.c_call_type :=
                                       if isVideoCall then Db.VideoCall
                                       else Db.AudioCall;
                                     Db.c_status := Db.Ringing |}])%list)
                        new_id = true).
    { unfold Db.call_exists. cbn [Db.calls Db.with_calls].
      rewrite existsb_app. cbn [existsb Db.c_id]. rewrite eqb_same.
      apply orb_true_iff. right. reflexivity. }
    rewrite Hexists.
    change (Db.user_exists (Db.with_calls (Hub.db st) _) uid)
      with (Db.user_exists (Hub.db st) uid).
    rewrite Hu. cbn [andb Hub.db Hub.activeCalls].
    split; [|split; [apply get_set_same | reflexivity]].
    unfold CallQueries.findById.
    cbn [Db.calls Db.with_calls Db.with_call_participants].
    apply find_last; [|apply eqb_same].
    intros y Hy. unfold Db.call_exists in Hnew.
    destruct (Db.c_id y =? new_id) eqn:E; [|reflexivity].
    rewrite <- Hnew. symmetry. apply existsb_exists. exists y. split; assumption.
Qed.

Lemma call_user_rings_witness :
  CallQueries.findById (Hub.db ringing) "c1"
  = Some {| Db.c_id := "c1"; Db.c_room_id := "r1";
            Db.c_initiator_id := Some "u-alice"; Db.c_started_at := 300;
            Db.c_ended_at := None; Db.c_call_type := Db.AudioCall;
            Db.c_status := Db.Ringing |}
  /\ JsMap.get (Hub.activeCalls ringing) "r1" = Some "c1".
Proof.
  destruct (proj2 (proj2
              (call_user_rings sample_hub "s-alice" "u-bob" JNull (Some "alice")
                 false (Some "r1") "c1" 300))
              "r1" "u-alice" eq_refl) as [H1 [H2 _]];
    try reflexivity; try discriminate.
  split; [exact H1 | exact H2].
Defined.

(** X18.  [reject_call] for a room with an active call stores the call as
    [rejected] with [ended_at] set to the time of the update and drops the
    room's entry of [activeCalls]; with or without an active call it sends
    one [call_rejected] to the resolved target, and without one the state
    is unchanged. *)
Theorem reject_call_rejects :
  forall (st : Hub.t) (to : string) (roomId : option string) (now : Z),
    let st' := fst (Hub.reject_call st to roomId now) in
    snd (Hub.reject_call st to roomId now)
    = [Hub.ToSocket (Hub.targetSocketId (Hub.connectedUsers st) to)
         "call_rejected" JNull]
    /\ (Hub.active_call st roomId = None -> st' = st)
    /\ (forall rid callId c,
           Hub.active_call st roomId = Some (rid, callId) ->
           CallQueries.findById (Hub.db st) callId = Some c ->
           CallQueries.findById (Hub.db st') callId
           = Some (CallQueries.set_call_status Db.Rejected_call now c)
           /\ Db.c_status (CallQueries.set_call_status Db.Rejected_call now c)
              = Db.Rejected_call
           /\ Db.c_ended_at (CallQueries.set_call_status Db.Rejected_call now c)
              = Some now
           /\ JsMap.get (Hub.activeCalls st') rid = None).
Proof.
  intros st to roomId now st'. subst st'. unfold Hub.reject_call. cbn [fst snd].
  split; [reflexivity|]. split.
  - intros ->. reflexivity.
  - intros rid callId c -> Hc. cbn [Hub.db Hub.activeCalls].
    split; [apply updateStatus_row; exact Hc|].
    split; [reflexivity|]. split; [reflexivity|]. apply get_delete_same.
Qed.

Lemma reject_call_rejects_witness :
  option_map (fun c => (Db.c_status c, Db.c_ended_at c))
    (CallQueries.findById
       (Hub.db (fst (Hub.reject_call ringing "s-alice" (Some "r1") 320))) "c1")
  = Some (Db.Rejected_call, Some 320).
Proof.
  rewrite (proj1 (proj2 (proj2
             (reject_call_rejects ringing "s-alice" (Some "r1") 320))
             "r1" "c1"
             {| Db.c_id := "c1"; Db.c_room_id := "r1";
                Db.c_initiator_id := Some "u-alice"; Db.c_started_at := 300;
                Db.c_ended_at := None; Db.c_call_type := Db.AudioCall;
                Db.c_status := Db.Ringing |} eq_refl eq_refl)).
  reflexivity.
Defined.

(** X19.  Where an event addressed to [to] goes: to [to] itself when it is
    a connected socket id; otherwise to a connected socket registered for
    the user [to], the first one in the order of registration; and when
    there is none, to [to], which is then no connected socket and no
    registered user. *)
Theorem target_is_a_session_of_the_user :
  forall (m : JsMap.t Hub.session) (to : string),
    let target := Hub.targetSocketId m to in
    (JsMap.has m to = true -> target = to)
    /\ (JsMap.has m to = false ->
        (exists s before after,
            m = (before ++ (target, s) :: after)%list
            /\ Hub.userId s = Some to
            /\ forall sid' s', In (sid', s') before -> Hub.userId s' <> Some to)
        \/ (target = to
            /\ forall sid' s', In (sid', s') m -> Hub.userId s' <> Some to)).
Proof.
  intros m to target. subst target. unfold Hub.targetSocketId.
  split; [intros ->; reflexivity|].
  intros ->. unfold Hub.resolveSocketId.
  assert (Huser : forall s, Hub.is_user to s = true <-> Hub.userId s = Some to).
  { intros s. unfold Hub.is_user. destruct (Hub.userId s) as [x|].
    - rewrite String.eqb_eq. split; [intros ->; reflexivity | intros [= ->]; reflexivity].
    - split; discriminate. }
  induction m as [|[sid s] m IH]; cbn [find option_map snd].
  - right. split; [reflexivity | intros sid' s' []].
  - destruct (Hub.is_user to s) eqn:E.
    + left. exists s, [], m. cbn [option_map fst app].
      split; [reflexivity|]. split; [apply Huser; exact E | intros sid' s' []].
    + assert (Hs : Hub.userId s <> Some to).
      { intros H. apply Huser in H. congruence. }
      destruct IH as [[s0 [before [after [Hm [Hu Hb]]]]] | [Ht Hall]].
      * left. exists s0, ((sid, s) :: before)%list, after.
        split; [cbn [app]; rewrite <- Hm; reflexivity|].
        split; [exact Hu|].
        intros sid' s' [H | H]; [injection H as <- <-; exact Hs|].
        apply (Hb sid' s' H).
      * right. split; [exact Ht|].
        intros sid' s' [H | H]; [injection H as <- <-; exact Hs|].
        apply (Hall sid' s' H).
Qed.

Lemma target_is_a_session_of_the_user_witness :
  Hub.targetSocketId (Hub.connectedUsers two_devices) "u-bob" = "s-bob".
Proof.
  destruct (proj2 (target_is_a_session_of_the_user
                     (Hub.connectedUsers two_devices) "u-bob") eq_refl)
    as [[s [before [after [Hm [Hu Hb]]]]] | [_ Hall]].
  - reflexivity.
  - exfalso.
    apply (Hall "s-bob" (sample_session "s-bob" "u-bob" "bob"));
      [vm_compute; tauto | reflexivity].
Defined.

(** ** Participants of rooms *)

Lemma getParticipants_In (d : Db.t) (roomId : string) (p : RoomQueries.participant) :
  In p (RoomQueries.getParticipants d roomId)
  <-> exists rp u,
        In rp (Db.room_participants d) /\ Db.rp_room_id rp = roomId
        /\ Db.rp_left_at rp = None
        /\ In u (Db.users d) /\ Db.u_id u = Db.rp_user_id rp
        /\ p = participant_of u rp.
Proof.
  unfold RoomQueries.getParticipants. rewrite order_by_In, in_flat_map.
  split.
  - intros [rp [Hrp Hp]].
    destruct (Db.rp_room_id rp =? roomId) eqn:Er; [|destruct Hp].
    destruct (Db.rp_left_at rp) eqn:El; [destruct Hp|]. cbn [andb] in Hp.
    apply in_map_iff in Hp. destruct Hp as [u [<- Hu]].
    apply filter_In in Hu. destruct Hu as [Hu Hid].
    exists rp, u. repeat split; try assumption.
    + apply eqb_true. exact Er.
    + apply eqb_true. exact Hid.
  - intros [rp [u (Hrp & Hr & Hl & Hu & Hid & ->)]].
    exists rp. split; [exact Hrp|].
    rewrite Hr, eqb_same, Hl. cbn [andb].
    apply in_map_iff. exists u. split; [reflexivity|].
    apply filter_In. split; [exact Hu|]. rewrite Hid. apply eqb_same.
Qed.

Lemma listed_in_iff (d : Db.t) (roomId userId : string) :
  listed_in d roomId userId
  <-> Db.user_exists d userId = true
      /\ exists rp, In rp (Db.room_participants d)
                    /\ Db.rp_room_id rp = roomId
                    /\ Db.rp_user_id rp = userId
                    /\ Db.rp_left_at rp = None.
Proof.
  unfold listed_in. rewrite in_map_iff. split.
  - intros [p [Hid Hp]]. apply getParticipants_In in Hp.
    destruct Hp as [rp [u (Hrp & Hr & Hl & Hu & Hu' & ->)]].
    cbn [participant_of RoomQueries.p_id] in Hid. subst userId.
    split.
    + unfold Db.user_exists. apply existsb_exists. exists u.
      split; [exact Hu | apply eqb_same].
    + exists rp. repeat split; try assumption. symmetry. exact Hu'.
  - intros [Hex [rp (Hrp & Hr & Hu & Hl)]].
    unfold Db.user_exists in Hex. apply existsb_exists in Hex.
    destruct Hex as [u [Hin Hid]]. apply eqb_true in Hid.
    exists (participant_of u rp). split; [exact Hid|].
    apply getParticipants_In. exists rp, u.
    repeat split; try assumption. congruence.
Qed.

Lemma same_member_iff (roomId userId : string) (rp : Db.room_participant) :
  RoomQueries.same_member roomId userId rp = true
  <-> Db.rp_room_id rp = roomId /\ Db.rp_user_id rp = userId.
Proof.
  unfold RoomQueries.same_member.
  rewrite andb_true_iff, !String.eqb_eq. reflexivity.
Qed.

(** X20.  Leaving and rejoining a room.  After [removeParticipant] the
    user is no longer listed among the participants of the room, and the
    listing of every other room and of every other user is as before.
    [addParticipant] for a pair that already has a row makes the user
    listed again with the role and the join time of the stored row: the
    role passed to it is not used. *)
Theorem leaving_and_rejoining :
  forall (d : Db.t) (roomId userId : string) (role : Db.participant_role)
         (now : Z),
    let left := RoomQueries.removeParticipant d roomId userId now in
    let back := snd (RoomQueries.addParticipant left roomId userId role now) in
    ~ listed_in left roomId userId
    /\ (forall rid uid, rid <> roomId \/ uid <> userId ->
                        (listed_in left rid uid <-> listed_in d rid uid))
    /\ (RoomQueries.has_participant d roomId userId = true ->
        forall p,
          In p (RoomQueries.getParticipants back roomId) ->
          RoomQueries.p_id p = userId ->
          exists rp, In rp (Db.room_participants d)
                     /\ Db.rp_room_id rp = roomId /\ Db.rp_user_id rp = userId
                     /\ RoomQueries.p_role p = Db.rp_role rp
                     /\ RoomQueries.p_joined_at p = Db.rp_joined_at rp)
    /\ (RoomQueries.has_participant d roomId userId = true ->
        Db.user_exists d userId = true ->
        listed_in back roomId userId).
Proof.
  intros d roomId userId role now left back.
  assert (Hleft : forall rp',
             In rp' (Db.room_participants left)
             <-> exists rp, In rp (Db.room_participants d)
                            /\ rp' = if RoomQueries.same_member roomId userId rp
                                        && match Db.rp_left_at rp with
                                           | None => true
                                           | Some _ => false
                                           end
                                     then RoomQueries.set_left_at (Some now) rp
                                     else rp).
  { intros rp'. subst left. unfold RoomQueries.removeParticipant.
    cbn [Db.room_participants Db.with_rooms]. rewrite in_map_iff.
    split; intros [rp [H1 H2]]; exists rp; split; auto. }
  assert (Hhas : RoomQueries.has_participant d roomId userId = true ->
                 RoomQueries.has_participant left roomId userId = true).
  { unfold RoomQueries.has_participant. intros H.
    apply existsb_exists in H. destruct H as [rp [Hrp Hk]].
    apply existsb_exists.
    exists (if RoomQueries.same_member roomId userId rp
               && match Db.rp_left_at rp with None => true | Some _ => false end
            then RoomQueries.set_left_at (Some now) rp else rp).
    split; [apply Hleft; exists rp; split; [exact Hrp | reflexivity]|].
    destruct (RoomQueries.same_member roomId userId rp
              && match Db.rp_left_at rp with None => true | Some _ => false end);
      exact Hk. }
  assert (Hback : RoomQueries.has_participant d roomId userId = true ->
                  forall rp'',
                    In rp'' (Db.room_participants back)
                    <-> exists rp', In rp' (Db.room_participants left)
                                    /\ rp'' = if RoomQueries.same_member roomId userId rp'
                                              then RoomQueries.set_left_at None rp'
                                              else rp').
  { intros H rp''. subst back. unfold RoomQueries.addParticipant.
    rewrite (Hhas H). cbn [snd Db.room_participants Db.with_rooms].
    rewrite in_map_iff.
    split; intros [rp [H1 H2]]; exists rp; split; auto. }
  split; [|split; [|split]].
  - intros H. apply listed_in_iff in H.
    destruct H as [_ [rp' (Hrp' & Hr & Hu & Hl)]].
    apply Hleft in Hrp'. destruct Hrp' as [rp [Hrp ->]].
    destruct (RoomQueries.same_member roomId userId rp) eqn:Ek.
    + destruct (Db.rp_left_at rp) eqn:El; cbn [andb] in *.
      * congruence.
      * discriminate Hl.
    + cbn [andb] in *.
      assert (RoomQueries.same_member roomId userId rp = true)
        by (apply same_member_iff; split; assumption).
      congruence.
  - intros rid uid Hne. rewrite !listed_in_iff.
    assert (Hu : Db.user_exists left uid = Db.user_exists d uid) by reflexivity.
    rewrite Hu. split; intros [Hex [rp (Hrp & Hr & Hu' & Hl)]];
      (split; [exact Hex|]).
    + apply Hleft in Hrp. destruct Hrp as [rp0 [Hrp0 ->]].
      destruct (RoomQueries.same_member roomId userId rp0) eqn:Ek.
      * apply same_member_iff in Ek. destruct Ek as [Ek1 Ek2].
        destruct (Db.rp_left_at rp0) eqn:El; cbn [andb] in *.
        -- exists rp0. repeat split; assumption.
        -- discriminate Hl.
      * cbn [andb] in *. exists rp0. repeat split; assumption.
    + exists rp. split; [|repeat split; assumption].
      apply Hleft. exists rp. split; [exact Hrp|].
      destruct (RoomQueries.same_member roomId userId rp) eqn:Ek;
        [|reflexivity].
      apply same_member_iff in Ek. destruct Ek as [Ek1 Ek2].
      exfalso. destruct Hne as [Hne | Hne]; apply Hne; congruence.
  - intros H p Hp Hid. apply getParticipants_In in Hp.
    destruct Hp as [rp'' [u (Hrp'' & Hr & Hl & Hu & Hu' & ->)]].
    cbn [participant_of RoomQueries.p_id RoomQueries.p_role
         RoomQueries.p_joined_at] in *.
    apply (Hback H) in Hrp''. destruct Hrp'' as [rp' [Hrp' ->]].
    apply Hleft in Hrp'. destruct Hrp' as [rp [Hrp ->]].
    exists rp. split; [exact Hrp|].
    repeat match goal with
           | |- context [if ?b then _ else _] => destruct b
           | H : context [if ?b then _ else _] |- _ => destruct b
           end;
      cbn [RoomQueries.set_left_at Db.rp_room_id Db.rp_user_id Db.rp_role
           Db.rp_joined_at] in *;
      repeat split; congruence.
  - intros H Hex. apply listed_in_iff.
    split.
    { assert (Hu : Db.users back = Db.users d).
      { subst back. unfold RoomQueries.addParticipant.
        rewrite (Hhas H). reflexivity. }
      unfold Db.user_exists. rewrite Hu. exact Hex. }
    pose proof (Hhas H) as H'. unfold RoomQueries.has_participant in H'.
    apply existsb_exists in H'. destruct H' as [rp' [Hrp' Hk]].
    exists (RoomQueries.set_left_at None rp').
    split.
    + apply (Hback H). exists rp'. split; [exact Hrp'|].
      fold (RoomQueries.same_member roomId userId rp') in Hk.
      rewrite Hk. reflexivity.
    + fold (RoomQueries.same_member roomId userId rp') in Hk.
      apply same_member_iff in Hk. destruct Hk as [Hk1 Hk2].
      repeat split; assumption.
Qed.

Lemma leaving_and_rejoining_witness :
  ~ listed_in (RoomQueries.removeParticipant sample_db "r1" "u-bob" 50)
      "r1" "u-bob"
  /\ listed_in
       (snd (RoomQueries.addParticipant
               (RoomQueries.removeParticipant sample_db "r1" "u-bob" 50)
               "r1" "u-bob" Db.PAdmin 50))
       "r1" "u-bob".
Proof.
  split.
  - apply (leaving_and_rejoining sample_db "r1" "u-bob" Db.PAdmin 50).
  - apply (proj2 (proj2 (proj2
             (leaving_and_rejoining sample_db "r1" "u-bob" Db.PAdmin 50))));
      reflexivity.
Defined.

(** ** Groups *)

Lemma group_members_ext (d : Db.t) (roomId creator : string)
    (S S' : string -> Prop) :
  (forall u, S u <-> S' u) ->
  group_members d roomId creator S -> group_members d roomId creator S'.
Proof.
  intros He [Ha Hb]. split.
  - intros rp Hrp Hr. destruct (Ha rp Hrp Hr) as (H1 & H2 & H3 & H4).
    repeat split; try assumption.
    destruct H4 as [H4 | H4]; [left; exact H4 | right; apply He; exact H4].
  - intros u [Hu | Hu]; apply Hb; [left; exact Hu | right; apply He; exact Hu].
Qed.

Lemma has_participant_iff (d : Db.t) (roomId userId : string) :
  RoomQueries.has_participant d roomId userId = true
  <-> exists rp, In rp (Db.room_participants d)
                 /\ Db.rp_room_id rp = roomId /\ Db.rp_user_id rp = userId.
Proof.
  unfold RoomQueries.has_participant. rewrite existsb_exists.
  split; intros [rp [Hrp Hk]]; exists rp; (split; [exact Hrp|]).
  - apply (same_member_iff roomId userId rp). exact Hk.
  - apply (same_member_iff roomId userId rp). exact Hk.
Qed.

(** One insert of a member into a group room. *)
Lemma add_member_step (d : Db.t) (roomId creator m : string)
    (S : string -> Prop) (now : Z) :
  group_members d roomId creator S ->
  Db.room_exists d roomId = true ->
  let res := RoomQueries.addParticipant d roomId m Db.PMember now in
  Db.users (snd res) = Db.users d
  /\ Db.rooms (snd res) = Db.rooms d
  /\ (Db.user_exists d m = true ->
      (exists r, fst res = Ok r)
      /\ group_members (snd res) roomId creator (fun u => u = m \/ S u))
  /\ (Db.user_exists d m = false ->
      (exists e, fst res = Throw e) /\ snd res = d).
Proof.
  intros [Ha Hb] Hroom res. subst res. unfold RoomQueries.addParticipant.
  destruct (RoomQueries.has_participant d roomId m) eqn:Hhas.
  - apply has_participant_iff in Hhas. destruct Hhas as [rp0 (Hrp0 & Hr0 & Hu0)].
    destruct (Ha rp0 Hrp0 Hr0) as (_ & _ & Hex0 & _). rewrite Hu0 in Hex0.
    cbn [fst snd Db.users Db.rooms Db.with_rooms].
    split; [reflexivity|]. split; [reflexivity|].
    split; [|intros H; congruence].
    intros _. split; [eexists; reflexivity|].
    split.
    + intros rp' Hrp' Hr'. cbn [Db.room_participants Db.with_rooms] in Hrp'.
      apply in_map_iff in Hrp'. destruct Hrp' as [rp [<- Hrp]].
      assert (Hr : Db.rp_room_id rp = roomId).
      { destruct (RoomQueries.same_member roomId m rp); exact Hr'. }
      destruct (Ha rp Hrp Hr) as (H1 & H2 & H3 & H4).
      assert (H4' : Db.rp_user_id rp = creator \/ Db.rp_user_id rp = m
                    \/ S (Db.rp_user_id rp)) by tauto.
      destruct (RoomQueries.same_member roomId m rp);
        cbn [RoomQueries.set_left_at Db.rp_left_at Db.rp_role Db.rp_user_id];
        repeat split; assumption.
    + intros u Hu. cbn [Db.room_participants Db.with_rooms].
      assert (Hold : exists rp, In rp (Db.room_participants d)
                                /\ Db.rp_room_id rp = roomId
                                /\ Db.rp_user_id rp = u).
      { destruct Hu as [Hu | [Hu | Hu]].
        - apply Hb. left. exact Hu.
        - subst u. exists rp0. repeat split; assumption.
        - apply Hb. right. exact Hu. }
      destruct Hold as [rp (Hrp & Hr & Hu')].
      exists (if RoomQueries.same_member roomId m rp
              then RoomQueries.set_left_at None rp else rp).
      split; [apply in_map_iff; exists rp; split; [reflexivity | exact Hrp]|].
      destruct (RoomQueries.same_member roomId m rp); split; assumption.
  - rewrite Hroom. cbn [andb].
    destruct (Db.user_exists d m) eqn:Hm.
    + cbn [fst snd Db.users Db.rooms Db.with_rooms].
      split; [reflexivity|]. split; [reflexivity|].
      split; [|discriminate]. intros _. split; [eexists; reflexivity|].
      assert (Hne : m <> creator).
      { intros ->. destruct (Hb creator (or_introl eq_refl)) as [rp H].
        assert (Hh : RoomQueries.has_participant d roomId creator = true)
          by (apply has_participant_iff; exists rp; exact H).
        congruence. }
      split.
      * intros rp' Hrp' Hr'. cbn [Db.room_participants Db.with_rooms] in Hrp'.
        apply in_app_or in Hrp'. destruct Hrp' as [Hrp' | [<- | []]].
        -- destruct (Ha rp' Hrp' Hr') as (H1 & H2 & H3 & H4).
           repeat split; try assumption. tauto.
        -- cbn [Db.rp_left_at Db.rp_role Db.rp_user_id].
           rewrite (eqb_false m creator Hne).
           repeat split; try reflexivity; [exact Hm | right; left; reflexivity].
      * intros u Hu. cbn [Db.room_participants Db.with_rooms].
        destruct Hu as [Hu | [Hu | Hu]].
        -- destruct (Hb u (or_introl Hu)) as [rp (Hrp & H)].
           exists rp. split; [apply in_or_app; left; exact Hrp | exact H].
        -- subst u. eexists. split; [apply in_or_app; right; left; reflexivity|].
           split; reflexivity.
        -- destruct (Hb u (or_intror Hu)) as [rp (Hrp & H)].
           exists rp. split; [apply in_or_app; left; exact Hrp | exact H].
    + cbn [fst snd]. split; [reflexivity|]. split; [reflexivity|].
      split; [discriminate|]. intros _. split; [eexists|]; reflexivity.
Qed.

Lemma add_members_result (ids : list string) :
  forall (d : Db.t) (roomId creator : string) (S : string -> Prop) (now : Z),
    group_members d roomId creator S ->
    Db.room_exists d roomId = true ->
    let res := Hub.add_members d roomId ids now in
    Db.users (snd res) = Db.users d
    /\ Db.rooms (snd res) = Db.rooms d
    /\ group_members (snd res) roomId creator
         (fun u => S u \/ (In u ids /\ Db.user_exists d u = true))
    /\ (fst res = None <-> forall m, In m ids -> Db.user_exists d m = true).
Proof.
  induction ids as [|m ids IH]; intros d roomId creator S now Hg Hroom res;
    subst res.
  - cbn [Hub.add_members fst snd]. split; [reflexivity|]. split; [reflexivity|].
    split.
    + apply (group_members_ext d roomId creator S); [|exact Hg].
      intros u. cbn [In]. tauto.
    + split; [intros _ m [] | reflexivity].
  - cbn [Hub.add_members].
    destruct (add_member_step d roomId creator m S now Hg Hroom)
      as (Husers & Hrooms & Hok & Hfail).
    destruct (RoomQueries.addParticipant d roomId m Db.PMember now)
      as [r d1] eqn:Eadd.
    cbn [fst snd] in Husers, Hrooms, Hok, Hfail.
    assert (Hex : forall u, Db.user_exists d1 u = Db.user_exists d u).
    { intros u. unfold Db.user_exists. rewrite Husers. reflexivity. }
    assert (Hroom1 : Db.room_exists d1 roomId = true).
    { unfold Db.room_exists in *. rewrite Hrooms. exact Hroom. }
    destruct (Db.user_exists d m) eqn:Hm.
    + destruct (Hok eq_refl) as [[r0 ->] Hg1].
      specialize (IH d1 roomId creator (fun u => u = m \/ S u) now Hg1 Hroom1).
      destruct (Hub.add_members d1 roomId ids now) as [failed d2].
      cbn [fst snd] in IH |- *.
      destruct IH as (Hu2 & Hr2 & Hg2 & Hf2).
      split; [congruence|]. split; [congruence|]. split.
      * apply (group_members_ext d2 roomId creator
                 (fun u => (u = m \/ S u)
                           \/ (In u ids /\ Db.user_exists d1 u = true)));
          [|exact Hg2].
        intros u. rewrite Hex. cbn [In]. split.
        -- intros [[-> | H] | [H1 H2]]; [right; split; [left; reflexivity | exact Hm] | tauto | tauto].
        -- intros [H | [[<- | H1] H2]]; tauto.
      * rewrite Hf2. split.
        -- intros H x [<- | Hx]; [exact Hm | rewrite <- Hex; apply H; exact Hx].
        -- intros H x Hx. rewrite Hex. apply H. right. exact Hx.
    + destruct (Hfail eq_refl) as [[e ->] ->].
      specialize (IH d roomId creator S now Hg Hroom).
      destruct (Hub.add_members d roomId ids now) as [failed d2].
      cbn [fst snd] in IH |- *.
      destruct IH as (Hu2 & Hr2 & Hg2 & Hf2).
      split; [exact Hu2|]. split; [exact Hr2|]. split.
      * apply (group_members_ext d2 roomId creator
                 (fun u => S u \/ (In u ids /\ Db.user_exists d u = true)));
          [|exact Hg2].
        intros u. cbn [In]. split; [tauto|].
        intros [H | [[<- | H1] H2]]; [tauto | congruence | tauto].
      * split; [discriminate|]. intros H.
        specialize (H m (or_introl eq_refl)). congruence.
Qed.

(** The group room once it is stored with its creator. *)
Lemma group_started (d : Db.t) (new_id creator : string) (name : option string)
    (now : Z) :
  participants_reference_rooms d ->
  Db.room_exists d new_id = false ->
  Db.user_exists d creator = true ->
  exists room d1 r d2,
    RoomQueries.create d new_id Db.Group name (Some creator) now = (Ok room, d1)
    /\ RoomQueries.addParticipant d1 (Db.r_id room) creator Db.PAdmin now
       = (Ok r, d2)
    /\ Db.r_id room = new_id /\ Db.r_type room = Db.Group
    /\ Db.r_created_by room = Some creator
    /\ Db.users d2 = Db.users d
    /\ Db.room_exists d2 new_id = true
    /\ group_members d2 new_id creator (fun _ => False).
Proof.
  intros Href Hnew Hc. unfold RoomQueries.create.
  rewrite Hnew, Hc. cbn [orb negb].
  assert (Hnone : forall rp, In rp (Db.room_participants d) ->
                             Db.rp_room_id rp <> new_id).
  { intros rp Hrp Hr. pose proof (Href rp Hrp) as H. rewrite Hr in H.
    congruence. }
  assert (Hhas : RoomQueries.has_participant
                   (Db.with_rooms d
                      (Db.rooms d
                         ++ [{| Db.r_id := new_id; Db.r_type := Db.Group;
                                Db.r_name := if truthy name then name else None;
                                Db.r_created_at := now;
                                Db.r_created_by := Some creator |}])%list
                      (Db.room_participants d)) new_id creator = false).
  { destruct (RoomQueries.has_participant _ new_id creator) eqn:E;
      [|reflexivity].
    apply has_participant_iff in E. destruct E as [rp (Hrp & Hr & _)].
    exfalso. apply (Hnone rp Hrp Hr). }
  assert (Hroom : forall rows,
             Db.room_exists
               (Db.with_rooms d
                  (Db.rooms d
                     ++ [{| Db.r_id := new_id; Db.r_type := Db.Group;
                            Db.r_name := if truthy name then name else None;
                            Db.r_created_at := now;
                            Db.r_created_by := Some creator |}])%list
                  rows) new_id = true).
  { intros rows. unfold Db.room_exists. cbn [Db.rooms Db.with_rooms].
    rewrite existsb_app. cbn [existsb Db.r_id]. rewrite eqb_same.
    apply orb_true_iff. right. reflexivity. }
  exists {| Db.r_id := new_id; Db.r_type := Db.Group;
            Db.r_name := if truthy name then name else None;
            Db.r_created_at := now; Db.r_created_by := Some creator |}.
  eexists. unfold RoomQueries.addParticipant. cbn [Db.r_id].
  rewrite Hhas, (Hroom (Db.room_participants d)).
  change (Db.user_exists (Db.with_rooms d _ _) creator)
    with (Db.user_exists d creator).
  rewrite Hc. cbn [andb]. eexists. eexists.
  split; [reflexivity|]. split; [reflexivity|].
  split; [reflexivity|]. split; [reflexivity|]. split; [reflexivity|].
  split; [reflexivity|]. split; [apply Hroom|].
  split.
  - intros rp Hrp Hr. cbn [Db.room_participants Db.with_rooms] in Hrp.
    apply in_app_or in Hrp. destruct Hrp as [Hrp | [<- | []]].
    + exfalso. apply (Hnone rp Hrp Hr).
    + cbn [Db.rp_left_at Db.rp_role Db.rp_user_id]. rewrite eqb_same.
      repeat split; try reflexivity; [exact Hc | left; reflexivity].
  - intros u [-> | []]. eexists.
    split; [cbn [Db.room_participants Db.with_rooms];
            apply in_or_app; right; left; reflexivity|].
    split; reflexivity.
Qed.

Lemma group_members_listed (d : Db.t) (roomId creator : string)
    (S : string -> Prop) :
  group_members d roomId creator S ->
  (forall uid, listed_in d roomId uid <-> uid = creator \/ S uid)
  /\ (forall p, In p (RoomQueries.getParticipants d roomId) ->
                RoomQueries.p_role p
                = if RoomQueries.p_id p =? creator then Db.PAdmin else Db.PMember).
Proof.
  intros [Ha Hb]. split.
  - intros uid. rewrite listed_in_iff. split.
    + intros [_ [rp (Hrp & Hr & Hu & _)]].
      destruct (Ha rp Hrp Hr) as (_ & _ & _ & H). rewrite Hu in H. exact H.
    + intros Hu. destruct (Hb uid Hu) as [rp (Hrp & Hr & Hu')].
      destruct (Ha rp Hrp Hr) as (Hl & _ & Hex & _). rewrite Hu' in Hex.
      split; [exact Hex|]. exists rp. repeat split; assumption.
  - intros p Hp. apply getParticipants_In in Hp.
    destruct Hp as [rp [u (Hrp & Hr & Hl & Hu & Hid & ->)]].
    cbn [participant_of RoomQueries.p_role RoomQueries.p_id].
    destruct (Ha rp Hrp Hr) as (_ & Hrole & _ & _).
    rewrite Hid. exact Hrole.
Qed.

(** X21.  [create_group] by a stored user, with stored users as members
    and a fresh room id, acknowledges the new group room with its
    participants: exactly the creator and the members are listed, the
    creator as [admin] and everyone else as [member], also when the
    creator is named among the members or a member is named twice. *)
Theorem create_group_lists_its_members :
  forall (st : Hub.t) (name : option string) (ids : list string)
         (creator new_id : string) (now : Z),
    participants_reference_rooms (Hub.db st) ->
    Db.room_exists (Hub.db st) new_id = false ->
    Db.user_exists (Hub.db st) creator = true ->
    (forall m, In m ids -> Db.user_exists (Hub.db st) m = true) ->
    exists ack,
      snd (Hub.create_group st name (Some ids) (Some creator) new_id now)
      = Ok ack
      /\ Db.r_id (Hub.ga_room ack) = new_id
      /\ Db.r_type (Hub.ga_room ack) = Db.Group
      /\ Db.r_created_by (Hub.ga_room ack) = Some creator
      /\ (forall uid,
             In uid (map RoomQueries.p_id (Hub.ga_participants ack))
             <-> uid = creator \/ In uid ids)
      /\ (forall p, In p (Hub.ga_participants ack) ->
                    RoomQueries.p_role p
                    = if RoomQueries.p_id p =? creator
                      then Db.PAdmin else Db.PMember).
Proof.
  intros st name ids creator new_id now Href Hnew Hc Hids.
  destruct (group_started (Hub.db st) new_id creator name now Href Hnew Hc)
    as [room [d1 [r [d2 (Hcreate & Hadd & Hid & Hty & Hby & Hu2 & Hr2 & Hg2)]]]].
  unfold Hub.create_group. rewrite Hcreate, Hadd, Hid.
  assert (Hex : forall u, Db.user_exists d2 u = Db.user_exists (Hub.db st) u).
  { intros u. unfold Db.user_exists. rewrite Hu2. reflexivity. }
  destruct (add_members_result ids d2 new_id creator (fun _ => False) now
              Hg2 Hr2) as (_ & _ & Hg3 & Hf3).
  destruct (Hub.add_members d2 new_id ids now) as [failed d3].
  cbn [fst snd] in Hg3, Hf3.
  assert (Hnone : failed = None).
  { apply Hf3. intros m Hm. rewrite Hex. apply Hids. exact Hm. }
  rewrite Hnone. cbn [snd]. eexists. split; [reflexivity|].
  cbn [Hub.ga_room Hub.ga_participants].
  split; [exact Hid|]. split; [exact Hty|]. split; [exact Hby|].
  destruct (group_members_listed d3 new_id creator _ Hg3) as [Hlist Hrole].
  split; [|exact Hrole].
  intros uid. change (listed_in d3 new_id uid <-> uid = creator \/ In uid ids).
  rewrite Hlist. split.
  - intros [H | [[] | [H _]]]; [left | right]; exact H.
  - intros [H | H]; [left; exact H|]. right. right.
    split; [exact H|]. rewrite Hex. apply Hids. exact H.
Qed.

Lemma create_group_lists_its_members_witness :
  exists ack,
    snd (Hub.create_group sample_hub (Some "friends")
           (Some ["u-bob"; "u-alice"; "u-bob"]) (Some "u-alice") "g1" 600)
    = Ok ack
    /\ map (fun p => (RoomQueries.p_id p, RoomQueries.p_role p))
           (Hub.ga_participants ack)
       = [("u-alice", Db.PAdmin); ("u-bob", Db.PMember)].
Proof.
  destruct (create_group_lists_its_members sample_hub (Some "friends")
              ["u-bob"; "u-alice"; "u-bob"] "u-alice" "g1" 600)
    as [ack [Hack _]].
  - intros rp [<- | [<- | [<- | []]]]; reflexivity.
  - reflexivity.
  - reflexivity.
  - intros m [<- | [<- | [<- | []]]]; reflexivity.
  - exists ack. split; [exact Hack|].
    vm_compute in Hack. injection Hack as <-. reflexivity.
Defined.

(** X22.  [create_group] is not one transaction.  When a member id is not
    that of a stored user, the acknowledgement is an error, and yet the
    group room stays stored, with the creator and every member that is a
    stored user listed as its participants. *)
Theorem failed_create_group_leaves_the_room :
  forall (st : Hub.t) (name : option string) (ids : list string)
         (creator new_id unknown : string) (now : Z),
    participants_reference_rooms (Hub.db st) ->
    Db.room_exists (Hub.db st) new_id = false ->
    Db.user_exists (Hub.db st) creator = true ->
    In unknown ids -> Db.user_exists (Hub.db st) unknown = false ->
    let res := Hub.create_group st name (Some ids) (Some creator) new_id now in
    (exists e, snd res = Throw e)
    /\ Db.room_exists (Hub.db (fst res)) new_id = true
    /\ forall uid,
         listed_in (Hub.db (fst res)) new_id uid
         <-> uid = creator
             \/ (In uid ids /\ Db.user_exists (Hub.db st) uid = true).
Proof.
  intros st name ids creator new_id unknown now Href Hnew Hc Hin Hunknown res.
  subst res.
  destruct (group_started (Hub.db st) new_id creator name now Href Hnew Hc)
    as [room [d1 [r [d2 (Hcreate & Hadd & Hid & Hty & Hby & Hu2 & Hr2 & Hg2)]]]].
  unfold Hub.create_group. rewrite Hcreate, Hadd, Hid.
  assert (Hex : forall u, Db.user_exists d2 u = Db.user_exists (Hub.db st) u).
  { intros u. unfold Db.user_exists. rewrite Hu2. reflexivity. }
  destruct (add_members_result ids d2 new_id creator (fun _ => False) now
              Hg2 Hr2) as (_ & Hrooms & Hg3 & Hf3).
  destruct (Hub.add_members d2 new_id ids now) as [failed d3].
  cbn [fst snd] in Hrooms, Hg3, Hf3.
  destruct failed as [e|].
  - cbn [fst snd Hub.db Hub.with_db].
    split; [exists e; reflexivity|]. split.
    + unfold Db.room_exists in *. rewrite Hrooms. exact Hr2.
    + intros uid.
      destruct (group_members_listed d3 new_id creator _ Hg3) as [Hlist _].
      rewrite Hlist, Hex. tauto.
  - exfalso. pose proof (proj1 Hf3 eq_refl unknown Hin) as H.
    rewrite Hex in H. congruence.
Qed.

Lemma failed_create_group_leaves_the_room_witness :
  (exists e,
      snd (Hub.create_group sample_hub None (Some ["u-nobody"; "u-bob"])
             (Some "u-alice") "g1" 600) = Throw e)
  /\ listed_in
       (Hub.db (fst (Hub.create_group sample_hub None
                       (Some ["u-nobody"; "u-bob"]) (Some "u-alice") "g1" 600)))
       "g1" "u-bob".
Proof.
  destruct (failed_create_group_leaves_the_room sample_hub None
              ["u-nobody"; "u-bob"] "u-alice" "g1" "u-nobody" 600)
    as [He [_ Hl]].
  - intros rp [<- | [<- | [<- | []]]]; reflexivity.
  - reflexivity.
  - reflexivity.
  - left. reflexivity.
  - reflexivity.
  - split; [exact He|]. apply Hl. right.
    split; [right; left; reflexivity | reflexivity].
Defined.

(** ** Typing indicators and messages *)

Lemma is_participant_iff (d : Db.t) (roomId : string) (s : Hub.session) :
  Hub.is_participant (RoomQueries.getParticipants d roomId) s = true
  <-> exists uid, Hub.userId s = Some uid /\ listed_in d roomId uid.
Proof.
  unfold Hub.is_participant, listed_in. destruct (Hub.userId s) as [uid|].
  - rewrite existsb_exists. split.
    + intros [p [Hp Hid]]. exists uid. split; [reflexivity|].
      apply in_map_iff. exists p. split; [apply eqb_true; exact Hid | exact Hp].
    + intros [uid' [[= <-] H]]. apply in_map_iff in H.
      destruct H as [p [Hid Hp]]. exists p. split; [exact Hp|].
      rewrite Hid. apply eqb_same.
  - split; [discriminate | intros [uid [H _]]; discriminate H].
Qed.

(** X23.  A typing indicator ([typing_start], [typing_stop]) of a
    registered socket for a room goes to the registered sockets of the
    listed participants of the room, the sender's own socket left out, and
    to no other socket; when the room id does not read as a [uuid] the
    lookup fails and the indicator is broadcast to every socket but the
    sender's.  An unregistered socket, or an indicator without a room,
    sends nothing. *)
Theorem typing_reaches_other_participants :
  forall (uuid_syntax : string -> bool) (event : string) (st : Hub.t)
         (sid : string) (roomId : option string),
    (JsMap.get (Hub.connectedUsers st) sid = None \/ truthy roomId = false ->
     Hub.typing uuid_syntax event st sid roomId = [])
    /\ forall user rid,
         JsMap.get (Hub.connectedUsers st) sid = Some user ->
         roomId = Some rid -> rid <> "" ->
         (uuid_syntax rid = false ->
          Hub.typing uuid_syntax event st sid roomId
          = [Hub.CastOthers sid event (Hub.typing_payload rid user)])
         /\ (uuid_syntax rid = true ->
             forall c,
               In c (Hub.typing uuid_syntax event st sid roomId)
               <-> exists sid' s uid,
                     c = Hub.CastTo sid' event (Hub.typing_payload rid user)
                     /\ In (sid', s) (Hub.connectedUsers st)
                     /\ sid' <> sid
                     /\ Hub.userId s = Some uid
                     /\ listed_in (Hub.db st) rid uid).
Proof.
  intros uuid_syntax event st sid roomId. split.
  - unfold Hub.typing. intros [H | H].
    + rewrite H. reflexivity.
    + destruct (JsMap.get (Hub.connectedUsers st) sid); [|reflexivity].
      destruct roomId as [rid|]; [|reflexivity]. rewrite H. reflexivity.
  - intros user rid Hget -> Hrid. unfold Hub.typing. rewrite Hget.
    cbn [truthy]. rewrite (eqb_false rid "" Hrid). cbn [negb].
    unfold Hub.participants_query. split.
    + intros ->. reflexivity.
    + intros ->. intros c. rewrite in_map_iff. split.
      * intros [[sid' s] [<- H]]. apply filter_In in H.
        destruct H as [Hin H]. cbn [fst snd] in H.
        apply andb_true_iff in H. destruct H as [Hne Hp].
        apply is_participant_iff in Hp. destruct Hp as [uid [Hu Hl]].
        exists sid', s, uid. cbn [fst]. repeat split; try assumption.
        intros ->. rewrite eqb_same in Hne. discriminate.
      * intros [sid' [s [uid (-> & Hin & Hne & Hu & Hl)]]].
        exists (sid', s). split; [reflexivity|].
        apply filter_In. split; [exact Hin|]. cbn [fst snd].
        rewrite (eqb_false sid' sid Hne). cbn [negb andb].
        apply is_participant_iff. exists uid. split; assumption.
Qed.

Lemma typing_reaches_other_participants_witness :
  Hub.typing_start sample_uuid sample_hub "s-alice" (Some "r1")
  = [Hub.CastTo "s-bob" "user_typing"
       (Hub.typing_payload "r1" (sample_session "s-alice" "u-alice" "alice"))]
  /\ Hub.typing_start sample_uuid sample_hub "s-alice" (Some "?")
     = [Hub.CastOthers "s-alice" "user_typing"
          (Hub.typing_payload "?" (sample_session "s-alice" "u-alice" "alice"))].
Proof.
  split; [reflexivity|].
  apply (proj1 (proj2 (typing_reaches_other_participants sample_uuid
                         "user_typing" sample_hub "s-alice" (Some "?"))
                  (sample_session "s-alice" "u-alice" "alice") "?"
                  eq_refl eq_refl ltac:(discriminate))).
  reflexivity.
Defined.

Lemma find_none_existsb {A : Type} (p : A -> bool) (l : list A) :
  existsb p l = false -> find p l = None.
Proof.
  induction l as [|x l IH]; cbn [existsb find]; [reflexivity|].
  destruct (p x); [discriminate | exact IH].
Qed.

Lemma find_replaced {A : Type} (p : A -> bool) (r : A) (l : list A) :
  existsb p l = true -> p r = true ->
  find p (map (fun x => if p x then r else x) l) = Some r.
Proof.
  intros Hl Hr. induction l as [|x l IH]; cbn [existsb] in Hl; [discriminate|].
  cbn [map find]. destruct (p x) eqn:E.
  - rewrite Hr. reflexivity.
  - rewrite E. apply IH. exact Hl.
Qed.

Lemma setStatus_sets (d : Db.t) (mid uid : string) (s : Db.delivery) (now : Z) :
  Db.message_exists d mid = true -> Db.user_exists d uid = true ->
  (exists r, fst (MessageQueries.setStatus d mid uid s now) = Ok r)
  /\ MessageQueries.status_of (snd (MessageQueries.setStatus d mid uid s now))
       mid uid = Some s.
Proof.
  intros Hm Hu. unfold MessageQueries.setStatus, MessageQueries.status_of.
  assert (Hr : MessageQueries.same_key mid uid
                 (MessageQueries.status_row mid uid s now) = true).
  { unfold MessageQueries.same_key. cbn. rewrite !eqb_same. reflexivity. }
  destruct (existsb (MessageQueries.same_key mid uid) (Db.message_statuses d))
    eqn:E.
  - cbn [fst snd Db.message_statuses Db.with_message_statuses].
    split; [eexists; reflexivity|].
    rewrite (find_replaced _ _ _ E Hr). reflexivity.
  - rewrite Hm, Hu.
    cbn [andb fst snd Db.message_statuses Db.with_message_statuses].
    split; [eexists; reflexivity|].
    rewrite find_app_none by (apply find_none_existsb; exact E).
    cbn [find]. rewrite Hr. reflexivity.
Qed.

Lemma setStatus_tables (d : Db.t) (mid uid : string) (s : Db.delivery) (now : Z) :
  let d' := snd (MessageQueries.setStatus d mid uid s now) in
  Db.users d' = Db.users d /\ Db.messages d' = Db.messages d
  /\ Db.rooms d' = Db.rooms d
  /\ Db.room_participants d' = Db.room_participants d.
Proof.
  unfold MessageQueries.setStatus.
  destruct (existsb _ _); [repeat split|].
  destruct (_ && _)%bool; repeat split.
Qed.

Lemma mark_sent_marks (ps : list RoomQueries.participant) :
  forall (d : Db.t) (mid uid : string) (now : Z),
    Db.message_exists d mid = true ->
    (forall p, In p ps -> Db.user_exists d (RoomQueries.p_id p) = true) ->
    let d' := Hub.mark_sent d mid ps uid now in
    Db.users d' = Db.users d /\ Db.messages d' = Db.messages d
    /\ Db.rooms d' = Db.rooms d
    /\ Db.room_participants d' = Db.room_participants d
    /\ (forall u, MessageQueries.status_of d mid u = Some Db.Sent ->
                  MessageQueries.status_of d' mid u = Some Db.Sent)
    /\ (forall p, In p ps -> RoomQueries.p_id p <> uid ->
                  MessageQueries.status_of d' mid (RoomQueries.p_id p)
                  = Some Db.Sent).
Proof.
  induction ps as [|p ps IH]; intros d mid uid now Hm Hps d'; subst d'.
  - cbn [Hub.mark_sent]. repeat split; auto. intros p [].
  - cbn [Hub.mark_sent].
    destruct (RoomQueries.p_id p =? uid) eqn:Ep.
    + apply eqb_true in Ep.
      destruct (IH d mid uid now Hm (fun q Hq => Hps q (or_intror Hq)))
        as (H1 & H2 & H3 & H4 & H5 & H6).
      repeat split; try assumption.
      intros q [<- | Hq] Hne; [congruence | apply H6; assumption].
    + pose proof (Hps p (or_introl eq_refl)) as Hu.
      destruct (setStatus_sets d mid (RoomQueries.p_id p) Db.Sent now Hm Hu)
        as [[r Hok] Hset].
      destruct (setStatus_tables d mid (RoomQueries.p_id p) Db.Sent now)
        as (T1 & T2 & T3 & T4).
      assert (Hkeep : forall u,
                 MessageQueries.status_of d mid u = Some Db.Sent ->
                 MessageQueries.status_of
                   (snd (MessageQueries.setStatus d mid (RoomQueries.p_id p)
                           Db.Sent now)) mid u = Some Db.Sent).
      { intros u H.
        destruct (setStatus_status d mid (RoomQueries.p_id p) Db.Sent now
                    mid u Db.Sent H) as [b [Hb [-> | [-> _]]]]; exact Hb. }
      destruct (MessageQueries.setStatus d mid (RoomQueries.p_id p) Db.Sent now)
        as [res d1].
      cbn [fst snd] in *. subst res.
      assert (Hm1 : Db.message_exists d1 mid = true).
      { unfold Db.message_exists in *. rewrite T2. exact Hm. }
      assert (Hps1 : forall q, In q ps ->
                               Db.user_exists d1 (RoomQueries.p_id q) = true).
      { intros q Hq. unfold Db.user_exists. rewrite T1.
        apply (Hps q (or_intror Hq)). }
      destruct (IH d1 mid uid now Hm1 Hps1) as (H1 & H2 & H3 & H4 & H5 & H6).
      split; [congruence|]. split; [congruence|]. split; [congruence|].
      split; [congruence|]. split.
      * intros u H. apply H5, Hkeep, H.
      * intros q [<- | Hq] Hne; [apply H5; exact Hset | apply H6; assumption].
Qed.

Lemma getParticipants_same (d d' : Db.t) (roomId : string) :
  Db.users d' = Db.users d ->
  Db.room_participants d' = Db.room_participants d ->
  RoomQueries.getParticipants d' roomId = RoomQueries.getParticipants d roomId.
Proof.
  intros Hu Hp. unfold RoomQueries.getParticipants. rewrite Hu, Hp.
  reflexivity.
Qed.

(** X24.  A group message of a registered user for a stored room: the
    message is stored with the room, the sender and the text; every listed
    participant of the room but the sender gets the status [sent] for it;
    and [receive_group_message], carrying the id of the stored message,
    goes to the registered sockets of the listed participants and to no
    other socket. *)
Theorem group_message_stored_and_delivered :
  forall (uuid_syntax : string -> bool) (st : Hub.t) (sid : string)
         (data : Hub.group_data) (rid uid new_id : string) (now timestamp : Z),
    Hub.session_user st sid = Some uid ->
    Hub.gd_roomId data = Some rid -> rid <> "" -> new_id <> "" ->
    uuid_syntax rid = true ->
    Db.room_exists (Hub.db st) rid = true ->
    Db.user_exists (Hub.db st) uid = true ->
    Db.message_exists (Hub.db st) new_id = false ->
    let res := Hub.send_group_message uuid_syntax st sid data new_id now
                 timestamp in
    let payload :=
      {| Hub.gp_data := data; Hub.gp_senderId := Some uid;
         Hub.gp_socketId := sid; Hub.gp_timestamp := timestamp;
         Hub.gp_messageId := Some new_id |} in
    MessageQueries.findById (Hub.db (fst res)) new_id
    = Some {| Db.m_id := new_id; Db.m_room_id := rid;
              Db.m_sender_id := Some uid;
              Db.m_content :=
                if truthy (Hub.gd_text data) then Hub.gd_text data else None;
              Db.m_message_type := Db.TText; Db.m_file_url := None;
              Db.m_created_at := now; Db.m_edited_at := None |}
    /\ (forall uid', listed_in (Hub.db st) rid uid' -> uid' <> uid ->
                     MessageQueries.status_of (Hub.db (fst res)) new_id uid'
                     = Some Db.Sent)
    /\ (forall c,
           In c (snd res)
           <-> exists sid' s uid',
                 c = Hub.CastTo sid' "receive_group_message" payload
                 /\ In (sid', s) (Hub.connectedUsers st)
                 /\ Hub.userId s = Some uid'
                 /\ listed_in (Hub.db st) rid uid').
Proof.
  intros uuid_syntax st sid data rid uid new_id now timestamp
         Huser Hroom Hrid Hnew Huuid Hr Hu Hfresh res payload.
  subst res payload. unfold Hub.send_group_message.
  rewrite Huser, Hroom.
  assert (Ht : truthy (Some rid) = true).
  { cbn [truthy]. rewrite (eqb_false rid "" Hrid). reflexivity. }
  assert (Ht' : truthy (Some new_id) = true).
  { cbn [truthy]. rewrite (eqb_false new_id "" Hnew). reflexivity. }
  rewrite Ht. unfold MessageQueries.create.
  rewrite Hfresh, Hr, Hu. cbn [orb negb Db.m_id].
  rewrite Ht'. unfold Hub.participants_query. rewrite Huuid.
  set (m := {| Db.m_id := new_id; Db.m_room_id := rid;
               Db.m_sender_id := Some uid;
               Db.m_content :=
                 if truthy (Hub.gd_text data) then Hub.gd_text data else None;
               Db.m_message_type := Db.TText;
               Db.m_file_url := if truthy None then None else None;
               Db.m_created_at := now; Db.m_edited_at := None |}).
  set (d1 := Db.with_messages (Hub.db st) (Db.messages (Hub.db st) ++ [m])%list).
  assert (Hps1 : RoomQueries.getParticipants d1 rid
                 = RoomQueries.getParticipants (Hub.db st) rid)
    by reflexivity.
  assert (Hm1 : Db.message_exists d1 new_id = true).
  { unfold Db.message_exists, d1. cbn [Db.messages Db.with_messages].
    rewrite existsb_app. cbn [existsb]. unfold m at 1. cbn [Db.m_id].
    rewrite eqb_same. apply orb_true_iff. right. reflexivity. }
  assert (Hex1 : forall p, In p (RoomQueries.getParticipants d1 rid) ->
                           Db.user_exists d1 (RoomQueries.p_id p) = true).
  { intros p Hp.
    assert (Hl : listed_in d1 rid (RoomQueries.p_id p))
      by (apply in_map; exact Hp).
    apply listed_in_iff in Hl. exact (proj1 Hl). }
  destruct (mark_sent_marks (RoomQueries.getParticipants d1 rid) d1 new_id uid
              now Hm1 Hex1) as (M1 & M2 & M3 & M4 & _ & M6).
  set (d2 := Hub.mark_sent d1 new_id (RoomQueries.getParticipants d1 rid) uid now)
    in *.
  cbn [fst snd Hub.db Hub.with_db].
  assert (Hps2 : RoomQueries.getParticipants d2 rid
                 = RoomQueries.getParticipants (Hub.db st) rid).
  { rewrite (getParticipants_same d1 d2 rid M1 M4). exact Hps1. }
  split; [|split].
  - unfold MessageQueries.findById. rewrite M2. unfold d1.
    cbn [Db.messages Db.with_messages].
    apply find_last; [|unfold m; cbn [Db.m_id]; apply eqb_same].
    intros y Hy. unfold Db.message_exists in Hfresh.
    destruct (Db.m_id y =? new_id) eqn:E; [|reflexivity].
    rewrite <- Hfresh. symmetry. apply existsb_exists. exists y.
    split; assumption.
  - intros uid' Hl Hne. unfold listed_in in Hl. rewrite <- Hps1 in Hl.
    apply in_map_iff in Hl. destruct Hl as [p [<- Hp]].
    apply M6; assumption.
  - intros c. rewrite Hps2, in_map_iff. split.
    + intros [[sid' s] [<- H]]. apply filter_In in H.
      destruct H as [Hin Hp]. cbn [fst snd] in Hp.
      apply is_participant_iff in Hp. destruct Hp as [uid' [Hu' Hl]].
      exists sid', s, uid'. cbn [fst]. repeat split; assumption.
    + intros [sid' [s [uid' (-> & Hin & Hu' & Hl)]]].
      exists (sid', s). split; [reflexivity|].
      apply filter_In. split; [exact Hin|]. cbn [snd].
      apply is_participant_iff. exists uid'. split; assumption.
Qed.

Lemma group_message_stored_and_delivered_witness :
  MessageQueries.status_of
    (Hub.db (fst (Hub.send_group_message sample_uuid sample_hub "s-alice" hello
                    "m9" 700 701))) "m9" "u-carol" = Some Db.Sent
  /\ map (fun c => match c with
                   | Hub.CastTo sid' _ _ => sid'
                   | _ => ""
                   end)
         (snd (Hub.send_group_message sample_uuid sample_hub "s-alice" hello
                 "m9" 700 701))
     = ["s-alice"; "s-bob"].
Proof.
  split; [|reflexivity].
  apply (proj1 (proj2
           (group_message_stored_and_delivered sample_uuid sample_hub "s-alice"
              hello "r1" "u-alice" "m9" 700 701
              eq_refl eq_refl ltac:(discriminate) ltac:(discriminate)
              eq_refl eq_refl eq_refl eq_refl)));
    [|discriminate].
  apply listed_in_iff. split; [reflexivity|].
  exists (sample_member "r1" "u-carol").
  split; [right; right; left; reflexivity|]. repeat split.
Defined.

Lemma with_db_same (st : Hub.t) : Hub.with_db st (Hub.db st) = st.
Proof. destruct st; reflexivity. Qed.

(** X25.  A group message without a room id, or with a room id that does
    not read as a [uuid] (and so names no stored room), is not stored and
    is sent to every socket with [io.emit]; it carries the [messageId] the
    client put into it, if any. *)
Theorem group_message_without_room_goes_to_all :
  forall (uuid_syntax : string -> bool) (st : Hub.t) (sid : string)
         (data : Hub.group_data) (new_id : string) (now timestamp : Z),
    truthy (Hub.gd_roomId data) = false
    \/ (exists rid, Hub.gd_roomId data = Some rid
                    /\ uuid_syntax rid = false
                    /\ Db.room_exists (Hub.db st) rid = false) ->
    Hub.send_group_message uuid_syntax st sid data new_id now timestamp
    = (st,
       [Hub.CastAll "receive_group_message"
          {| Hub.gp_data := data; Hub.gp_senderId := Hub.session_user st sid;
             Hub.gp_socketId := sid; Hub.gp_timestamp := timestamp;
             Hub.gp_messageId := Hub.gd_messageId data |}]).
Proof.
  intros uuid_syntax st sid data new_id now timestamp H.
  unfold Hub.send_group_message.
  destruct H as [H | [rid (Hroom & Huuid & Hr)]].
  - rewrite H. cbn beta iota zeta.
    destruct (Hub.gd_messageId data); rewrite with_db_same; reflexivity.
  - rewrite Hroom.
    destruct (truthy (Some rid)) eqn:Ht.
    + unfold MessageQueries.create, Hub.participants_query.
      rewrite Hr, Huuid.
      rewrite orb_true_r. cbn [orb negb].
      destruct (Hub.session_user st sid) as [uid|];
        destruct (Hub.gd_messageId data) as [mid|];
        try destruct (truthy (Some mid));
        cbn beta iota zeta; rewrite with_db_same; reflexivity.
    + cbn beta iota zeta.
      destruct (Hub.gd_messageId data); rewrite with_db_same; reflexivity.
Qed.

Lemma group_message_without_room_goes_to_all_witness :
  snd (Hub.send_group_message sample_uuid sample_hub "s-alice"
         {| Hub.gd_roomId := None; Hub.gd_text := Some "hello";
            Hub.gd_messageId := None; Hub.gd_rest := [] |} "m9" 700 701)
  = [Hub.CastAll "receive_group_message"
       {| Hub.gp_data :=
            {| Hub.gd_roomId := None; Hub.gd_text := Some "hello";
               Hub.gd_messageId := None; Hub.gd_rest := [] |};
          Hub.gp_senderId := Some "u-alice"; Hub.gp_socketId := "s-alice";
          Hub.gp_timestamp := 701; Hub.gp_messageId := None |}].
Proof.
  rewrite (group_message_without_room_goes_to_all sample_uuid sample_hub
             "s-alice"
             {| Hub.gd_roomId := None; Hub.gd_text := Some "hello";
                Hub.gd_messageId := None; Hub.gd_rest := [] |} "m9" 700 701
             (or_introl eq_refl)).
  reflexivity.
Defined.

(** X26.  A private message is always echoed to the sender's socket, after
    it has been sent to the first registered socket of the recipient when
    there is one, and always with the delivery status [sent].  For a
    registered sender who is a stored user and a stored room it is stored
    and carries the id of the stored message, and a recipient who is a
    stored user gets the status [sent] for it; without a room id nothing
    is stored. *)
Theorem private_message_echoed :
  forall (st : Hub.t) (sid recipientId : string) (text : option string)
         (sender : json) (roomId : option string) (new_id : string)
         (now timestamp : Z),
    let res := Hub.send_private_message st sid recipientId text sender roomId
                 new_id now timestamp in
    (exists messageData,
        Hub.pp_delivery_status messageData = Db.Sent
        /\ Hub.pp_senderId messageData = Hub.session_user st sid
        /\ (Hub.resolveSocketId (Hub.connectedUsers st) recipientId = None ->
            snd res = [Hub.CastTo sid "receive_private_message" messageData])
        /\ (forall r,
               Hub.resolveSocketId (Hub.connectedUsers st) recipientId = Some r ->
               r <> "" ->
               snd res = [Hub.CastTo r "receive_private_message" messageData;
                          Hub.CastTo sid "receive_private_message" messageData])
        /\ (truthy roomId = false ->
            fst res = st /\ Hub.pp_messageId messageData = None)
        /\ (forall rid uid,
               roomId = Some rid -> rid <> "" -> new_id <> "" ->
               Hub.session_user st sid = Some uid ->
               Db.room_exists (Hub.db st) rid = true ->
               Db.user_exists (Hub.db st) uid = true ->
               Db.message_exists (Hub.db st) new_id = false ->
               Hub.pp_messageId messageData = Some new_id
               /\ option_map
                    (fun m => (Db.m_room_id m, Db.m_sender_id m, Db.m_content m))
                    (MessageQueries.findById (Hub.db (fst res)) new_id)
                  = Some (rid, Some uid, if truthy text then text else None)
               /\ (recipientId <> "" ->
                   Db.user_exists (Hub.db st) recipientId = true ->
                   MessageQueries.status_of (Hub.db (fst res)) new_id recipientId
                   = Some Db.Sent))).
Proof.
  intros st sid recipientId text sender roomId new_id now timestamp res.
  subst res. unfold Hub.send_private_message.
  match goal with
  | |- context [let '(d1, messageId) := ?X in _] =>
      destruct X as [d1 messageId] eqn:Estore
  end.
  exists {| Hub.pp_text := text; Hub.pp_sender := sender; Hub.pp_socketId := sid;
            Hub.pp_senderId := Hub.session_user st sid;
            Hub.pp_recipientId := recipientId; Hub.pp_roomId := roomId;
            Hub.pp_timestamp := timestamp; Hub.pp_messageId := messageId;
            Hub.pp_delivery_status := Db.Sent |}.
  cbn [fst snd Hub.pp_delivery_status Hub.pp_senderId Hub.pp_messageId].
  split; [reflexivity|]. split; [reflexivity|].
  split; [intros ->; reflexivity|].
  split.
  { intros r -> Hr. cbn [truthy]. rewrite (eqb_false r "" Hr). reflexivity. }
  split.
  - intros Hfalsy.
    assert (E : (d1, messageId) = (Hub.db st, None)).
    { rewrite <- Estore. destruct roomId as [rid|]; [|reflexivity].
      destruct (Hub.session_user st sid); [|reflexivity].
      rewrite Hfalsy. reflexivity. }
    injection E as -> ->. split; [apply with_db_same | reflexivity].
  - intros rid uid -> Hrid Hnew Huser Hr Hu Hfresh.
    assert (Ht : truthy (Some rid) = true).
    { cbn [truthy]. rewrite (eqb_false rid "" Hrid). reflexivity. }
    assert (Ht' : truthy (Some new_id) = true).
    { cbn [truthy]. rewrite (eqb_false new_id "" Hnew). reflexivity. }
    rewrite Huser, Ht in Estore. unfold MessageQueries.create in Estore.
    rewrite Hfresh, Hr, Hu in Estore. cbn [orb negb Db.m_id] in Estore.
    injection Estore as <- <-.
    split; [reflexivity|]. rewrite Ht'.
    set (m := {| Db.m_id := new_id; Db.m_room_id := rid;
                 Db.m_sender_id := Some uid;
                 Db.m_content := if truthy text then text else None;
                 Db.m_message_type := Db.TText;
                 Db.m_file_url := None;
                 Db.m_created_at := now; Db.m_edited_at := None |}).
    set (d1 := Db.with_messages (Hub.db st) (Db.messages (Hub.db st) ++ [m])%list).
    assert (Hm1 : Db.message_exists d1 new_id = true).
    { unfold Db.message_exists, d1. cbn [Db.messages Db.with_messages].
      rewrite existsb_app. cbn [existsb]. unfold m at 1. cbn [Db.m_id].
      rewrite eqb_same. apply orb_true_iff. right. reflexivity. }
    assert (Hfind : MessageQueries.findById d1 new_id = Some m).
    { unfold MessageQueries.findById, d1. cbn [Db.messages Db.with_messages].
      apply find_last; [|unfold m; cbn [Db.m_id]; apply eqb_same].
      intros y Hy. unfold Db.message_exists in Hfresh.
      destruct (Db.m_id y =? new_id) eqn:E; [|reflexivity].
      rewrite <- Hfresh. symmetry. apply existsb_exists. exists y.
      split; assumption. }
    split.
    + cbn [Hub.db Hub.with_db].
      assert (Hmsgs : forall d', Db.messages d' = Db.messages d1 ->
                                 MessageQueries.findById d' new_id = Some m).
      { intros d' E. unfold MessageQueries.findById in *. rewrite E.
        exact Hfind. }
      destruct (truthy (Some recipientId)); cbn [andb].
      * rewrite (Hmsgs _ (proj1 (proj2
                   (setStatus_tables d1 new_id recipientId Db.Sent now)))).
        reflexivity.
      * rewrite Hfind. reflexivity.
    + intros Hrec Hurec. cbn [Hub.db Hub.with_db truthy].
      rewrite (eqb_false recipientId "" Hrec). cbn [negb andb].
      apply setStatus_sets; [exact Hm1 | exact Hurec].
Qed.

Lemma private_message_echoed_witness :
  map (fun c => match c with
                | Hub.CastTo sid' _ _ => sid'
                | _ => ""
                end)
      (snd (Hub.send_private_message sample_hub "s-alice" "u-bob" (Some "hi")
              JNull (Some "r1") "m9" 700 701))
  = ["s-bob"; "s-alice"].
Proof.
  destruct (private_message_echoed sample_hub "s-alice" "u-bob" (Some "hi")
              JNull (Some "r1") "m9" 700 701)
    as [messageData (_ & _ & _ & H & _)].
  rewrite (H "s-bob" eq_refl ltac:(discriminate)). reflexivity.
Defined.

(** ** Workers *)

Lemma getOrCreateRoom_new (ms : Media.t) (roomId : string) (now : Z) :
  JsMap.get (Media.rooms ms) roomId = None ->
  let ms' := snd (Media.getOrCreateRoom ms roomId now) in
  Media.workers ms' = Media.workers ms
  /\ Media.nextWorkerIndex ms'
     = Nat.modulo (S (Media.nextWorkerIndex ms)) (Media.workers ms)
  /\ (exists r, JsMap.get (Media.rooms ms') roomId = Some r
                /\ Media.router r = Media.nextWorkerIndex ms)
  /\ (forall rid, rid <> roomId ->
                  JsMap.get (Media.rooms ms') rid = JsMap.get (Media.rooms ms) rid).
Proof.
  intros Hnew. unfold Media.getOrCreateRoom. rewrite Hnew.
  cbn [snd Media.workers Media.nextWorkerIndex Media.rooms].
  split; [reflexivity|]. split; [reflexivity|]. split.
  - eexists. split; [apply get_set_same | reflexivity].
  - intros rid Hne. apply get_set_other. exact Hne.
Qed.

(** X27.  Rooms are spread over the workers in turn: when rooms with new,
    pairwise different ids are created one after the other, the [j]-th of
    them gets the router of worker [(nextWorkerIndex + j) mod workers];
    [getOrCreateRoom] for a room that exists returns it and does not move
    on to the next worker. *)
Theorem rooms_take_workers_in_turn :
  forall (ids : list string) (ms : Media.t) (now : Z),
    (0 < Media.workers ms)%nat ->
    (Media.nextWorkerIndex ms < Media.workers ms)%nat ->
    NoDup ids ->
    (forall id, In id ids -> JsMap.get (Media.rooms ms) id = None) ->
    let ms' :=
      fold_left (fun m id => snd (Media.getOrCreateRoom m id now)) ids ms in
    (forall j id,
        nth_error ids j = Some id ->
        exists r, JsMap.get (Media.rooms ms') id = Some r
                  /\ Media.router r
                     = Nat.modulo (Media.nextWorkerIndex ms + j)
                                  (Media.workers ms))
    /\ (forall id r,
           JsMap.get (Media.rooms ms') id = Some r ->
           Media.getOrCreateRoom ms' id now = (r, ms')).
Proof.
  intros ids ms now Hw Hi Hnd Hnew ms'. subst ms'. split.
  - revert ms Hw Hi Hnew.
    induction ids as [|x ids IH]; intros ms Hw Hi Hnew j id Hj.
    + destruct j; discriminate Hj.
    + inversion Hnd as [|? ? Hx Hnd']; subst. cbn [fold_left].
      destruct (getOrCreateRoom_new ms x now (Hnew x (or_introl eq_refl)))
        as (Hw1 & Hi1 & [r [Hr Hrouter]] & Hother).
      set (ms1 := snd (Media.getOrCreateRoom ms x now)) in *.
      assert (Hkeep : forall ids' m rid,
                 ~ In rid ids' ->
                 JsMap.get
                   (Media.rooms
                      (fold_left
                         (fun m id => snd (Media.getOrCreateRoom m id now))
                         ids' m)) rid
                 = JsMap.get (Media.rooms m) rid).
      { induction ids' as [|y ids' IH']; intros m rid Hrid; [reflexivity|].
        cbn [fold_left]. rewrite IH' by (intros H; apply Hrid; right; exact H).
        unfold Media.getOrCreateRoom.
        destruct (JsMap.get (Media.rooms m) y); [reflexivity|].
        cbn [snd Media.rooms]. apply get_set_other.
        intros ->. apply Hrid. left. reflexivity. }
      destruct j as [|j].
      * injection Hj as <-. exists r. rewrite (Hkeep ids ms1 x Hx).
        split; [exact Hr|]. rewrite Hrouter, Nat.add_0_r.
        symmetry. apply Nat.mod_small. exact Hi.
      * cbn [nth_error] in Hj.
        assert (Hw' : (0 < Media.workers ms1)%nat) by (rewrite Hw1; exact Hw).
        assert (Hi' : (Media.nextWorkerIndex ms1 < Media.workers ms1)%nat).
        { rewrite Hi1, Hw1. apply Nat.mod_upper_bound. lia. }
        assert (Hnew' : forall id', In id' ids ->
                                    JsMap.get (Media.rooms ms1) id' = None).
        { intros id' Hid'. rewrite Hother; [apply Hnew; right; exact Hid'|].
          intros ->. apply Hx. exact Hid'. }
        destruct (IH Hnd' ms1 Hw' Hi' Hnew' j id Hj) as [r' [Hr' Hrouter']].
        exists r'. split; [exact Hr'|]. rewrite Hrouter', Hi1, Hw1.
        rewrite Nat.Div0.add_mod_idemp_l.
        f_equal. lia.
  - generalize (fold_left (fun m id => snd (Media.getOrCreateRoom m id now))
                  ids ms).
    intros m' id r Hr. unfold Media.getOrCreateRoom. rewrite Hr. reflexivity.
Qed.

Lemma rooms_take_workers_in_turn_witness :
  map (fun id =>
         option_map Media.router
           (JsMap.get
              (Media.rooms
                 (fold_left (fun m id => snd (Media.getOrCreateRoom m id 0))
                    ["a"; "b"; "c"]
                    {| Media.workers := 2; Media.nextWorkerIndex := 1;
                       Media.rooms := []; Media.peers := [] |})) id))
      ["a"; "b"; "c"]
  = [Some 1%nat; Some 0%nat; Some 1%nat].
Proof.
  destruct (rooms_take_workers_in_turn ["a"; "b"; "c"]
              {| Media.workers := 2; Media.nextWorkerIndex := 1;
                 Media.rooms := []; Media.peers := [] |} 0)
    as [H _].
  - cbn. lia.
  - cbn. lia.
  - repeat constructor; cbn; intuition discriminate.
  - intros id _. reflexivity.
  - destruct (H 0%nat "a" eq_refl) as [ra [Ha Hra]].
    destruct (H 1%nat "b" eq_refl) as [rb [Hb Hrb]].
    destruct (H 2%nat "c" eq_refl) as [rc [Hc Hrc]].
    cbn [map]. rewrite Ha, Hb, Hc. cbn [option_map].
    rewrite Hra, Hrb, Hrc. reflexivity.
Defined.

(** ** Uploads *)



(** ** The rooms of a user *)

Lemma latest_message_newest (d : Db.t) (roomId : string) :
  match RoomQueries.latest_message d roomId with
  | None => forall m, In m (Db.messages d) -> Db.m_room_id m <> roomId
  | Some m0 =>
      In m0 (Db.messages d) /\ Db.m_room_id m0 = roomId
      /\ forall m, In m (Db.messages d) -> Db.m_room_id m = roomId ->
                   (Db.m_created_at m <= Db.m_created_at m0)%Z
  end.
Proof.
  unfold RoomQueries.latest_message.
  set (le := fun a b : Db.message => (Db.m_created_at b <=? Db.m_created_at a)%Z).
  set (sel := fun m : Db.message => Db.m_room_id m =? roomId).
  assert (Hin : forall m, In m (order_by le (filter sel (Db.messages d)))
                          <-> In m (Db.messages d) /\ Db.m_room_id m = roomId).
  { intros m. rewrite order_by_In, filter_In. unfold sel.
    rewrite String.eqb_eq. reflexivity. }
  assert (Hs : StronglySorted (fun a b => le a b = true)
                 (order_by le (filter sel (Db.messages d)))).
  { apply order_by_sorted.
    - intros a b. unfold le. rewrite !Z.leb_le. lia.
    - intros a b c. unfold le. rewrite !Z.leb_le. lia. }
  destruct (order_by le (filter sel (Db.messages d))) as [|m0 rest].
  - cbn [hd_error]. intros m Hm Hr. apply (proj2 (Hin m)). split; assumption.
  - cbn [hd_error].
    destruct (proj1 (Hin m0) (or_introl eq_refl)) as [H1 H2].
    split; [exact H1|]. split; [exact H2|].
    intros m Hm Hr. inversion Hs as [|? ? _ Hall]; subst.
    destruct (proj2 (Hin m) (conj Hm Hr)) as [<- | Hrest]; [lia|].
    pose proof (proj1 (Forall_forall _ _) Hall m Hrest) as H.
    unfold le in H. apply Z.leb_le in H. exact H.
Qed.

(** X29.  [get_rooms] for a user id that reads as a [uuid] acknowledges
    exactly the stored rooms in which the user has a row that has not been
    left, each with its listed participants and with the preview of a
    newest message of the room (no preview for a room without messages),
    rooms with the latest message first and rooms without messages last.
    For another text the acknowledgement is an error, and for a missing
    user id it is the empty list. *)
Theorem get_rooms_lists_memberships :
  forall (uuid_syntax : string -> bool) (st : Hub.t) (uid : string),
    Hub.get_rooms uuid_syntax st None = Ok []
    /\ (uuid_syntax uid = false ->
        exists e, Hub.get_rooms uuid_syntax st (Some uid) = Throw e)
    /\ (uuid_syntax uid = true ->
        exists rows,
          Hub.get_rooms uuid_syntax st (Some uid) = Ok rows
          /\ (forall r, In r (map (fun x => RoomQueries.lr_room (fst x)) rows)
                        <-> member_of (Hub.db st) uid r)
          /\ (forall row ps,
                 In (row, ps) rows ->
                 ps = RoomQueries.getParticipants (Hub.db st)
                        (Db.r_id (RoomQueries.lr_room row))
                 /\ preview_of (Hub.db st) row)
          /\ StronglySorted recent_before (map fst rows)).
Proof.
  intros uuid_syntax st uid. unfold Hub.get_rooms.
  split; [reflexivity|]. split.
  - intros ->. eexists. reflexivity.
  - intros ->. eexists. split; [reflexivity|].
    set (d := Hub.db st).
    assert (Hrow : forall row,
               In row (RoomQueries.listByUser d uid)
               <-> exists r rp,
                     In r (Db.rooms d) /\ In rp (Db.room_participants d)
                     /\ Db.rp_room_id rp = Db.r_id r
                     /\ Db.rp_user_id rp = uid /\ Db.rp_left_at rp = None
                     /\ row = {| RoomQueries.lr_room := r;
                                 RoomQueries.lr_role := Db.rp_role rp;
                                 RoomQueries.lr_last_message :=
                                   match RoomQueries.latest_message d (Db.r_id r) with
                                   | Some m => Db.m_content m
                                   | None => None
                                   end;
                                 RoomQueries.lr_last_message_at :=
                                   option_map Db.m_created_at
                                     (RoomQueries.latest_message d (Db.r_id r)) |}).
    { intros row. unfold RoomQueries.listByUser.
      rewrite order_by_In, in_flat_map. split.
      - intros [r [Hr H]]. apply in_map_iff in H. destruct H as [rp [<- H]].
        apply filter_In in H. destruct H as [Hrp H].
        apply andb_true_iff in H. destruct H as [H Hl].
        apply andb_true_iff in H. destruct H as [H1 H2].
        apply eqb_true in H1. apply eqb_true in H2.
        exists r, rp. repeat split; try assumption.
        destruct (Db.rp_left_at rp); [discriminate | reflexivity].
      - intros [r [rp (Hr & Hrp & H1 & H2 & Hl & ->)]].
        exists r. split; [exact Hr|]. apply in_map_iff. exists rp.
        split; [reflexivity|]. apply filter_In. split; [exact Hrp|].
        rewrite H1, H2, Hl, !eqb_same. reflexivity. }
    split; [|split].
    + intros r. rewrite map_map. cbn [fst]. rewrite in_map_iff.
      unfold member_of. fold d. split.
      * intros [row [<- Hin]]. apply Hrow in Hin.
        destruct Hin as [r0 [rp (Hr & Hrp & H1 & H2 & Hl & ->)]].
        cbn [RoomQueries.lr_room]. split; [exact Hr|].
        exists rp. repeat split; assumption.
      * intros [Hr [rp (Hrp & H1 & H2 & Hl)]].
        eexists. split; [|apply Hrow; exists r, rp; repeat split; eassumption].
        reflexivity.
    + intros row ps Hin. apply in_map_iff in Hin.
      destruct Hin as [row' [E Hin]]. injection E as -> <-.
      split; [reflexivity|]. apply Hrow in Hin.
      destruct Hin as [r [rp (Hr & Hrp & H1 & H2 & Hl & ->)]].
      unfold preview_of.
      cbn [RoomQueries.lr_room RoomQueries.lr_last_message
           RoomQueries.lr_last_message_at].
      pose proof (latest_message_newest d (Db.r_id r)) as Hlatest.
      destruct (RoomQueries.latest_message d (Db.r_id r)) as [m0|];
        cbn [option_map].
      * destruct Hlatest as (A & B & C). split; [|exact C].
        exists m0. repeat split; assumption.
      * split; [reflexivity | exact Hlatest].
    + rewrite map_map. cbn [fst]. rewrite map_id.
      assert (H : StronglySorted
                    (fun a b => RoomQueries.latest_first a b = true)
                    (RoomQueries.listByUser d uid)).
      { unfold RoomQueries.listByUser. apply order_by_sorted.
        - intros a b. unfold RoomQueries.latest_first.
          destruct (RoomQueries.lr_last_message_at a),
                   (RoomQueries.lr_last_message_at b);
            rewrite ?Z.leb_le; try lia; auto.
        - intros a b c. unfold RoomQueries.latest_first.
          destruct (RoomQueries.lr_last_message_at a),
                   (RoomQueries.lr_last_message_at b),
                   (RoomQueries.lr_last_message_at c);
            rewrite ?Z.leb_le; try lia; try discriminate; auto. }
      clear -H. induction H as [|a l Hl IH Ha]; constructor; [exact IH|].
      apply Forall_forall. intros b Hb.
      pose proof (proj1 (Forall_forall _ _) Ha b Hb) as Hab.
      unfold RoomQueries.latest_first in Hab. unfold recent_before.
      destruct (RoomQueries.lr_last_message_at a),
               (RoomQueries.lr_last_message_at b);
        try exact I; try discriminate Hab.
      apply Z.leb_le. exact Hab.
Qed.

Lemma get_rooms_lists_memberships_witness :
  exists rows,
    Hub.get_rooms sample_uuid three_messages (Some "u-bob") = Ok rows
    /\ map (fun x => (Db.r_id (RoomQueries.lr_room (fst x)),
                      RoomQueries.lr_last_message_at (fst x))) rows
       = [("r1", Some 300)].
Proof.
  destruct (proj2 (proj2 (get_rooms_lists_memberships sample_uuid
                            three_messages "u-bob")) eq_refl)
    as [rows [Hrows _]].
  exists rows. split; [exact Hrows|].
  vm_compute in Hrows. injection Hrows as <-. reflexivity.
Defined.

(** ** Presence *)

Lemma setOnlineStatus_rows (d : Db.t) (id : string) (isOnline : bool) (now : Z)
    (uid : string) (u : Db.user) :
  UserQueries.findById d uid = Some u ->
  UserQueries.findById (snd (UserQueries.setOnlineStatus d id isOnline now)) uid
  = Some (if Db.u_id u =? id then UserQueries.set_online isOnline now u else u).
Proof.
  unfold UserQueries.findById, UserQueries.setOnlineStatus. intros H.
  cbn [snd Db.users Db.with_users].
  rewrite find_map_keyed; [rewrite H; reflexivity|].
  intros x. destruct (Db.u_id x =? id); reflexivity.
Qed.

(** X30.  Presence in the database and on the wire.  [register_user] with
    a user id leaves [last_seen] of the user as it is, and [disconnect] of
    a session with a user id sets it to the time of the update; both leave
    the other columns of the row (password, role, status) and the rows of
    all other users alone.  Each of them announces the change of the user
    with [user_status_changed] and then the registered sessions with
    [users_online], to every socket; a socket that disconnects without a
    registered user id changes no row and announces only [users_online]. *)
Theorem last_seen_is_set_at_disconnect :
  forall (st : Hub.t) (sid uid : string) (name : option string) (now : Z),
    uid <> "" ->
    let joined := Hub.register_user st sid (Some uid) name now in
    let left := fst (Hub.disconnect st sid now) in
    (forall id u,
        UserQueries.findById (Hub.db st) id = Some u ->
        UserQueries.findById (Hub.db (fst joined)) id
        = Some (if Db.u_id u =? uid then UserQueries.set_online true now u else u)
        /\ Db.u_last_seen (UserQueries.set_online true now u) = Db.u_last_seen u)
    /\ snd joined
       = [Hub.status_changed uid name true;
          Hub.ToAll "users_online"
            (Hub.users_online (Hub.connectedUsers (fst joined)))]
    /\ (Hub.session_user st sid = Some uid ->
        (forall id u,
            UserQueries.findById (Hub.db st) id = Some u ->
            UserQueries.findById (Hub.db (fst left)) id
            = Some (if Db.u_id u =? uid
                    then UserQueries.set_online false now u else u)
            /\ Db.u_last_seen (UserQueries.set_online false now u) = Some now)
        /\ exists s,
             JsMap.get (Hub.connectedUsers st) sid = Some s
             /\ snd left
                = [Hub.status_changed uid (Hub.username s) false;
                   Hub.ToAll "users_online"
                     (Hub.users_online (Hub.connectedUsers (fst left)))])
    /\ (Hub.session_user st sid = None ->
        Hub.db (fst left) = Hub.db st
        /\ snd left
           = [Hub.ToAll "users_online"
                (Hub.users_online (Hub.connectedUsers (fst left)))]).
Proof.
  intros st sid uid name now Huid joined left.
  assert (Ht : truthy (Some uid) = true).
  { cbn [truthy]. rewrite (eqb_false uid "" Huid). reflexivity. }
  split; [|split; [|split]].
  - intros id u Hu. subst joined. unfold Hub.register_user. rewrite Ht.
    cbn [fst Hub.db]. split; [|reflexivity].
    apply setOnlineStatus_rows. exact Hu.
  - subst joined. unfold Hub.register_user. rewrite Ht. reflexivity.
  - intros Hs. apply session_user_truthy in Hs.
    destruct Hs as [s [Hget [Hid Hts]]].
    subst left. unfold Hub.disconnect. rewrite Hget, Hid, Hts.
    destruct (Media.removePeer (Hub.mediaServer st) sid now) as [ms closed].
    cbn [fst snd Hub.db Hub.connectedUsers]. split.
    + intros id u Hu. split; [|reflexivity].
      apply setOnlineStatus_rows. exact Hu.
    + exists s. split; reflexivity.
  - intros Hs. subst left. unfold Hub.disconnect.
    unfold Hub.session_user in Hs.
    destruct (Media.removePeer (Hub.mediaServer st) sid now) as [ms closed].
    destruct (JsMap.get (Hub.connectedUsers st) sid) as [s|];
      [|split; reflexivity].
    destruct (Hub.userId s) as [u|] eqn:Eu; [|split; reflexivity].
    destruct (truthy (Some u)); [discriminate Hs | split; reflexivity].
Qed.

Lemma last_seen_is_set_at_disconnect_witness :
  option_map Db.u_last_seen
    (UserQueries.findById
       (Hub.db (fst (fst (Hub.disconnect sample_hub "s-bob" 30)))) "u-bob")
  = Some (Some 30).
Proof.
  destruct (proj1 (proj1 (proj2 (proj2
              (last_seen_is_set_at_disconnect sample_hub "s-bob" "u-bob" None 30
                 ltac:(discriminate)))) eq_refl)
              "u-bob" (sample_person "u-bob" "bob" 2) eq_refl) as [H _].
  rewrite H. reflexivity.
Defined.
